(** * Citation style detector: a shallow embedding and its verified properties

    The development follows the Python sources under
    [src/citation_detector/core/]:
    - [detector.py]  (class [CitationStyleDetector])  -> [Module Detector]
    - [extractor.py] (class [CitationExtractor])      -> [Module Extractor]
    - [validator.py] (class [CitationValidator])      -> [Module Validator]
    - [patterns.py]  (class [CitationPatterns])       -> [Module Patterns]

    Python values are modelled as follows.
    - [str] is a list of Unicode code points ([pystr]); [len] is [length].
    - an insertion-ordered [dict] is an association list ([odict]); lookups
      that raise [KeyError] in Python return [option].
    - a regular expression is its syntax tree ([regex]); the functions of the
      [re] module ([re.search], [re.match], [re.finditer], [re.findall],
      [re.sub]) are given by a backtracking matcher with the priorities of
      CPython's engine (leftmost start, alternatives left to right, greedy
      and lazy repetition).  Each pattern of the sources is transcribed next
      to its source text.
    - [int / int] is an exact rational ([Q]).

    The interpreter is CPython 3.11 or later.  The classes [\d] and
    [\w] and the matching without regard to case follow the character
    data of CPython 3.11 (Unicode 14.0.0).  A pattern that sets a global flag such as
    [(?i)] after another item does not compile there: [re.compile] raises
    [re.error], where versions up to 3.10 warned and let the flag apply to
    the whole pattern.

    Limits of the model.  [str.lower] lowers U+03A3 at the end of a word
    as it does elsewhere.  Without regard to case, a bracketed class is
    matched through the ASCII and Latin-1 upper case only; the sources
    match no such class that way.

    The definitions come first; [Analysis], [Scenarios], [CustomPatterns]
    and [Extraction] hold the notions and the concrete inputs that the
    statements use.  The properties follow, grouped by subject, each claim
    under its identifier (C1 to C10).  *)

From Stdlib Require Import String Ascii Bool Arith NArith ZArith QArith Lia List.
Import ListNotations.

Set Implicit Arguments.
Close Scope Q_scope.

(** ** Python strings *)

Definition char := N.
Bind Scope N_scope with char.
Definition pystr := list char.

(** An ASCII literal of the Python source as a list of code points. *)
Definition lit (s : string) : pystr :=
  map N_of_ascii (list_ascii_of_string s).

Definition NL : char := 10%N.

Fixpoint str_eqb (a b : pystr) : bool :=
  match a, b with
  | [], [] => true
  | x :: a', y :: b' => N.eqb x y && str_eqb a' b'
  | _, _ => false
  end.

(** [str.isspace] of a single character (CPython's [Py_UNICODE_ISSPACE]);
    the same set is used by [str.strip], [str.split()] and the class [\s]. *)
Definition ws_chars : list char :=
  [9; 10; 11; 12; 13; 28; 29; 30; 31; 32; 133; 160; 5760;
   8192; 8193; 8194; 8195; 8196; 8197; 8198; 8199; 8200; 8201; 8202;
   8232; 8233; 8239; 8287; 12288]%N.

Definition is_space (c : char) : bool := existsb (N.eqb c) ws_chars.

Definition in_range (lo hi c : char) : bool := (N.leb lo c && N.leb c hi).

(** *** Character data

    The classes [\d] and [\w] of [re] and its matching without regard
    to case follow Unicode 14.0.0, the character data of CPython 3.11:
    the tables list what [re] accepts there, as ranges of code points. *)

Definition in_ranges (rs : list (char * char)) (c : char) : bool :=
  existsb (fun r => in_range (fst r) (snd r) c) rs.

(** The decimal digits: the characters that [\d] matches. *)
Definition digit_ranges : list (char * char) :=
  [
   (48, 57); (1632, 1641); (1776, 1785); (1984, 1993); (2406, 2415);
   (2534, 2543); (2662, 2671); (2790, 2799); (2918, 2927); (3046, 3055);
   (3174, 3183); (3302, 3311); (3430, 3439); (3558, 3567); (3664, 3673);
   (3792, 3801); (3872, 3881); (4160, 4169); (4240, 4249); (6112, 6121);
   (6160, 6169); (6470, 6479); (6608, 6617); (6784, 6793); (6800, 6809);
   (6992, 7001); (7088, 7097); (7232, 7241); (7248, 7257); (42528, 42537);
   (43216, 43225); (43264, 43273); (43472, 43481); (43504, 43513);
   (43600, 43609); (44016, 44025); (65296, 65305); (66720, 66729);
   (68912, 68921); (69734, 69743); (69872, 69881); (69942, 69951);
   (70096, 70105); (70384, 70393); (70736, 70745); (70864, 70873);
   (71248, 71257); (71360, 71369); (71472, 71481); (71904, 71913);
   (72016, 72025); (72784, 72793); (73040, 73049); (73120, 73129);
   (92768, 92777); (92864, 92873); (93008, 93017); (120782, 120831);
   (123200, 123209); (123632, 123641); (125264, 125273); (130032, 130041)
  ]%N.

(** The class [\d]. *)
Definition is_digit (c : char) : bool := in_ranges digit_ranges c.

(** The alphanumeric characters and the underscore: the characters that
    [\w] matches. *)
Definition word_ranges : list (char * char) :=
  [
   (48, 57); (65, 90); (95, 95); (97, 122); (170, 170); (178, 179);
   (181, 181); (185, 186); (188, 190); (192, 214); (216, 246); (248, 705);
   (710, 721); (736, 740); (748, 748); (750, 750); (880, 884); (886, 887);
   (890, 893); (895, 895); (902, 902); (904, 906); (908, 908); (910, 929);
   (931, 1013); (1015, 1153); (1162, 1327); (1329, 1366); (1369, 1369);
   (1376, 1416); (1488, 1514); (1519, 1522); (1568, 1610); (1632, 1641);
   (1646, 1647); (1649, 1747); (1749, 1749); (1765, 1766); (1774, 1788);
   (1791, 1791); (1808, 1808); (1810, 1839); (1869, 1957); (1969, 1969);
   (1984, 2026); (2036, 2037); (2042, 2042); (2048, 2069); (2074, 2074);
   (2084, 2084); (2088, 2088); (2112, 2136); (2144, 2154); (2160, 2183);
   (2185, 2190); (2208, 2249); (2308, 2361); (2365, 2365); (2384, 2384);
   (2392, 2401); (2406, 2415); (2417, 2432); (2437, 2444); (2447, 2448);
   (2451, 2472); (2474, 2480); (2482, 2482); (2486, 2489); (2493, 2493);
   (2510, 2510); (2524, 2525); (2527, 2529); (2534, 2545); (2548, 2553);
   (2556, 2556); (2565, 2570); (2575, 2576); (2579, 2600); (2602, 2608);
   (2610, 2611); (2613, 2614); (2616, 2617); (2649, 2652); (2654, 2654);
   (2662, 2671); (2674, 2676); (2693, 2701); (2703, 2705); (2707, 2728);
   (2730, 2736); (2738, 2739); (2741, 2745); (2749, 2749); (2768, 2768);
   (2784, 2785); (2790, 2799); (2809, 2809); (2821, 2828); (2831, 2832);
   (2835, 2856); (2858, 2864); (2866, 2867); (2869, 2873); (2877, 2877);
   (2908, 2909); (2911, 2913); (2918, 2927); (2929, 2935); (2947, 2947);
   (2949, 2954); (2958, 2960); (2962, 2965); (2969, 2970); (2972, 2972);
   (2974, 2975); (2979, 2980); (2984, 2986); (2990, 3001); (3024, 3024);
   (3046, 3058); (3077, 3084); (3086, 3088); (3090, 3112); (3114, 3129);
   (3133, 3133); (3160, 3162); (3165, 3165); (3168, 3169); (3174, 3183);
   (3192, 3198); (3200, 3200); (3205, 3212); (3214, 3216); (3218, 3240);
   (3242, 3251); (3253, 3257); (3261, 3261); (3293, 3294); (3296, 3297);
   (3302, 3311); (3313, 3314); (3332, 3340); (3342, 3344); (3346, 3386);
   (3389, 3389); (3406, 3406); (3412, 3414); (3416, 3425); (3430, 3448);
   (3450, 3455); (3461, 3478); (3482, 3505); (3507, 3515); (3517, 3517);
   (3520, 3526); (3558, 3567); (3585, 3632); (3634, 3635); (3648, 3654);
   (3664, 3673); (3713, 3714); (3716, 3716); (3718, 3722); (3724, 3747);
   (3749, 3749); (3751, 3760); (3762, 3763); (3773, 3773); (3776, 3780);
   (3782, 3782); (3792, 3801); (3804, 3807); (3840, 3840); (3872, 3891);
   (3904, 3911); (3913, 3948); (3976, 3980); (4096, 4138); (4159, 4169);
   (4176, 4181); (4186, 4189); (4193, 4193); (4197, 4198); (4206, 4208);
   (4213, 4225); (4238, 4238); (4240, 4249); (4256, 4293); (4295, 4295);
   (4301, 4301); (4304, 4346); (4348, 4680); (4682, 4685); (4688, 4694);
   (4696, 4696); (4698, 4701); (4704, 4744); (4746, 4749); (4752, 4784);
   (4786, 4789); (4792, 4798); (4800, 4800); (4802, 4805); (4808, 4822);
   (4824, 4880); (4882, 4885); (4888, 4954); (4969, 4988); (4992, 5007);
   (5024, 5109); (5112, 5117); (5121, 5740); (5743, 5759); (5761, 5786);
   (5792, 5866); (5870, 5880); (5888, 5905); (5919, 5937); (5952, 5969);
   (5984, 5996); (5998, 6000); (6016, 6067); (6103, 6103); (6108, 6108);
   (6112, 6121); (6128, 6137); (6160, 6169); (6176, 6264); (6272, 6276);
   (6279, 6312); (6314, 6314); (6320, 6389); (6400, 6430); (6470, 6509);
   (6512, 6516); (6528, 6571); (6576, 6601); (6608, 6618); (6656, 6678);
   (6688, 6740); (6784, 6793); (6800, 6809); (6823, 6823); (6917, 6963);
   (6981, 6988); (6992, 7001); (7043, 7072); (7086, 7141); (7168, 7203);
   (7232, 7241); (7245, 7293); (7296, 7304); (7312, 7354); (7357, 7359);
   (7401, 7404); (7406, 7411); (7413, 7414); (7418, 7418); (7424, 7615);
   (7680, 7957); (7960, 7965); (7968, 8005); (8008, 8013); (8016, 8023);
   (8025, 8025); (8027, 8027); (8029, 8029); (8031, 8061); (8064, 8116);
   (8118, 8124); (8126, 8126); (8130, 8132); (8134, 8140); (8144, 8147);
   (8150, 8155); (8160, 8172); (8178, 8180); (8182, 8188); (8304, 8305);
   (8308, 8313); (8319, 8329); (8336, 8348); (8450, 8450); (8455, 8455);
   (8458, 8467); (8469, 8469); (8473, 8477); (8484, 8484); (8486, 8486);
   (8488, 8488); (8490, 8493); (8495, 8505); (8508, 8511); (8517, 8521);
   (8526, 8526); (8528, 8585); (9312, 9371); (9450, 9471); (10102, 10131);
   (11264, 11492); (11499, 11502); (11506, 11507); (11517, 11517);
   (11520, 11557); (11559, 11559); (11565, 11565); (11568, 11623);
   (11631, 11631); (11648, 11670); (11680, 11686); (11688, 11694);
   (11696, 11702); (11704, 11710); (11712, 11718); (11720, 11726);
   (11728, 11734); (11736, 11742); (11823, 11823); (12293, 12295);
   (12321, 12329); (12337, 12341); (12344, 12348); (12353, 12438);
   (12445, 12447); (12449, 12538); (12540, 12543); (12549, 12591);
   (12593, 12686); (12690, 12693); (12704, 12735); (12784, 12799);
   (12832, 12841); (12872, 12879); (12881, 12895); (12928, 12937);
   (12977, 12991); (13312, 19903); (19968, 42124); (42192, 42237);
   (42240, 42508); (42512, 42539); (42560, 42606); (42623, 42653);
   (42656, 42735); (42775, 42783); (42786, 42888); (42891, 42954);
   (42960, 42961); (42963, 42963); (42965, 42969); (42994, 43009);
   (43011, 43013); (43015, 43018); (43020, 43042); (43056, 43061);
   (43072, 43123); (43138, 43187); (43216, 43225); (43250, 43255);
   (43259, 43259); (43261, 43262); (43264, 43301); (43312, 43334);
   (43360, 43388); (43396, 43442); (43471, 43481); (43488, 43492);
   (43494, 43518); (43520, 43560); (43584, 43586); (43588, 43595);
   (43600, 43609); (43616, 43638); (43642, 43642); (43646, 43695);
   (43697, 43697); (43701, 43702); (43705, 43709); (43712, 43712);
   (43714, 43714); (43739, 43741); (43744, 43754); (43762, 43764);
   (43777, 43782); (43785, 43790); (43793, 43798); (43808, 43814);
   (43816, 43822); (43824, 43866); (43868, 43881); (43888, 44002);
   (44016, 44025); (44032, 55203); (55216, 55238); (55243, 55291);
   (63744, 64109); (64112, 64217); (64256, 64262); (64275, 64279);
   (64285, 64285); (64287, 64296); (64298, 64310); (64312, 64316);
   (64318, 64318); (64320, 64321); (64323, 64324); (64326, 64433);
   (64467, 64829); (64848, 64911); (64914, 64967); (65008, 65019);
   (65136, 65140); (65142, 65276); (65296, 65305); (65313, 65338);
   (65345, 65370); (65382, 65470); (65474, 65479); (65482, 65487);
   (65490, 65495); (65498, 65500); (65536, 65547); (65549, 65574);
   (65576, 65594); (65596, 65597); (65599, 65613); (65616, 65629);
   (65664, 65786); (65799, 65843); (65856, 65912); (65930, 65931);
   (66176, 66204); (66208, 66256); (66273, 66299); (66304, 66339);
   (66349, 66378); (66384, 66421); (66432, 66461); (66464, 66499);
   (66504, 66511); (66513, 66517); (66560, 66717); (66720, 66729);
   (66736, 66771); (66776, 66811); (66816, 66855); (66864, 66915);
   (66928, 66938); (66940, 66954); (66956, 66962); (66964, 66965);
   (66967, 66977); (66979, 66993); (66995, 67001); (67003, 67004);
   (67072, 67382); (67392, 67413); (67424, 67431); (67456, 67461);
   (67463, 67504); (67506, 67514); (67584, 67589); (67592, 67592);
   (67594, 67637); (67639, 67640); (67644, 67644); (67647, 67669);
   (67672, 67702); (67705, 67742); (67751, 67759); (67808, 67826);
   (67828, 67829); (67835, 67867); (67872, 67897); (67968, 68023);
   (68028, 68047); (68050, 68096); (68112, 68115); (68117, 68119);
   (68121, 68149); (68160, 68168); (68192, 68222); (68224, 68255);
   (68288, 68295); (68297, 68324); (68331, 68335); (68352, 68405);
   (68416, 68437); (68440, 68466); (68472, 68497); (68521, 68527);
   (68608, 68680); (68736, 68786); (68800, 68850); (68858, 68899);
   (68912, 68921); (69216, 69246); (69248, 69289); (69296, 69297);
   (69376, 69415); (69424, 69445); (69457, 69460); (69488, 69505);
   (69552, 69579); (69600, 69622); (69635, 69687); (69714, 69743);
   (69745, 69746); (69749, 69749); (69763, 69807); (69840, 69864);
   (69872, 69881); (69891, 69926); (69942, 69951); (69956, 69956);
   (69959, 69959); (69968, 70002); (70006, 70006); (70019, 70066);
   (70081, 70084); (70096, 70106); (70108, 70108); (70113, 70132);
   (70144, 70161); (70163, 70187); (70272, 70278); (70280, 70280);
   (70282, 70285); (70287, 70301); (70303, 70312); (70320, 70366);
   (70384, 70393); (70405, 70412); (70415, 70416); (70419, 70440);
   (70442, 70448); (70450, 70451); (70453, 70457); (70461, 70461);
   (70480, 70480); (70493, 70497); (70656, 70708); (70727, 70730);
   (70736, 70745); (70751, 70753); (70784, 70831); (70852, 70853);
   (70855, 70855); (70864, 70873); (71040, 71086); (71128, 71131);
   (71168, 71215); (71236, 71236); (71248, 71257); (71296, 71338);
   (71352, 71352); (71360, 71369); (71424, 71450); (71472, 71483);
   (71488, 71494); (71680, 71723); (71840, 71922); (71935, 71942);
   (71945, 71945); (71948, 71955); (71957, 71958); (71960, 71983);
   (71999, 71999); (72001, 72001); (72016, 72025); (72096, 72103);
   (72106, 72144); (72161, 72161); (72163, 72163); (72192, 72192);
   (72203, 72242); (72250, 72250); (72272, 72272); (72284, 72329);
   (72349, 72349); (72368, 72440); (72704, 72712); (72714, 72750);
   (72768, 72768); (72784, 72812); (72818, 72847); (72960, 72966);
   (72968, 72969); (72971, 73008); (73030, 73030); (73040, 73049);
   (73056, 73061); (73063, 73064); (73066, 73097); (73112, 73112);
   (73120, 73129); (73440, 73458); (73648, 73648); (73664, 73684);
   (73728, 74649); (74752, 74862); (74880, 75075); (77712, 77808);
   (77824, 78894); (82944, 83526); (92160, 92728); (92736, 92766);
   (92768, 92777); (92784, 92862); (92864, 92873); (92880, 92909);
   (92928, 92975); (92992, 92995); (93008, 93017); (93019, 93025);
   (93027, 93047); (93053, 93071); (93760, 93846); (93952, 94026);
   (94032, 94032); (94099, 94111); (94176, 94177); (94179, 94179);
   (94208, 100343); (100352, 101589); (101632, 101640); (110576, 110579);
   (110581, 110587); (110589, 110590); (110592, 110882); (110928, 110930);
   (110948, 110951); (110960, 111355); (113664, 113770); (113776, 113788);
   (113792, 113800); (113808, 113817); (119520, 119539); (119648, 119672);
   (119808, 119892); (119894, 119964); (119966, 119967); (119970, 119970);
   (119973, 119974); (119977, 119980); (119982, 119993); (119995, 119995);
   (119997, 120003); (120005, 120069); (120071, 120074); (120077, 120084);
   (120086, 120092); (120094, 120121); (120123, 120126); (120128, 120132);
   (120134, 120134); (120138, 120144); (120146, 120485); (120488, 120512);
   (120514, 120538); (120540, 120570); (120572, 120596); (120598, 120628);
   (120630, 120654); (120656, 120686); (120688, 120712); (120714, 120744);
   (120746, 120770); (120772, 120779); (120782, 120831); (122624, 122654);
   (123136, 123180); (123191, 123197); (123200, 123209); (123214, 123214);
   (123536, 123565); (123584, 123627); (123632, 123641); (124896, 124902);
   (124904, 124907); (124909, 124910); (124912, 124926); (124928, 125124);
   (125127, 125135); (125184, 125251); (125259, 125259); (125264, 125273);
   (126065, 126123); (126125, 126127); (126129, 126132); (126209, 126253);
   (126255, 126269); (126464, 126467); (126469, 126495); (126497, 126498);
   (126500, 126500); (126503, 126503); (126505, 126514); (126516, 126519);
   (126521, 126521); (126523, 126523); (126530, 126530); (126535, 126535);
   (126537, 126537); (126539, 126539); (126541, 126543); (126545, 126546);
   (126548, 126548); (126551, 126551); (126553, 126553); (126555, 126555);
   (126557, 126557); (126559, 126559); (126561, 126562); (126564, 126564);
   (126567, 126570); (126572, 126578); (126580, 126583); (126585, 126588);
   (126590, 126590); (126592, 126601); (126603, 126619); (126625, 126627);
   (126629, 126633); (126635, 126651); (127232, 127244); (130032, 130041);
   (131072, 173791); (173824, 177976); (177984, 178205); (178208, 183969);
   (183984, 191456); (194560, 195101); (196608, 201546)
  ]%N.

(** The class [\w]. *)
Definition is_word (c : char) : bool := in_ranges word_ranges c.

(** The characters that have a lower-case or an upper-case form of
    their own ([_sre.unicode_iscased]). *)
Definition cased_ranges : list (char * char) :=
  [
   (65, 90); (97, 122); (181, 181); (192, 214); (216, 246); (248, 311);
   (313, 396); (398, 410); (412, 425); (428, 441); (444, 445); (447, 447);
   (452, 544); (546, 563); (570, 596); (598, 599); (601, 601); (603, 604);
   (608, 609); (611, 611); (613, 614); (616, 620); (623, 623); (625, 626);
   (629, 629); (637, 637); (640, 640); (642, 643); (647, 652); (658, 658);
   (669, 670); (837, 837); (880, 883); (886, 887); (891, 893); (895, 895);
   (902, 902); (904, 906); (908, 908); (910, 929); (931, 977); (981, 1013);
   (1015, 1019); (1021, 1153); (1162, 1327); (1329, 1366); (1377, 1415);
   (4256, 4293); (4295, 4295); (4301, 4301); (4304, 4346); (4349, 4351);
   (5024, 5109); (5112, 5117); (7296, 7304); (7312, 7354); (7357, 7359);
   (7545, 7545); (7549, 7549); (7566, 7566); (7680, 7835); (7838, 7838);
   (7840, 7957); (7960, 7965); (7968, 8005); (8008, 8013); (8016, 8023);
   (8025, 8025); (8027, 8027); (8029, 8029); (8031, 8061); (8064, 8116);
   (8118, 8124); (8126, 8126); (8130, 8132); (8134, 8140); (8144, 8147);
   (8150, 8155); (8160, 8172); (8178, 8180); (8182, 8188); (8486, 8486);
   (8490, 8491); (8498, 8498); (8526, 8526); (8544, 8575); (8579, 8580);
   (9398, 9449); (11264, 11376); (11378, 11379); (11381, 11382);
   (11390, 11491); (11499, 11502); (11506, 11507); (11520, 11557);
   (11559, 11559); (11565, 11565); (42560, 42605); (42624, 42651);
   (42786, 42799); (42802, 42863); (42873, 42887); (42891, 42893);
   (42896, 42900); (42902, 42926); (42928, 42954); (42960, 42961);
   (42966, 42969); (42997, 42998); (43859, 43859); (43888, 43967);
   (64256, 64262); (64275, 64279); (65313, 65338); (65345, 65370);
   (66560, 66639); (66736, 66771); (66776, 66811); (66928, 66938);
   (66940, 66954); (66956, 66962); (66964, 66965); (66967, 66977);
   (66979, 66993); (66995, 67001); (67003, 67004); (68736, 68786);
   (68800, 68850); (71840, 71903); (93760, 93823); (125184, 125251)
  ]%N.

Definition is_cased (c : char) : bool := in_ranges cased_ranges c.

(** The lower-case form of a single character ([_sre.unicode_tolower]).
    An entry [(lo, hi, step, target)] sends the characters [lo],
    [lo + step], ... up to [hi] to [target], [target + step], ...; every
    other character is its own lower case. *)
Definition lower_runs : list (char * char * char * char) :=
  [
   (65, 90, 1, 97); (192, 214, 1, 224); (216, 222, 1, 248);
   (256, 302, 2, 257); (304, 304, 1, 105); (306, 310, 2, 307);
   (313, 327, 2, 314); (330, 374, 2, 331); (376, 376, 1, 255);
   (377, 381, 2, 378); (385, 385, 1, 595); (386, 388, 2, 387);
   (390, 390, 1, 596); (391, 391, 1, 392); (393, 394, 1, 598);
   (395, 395, 1, 396); (398, 398, 1, 477); (399, 399, 1, 601);
   (400, 400, 1, 603); (401, 401, 1, 402); (403, 403, 1, 608);
   (404, 404, 1, 611); (406, 406, 1, 617); (407, 407, 1, 616);
   (408, 408, 1, 409); (412, 412, 1, 623); (413, 413, 1, 626);
   (415, 415, 1, 629); (416, 420, 2, 417); (422, 422, 1, 640);
   (423, 423, 1, 424); (425, 425, 1, 643); (428, 428, 1, 429);
   (430, 430, 1, 648); (431, 431, 1, 432); (433, 434, 1, 650);
   (435, 437, 2, 436); (439, 439, 1, 658); (440, 440, 1, 441);
   (444, 444, 1, 445); (452, 452, 1, 454); (453, 453, 1, 454);
   (455, 455, 1, 457); (456, 456, 1, 457); (458, 458, 1, 460);
   (459, 475, 2, 460); (478, 494, 2, 479); (497, 497, 1, 499);
   (498, 500, 2, 499); (502, 502, 1, 405); (503, 503, 1, 447);
   (504, 542, 2, 505); (544, 544, 1, 414); (546, 562, 2, 547);
   (570, 570, 1, 11365); (571, 571, 1, 572); (573, 573, 1, 410);
   (574, 574, 1, 11366); (577, 577, 1, 578); (579, 579, 1, 384);
   (580, 580, 1, 649); (581, 581, 1, 652); (582, 590, 2, 583);
   (880, 882, 2, 881); (886, 886, 1, 887); (895, 895, 1, 1011);
   (902, 902, 1, 940); (904, 906, 1, 941); (908, 908, 1, 972);
   (910, 911, 1, 973); (913, 929, 1, 945); (931, 939, 1, 963);
   (975, 975, 1, 983); (984, 1006, 2, 985); (1012, 1012, 1, 952);
   (1015, 1015, 1, 1016); (1017, 1017, 1, 1010); (1018, 1018, 1, 1019);
   (1021, 1023, 1, 891); (1024, 1039, 1, 1104); (1040, 1071, 1, 1072);
   (1120, 1152, 2, 1121); (1162, 1214, 2, 1163); (1216, 1216, 1, 1231);
   (1217, 1229, 2, 1218); (1232, 1326, 2, 1233); (1329, 1366, 1, 1377);
   (4256, 4293, 1, 11520); (4295, 4295, 1, 11559); (4301, 4301, 1, 11565);
   (5024, 5103, 1, 43888); (5104, 5109, 1, 5112); (7312, 7354, 1, 4304);
   (7357, 7359, 1, 4349); (7680, 7828, 2, 7681); (7838, 7838, 1, 223);
   (7840, 7934, 2, 7841); (7944, 7951, 1, 7936); (7960, 7965, 1, 7952);
   (7976, 7983, 1, 7968); (7992, 7999, 1, 7984); (8008, 8013, 1, 8000);
   (8025, 8031, 2, 8017); (8040, 8047, 1, 8032); (8072, 8079, 1, 8064);
   (8088, 8095, 1, 8080); (8104, 8111, 1, 8096); (8120, 8121, 1, 8112);
   (8122, 8123, 1, 8048); (8124, 8124, 1, 8115); (8136, 8139, 1, 8050);
   (8140, 8140, 1, 8131); (8152, 8153, 1, 8144); (8154, 8155, 1, 8054);
   (8168, 8169, 1, 8160); (8170, 8171, 1, 8058); (8172, 8172, 1, 8165);
   (8184, 8185, 1, 8056); (8186, 8187, 1, 8060); (8188, 8188, 1, 8179);
   (8486, 8486, 1, 969); (8490, 8490, 1, 107); (8491, 8491, 1, 229);
   (8498, 8498, 1, 8526); (8544, 8559, 1, 8560); (8579, 8579, 1, 8580);
   (9398, 9423, 1, 9424); (11264, 11311, 1, 11312);
   (11360, 11360, 1, 11361); (11362, 11362, 1, 619);
   (11363, 11363, 1, 7549); (11364, 11364, 1, 637);
   (11367, 11371, 2, 11368); (11373, 11373, 1, 593); (11374, 11374, 1, 625);
   (11375, 11375, 1, 592); (11376, 11376, 1, 594); (11378, 11378, 1, 11379);
   (11381, 11381, 1, 11382); (11390, 11391, 1, 575);
   (11392, 11490, 2, 11393); (11499, 11501, 2, 11500);
   (11506, 11506, 1, 11507); (42560, 42604, 2, 42561);
   (42624, 42650, 2, 42625); (42786, 42798, 2, 42787);
   (42802, 42862, 2, 42803); (42873, 42875, 2, 42874);
   (42877, 42877, 1, 7545); (42878, 42886, 2, 42879);
   (42891, 42891, 1, 42892); (42893, 42893, 1, 613);
   (42896, 42898, 2, 42897); (42902, 42920, 2, 42903);
   (42922, 42922, 1, 614); (42923, 42923, 1, 604); (42924, 42924, 1, 609);
   (42925, 42925, 1, 620); (42926, 42926, 1, 618); (42928, 42928, 1, 670);
   (42929, 42929, 1, 647); (42930, 42930, 1, 669); (42931, 42931, 1, 43859);
   (42932, 42946, 2, 42933); (42948, 42948, 1, 42900);
   (42949, 42949, 1, 642); (42950, 42950, 1, 7566);
   (42951, 42953, 2, 42952); (42960, 42960, 1, 42961);
   (42966, 42968, 2, 42967); (42997, 42997, 1, 42998);
   (65313, 65338, 1, 65345); (66560, 66599, 1, 66600);
   (66736, 66771, 1, 66776); (66928, 66938, 1, 66967);
   (66940, 66954, 1, 66979); (66956, 66962, 1, 66995);
   (66964, 66965, 1, 67003); (68736, 68786, 1, 68800);
   (71840, 71871, 1, 71872); (93760, 93791, 1, 93792);
   (125184, 125217, 1, 125218)
  ]%N.

Fixpoint lower_in (runs : list (char * char * char * char)) (c : char)
  : char :=
  match runs with
  | [] => c
  | (lo, hi, step, target) :: runs' =>
      if in_range lo hi c && N.eqb (N.modulo (N.sub c lo) step) 0
      then N.add target (N.sub c lo)
      else lower_in runs' c
  end.

(** The lower-case characters that [re] takes for the same letter as
    another lower-case character when it ignores case
    ([re._casefix._EXTRA_CASES]). *)
Definition extra_cases : list (char * list char) :=
  [
   (105, [305]); (115, [383]); (181, [956]); (305, [105]); (383, [115]);
   (837, [953; 8126]); (912, [8147]); (944, [8163]); (946, [976]);
   (949, [1013]); (952, [977]); (953, [837; 8126]); (954, [1008]);
   (956, [181]); (960, [982]); (961, [1009]); (962, [963]); (963, [962]);
   (966, [981]); (976, [946]); (977, [952]); (981, [966]); (982, [960]);
   (1008, [954]); (1009, [961]); (1013, [949]); (1074, [7296]);
   (1076, [7297]); (1086, [7298]); (1089, [7299]); (1090, [7300; 7301]);
   (1098, [7302]); (1123, [7303]); (7296, [1074]); (7297, [1076]);
   (7298, [1086]); (7299, [1089]); (7300, [1090; 7301]);
   (7301, [1090; 7300]); (7302, [1098]); (7303, [1123]); (7304, [42571]);
   (7777, [7835]); (7835, [7777]); (8126, [837; 953]); (8147, [912]);
   (8163, [944]); (42571, [7304]); (64261, [64262]); (64262, [64261])
  ]%N.

Fixpoint same_letters (fixes : list (char * list char)) (lo : char)
  : list char :=
  match fixes with
  | [] => []
  | (k, v) :: fixes' => if N.eqb k lo then v else same_letters fixes' lo
  end.

(** The lower-case form of a single character. *)
Definition lower_c (c : char) : char := lower_in lower_runs c.

(** The upper-case form of an ASCII or Latin-1 letter; only the match of
    a bracketed class without regard to case uses it. *)
Definition upper_c (c : char) : char :=
  if in_range 97 122 c then N.sub c 32
  else if in_range 224 254 c && negb (N.eqb c 247) then N.sub c 32
  else c.

(** [s.lower()]: every character in its lower-case form; U+0130 becomes
    the two code points U+0069 U+0307.  (Python lowers one character by
    its place, which the model does not follow: U+03A3 at the end of a
    word becomes U+03C2, here U+03C3 as everywhere else.) *)
Definition lower (s : pystr) : pystr :=
  flat_map (fun c => if N.eqb c 304 then [105; 775]%N else [lower_c c]) s.

Fixpoint lstrip (s : pystr) : pystr :=
  match s with
  | c :: s' => if is_space c then lstrip s' else s
  | [] => []
  end.

Definition rstrip (s : pystr) : pystr := rev (lstrip (rev s)).

(** [s.strip()] *)
Definition strip (s : pystr) : pystr := rstrip (lstrip s).

Fixpoint startswith (p s : pystr) : bool :=
  match p, s with
  | [], _ => true
  | x :: p', y :: s' => N.eqb x y && startswith p' s'
  | _ :: _, [] => false
  end.

Definition endswith (p s : pystr) : bool := startswith (rev p) (rev s).

(** [sub in s] *)
Fixpoint contains (sub s : pystr) : bool :=
  startswith sub s ||
  match s with
  | [] => false
  | _ :: s' => contains sub s'
  end.

(** [c in s] for a single character *)
Definition has_char (c : char) (s : pystr) : bool := existsb (N.eqb c) s.

(** [s.split(sep)] for a one-character separator: a non-empty list of
    pieces. *)
Fixpoint split_char (sep : char) (s : pystr) : list pystr :=
  match s with
  | [] => [[]]
  | c :: s' =>
      if N.eqb c sep then [] :: split_char sep s'
      else match split_char sep s' with
           | p :: ps => (c :: p) :: ps
           | [] => [[c]]
           end
  end.

(** [sep.join(parts)] *)
Fixpoint join (sep : pystr) (parts : list pystr) : pystr :=
  match parts with
  | [] => []
  | [p] => p
  | p :: ps => p ++ sep ++ join sep ps
  end.



(** [s.split()[0]]: the first run of non-blank characters, [None] when
    [s.split()] is empty (Python raises [IndexError]). *)
Fixpoint take_token (s : pystr) : pystr :=
  match s with
  | c :: s' => if is_space c then [] else c :: take_token s'
  | [] => []
  end.

Definition first_token (s : pystr) : option pystr :=
  match lstrip s with
  | [] => None
  | t => Some (take_token t)
  end.

(** Lexicographic order on code points: [a < b] and [a <= b] of Python. *)
Fixpoint str_ltb (a b : pystr) : bool :=
  match a, b with
  | _, [] => false
  | [], _ :: _ => true
  | x :: a', y :: b' => N.ltb x y || (N.eqb x y && str_ltb a' b')
  end.

Definition str_leb (a b : pystr) : bool := negb (str_ltb b a).

(** ** Insertion-ordered dictionaries *)

Module Odict.

Definition odict (V : Type) := list (pystr * V).

Section Ops.
Variable V : Type.

(** [d.get(k)]; [d[k]] raises [KeyError] where this is [None]. *)
Fixpoint get (k : pystr) (d : odict V) : option V :=
  match d with
  | [] => None
  | (k', v) :: d' => if str_eqb k k' then Some v else get k d'
  end.

(** [k in d] *)
Definition mem (k : pystr) (d : odict V) : bool :=
  match get k d with Some _ => true | None => false end.

(** [d[k] = v]: an existing key keeps its position, a new key goes
    last. *)
Fixpoint set (k : pystr) (v : V) (d : odict V) : odict V :=
  match d with
  | [] => [(k, v)]
  | (k', v') :: d' =>
      if str_eqb k k' then (k', v) :: d' else (k', v') :: set k v d'
  end.

(** [d.pop(k, default)] as the pair of the value and the new dict. *)
Fixpoint remove (k : pystr) (d : odict V) : odict V :=
  match d with
  | [] => []
  | (k', v') :: d' =>
      if str_eqb k k' then d' else (k', v') :: remove k d'
  end.

Definition keys (d : odict V) : list pystr := map fst d.
Definition values (d : odict V) : list V := map snd d.

(** Keys are pairwise distinct: the invariant of every Python dict. *)
Fixpoint distinct (ks : list pystr) : bool :=
  match ks with
  | [] => true
  | k :: ks' => negb (existsb (str_eqb k) ks') && distinct ks'
  end.

Definition wf (d : odict V) : bool := distinct (keys d).
End Ops.

End Odict.

Import Odict.

(** ** Regular expressions *)

(** One item of a bracketed character class. *)
Inductive citem : Type :=
| CChar (c : char)            (* a single character *)
| CRange (lo hi : char)       (* lo-hi *)
| CSpace                      (* \s *)
| CDigit                      (* \d *)
| CWord.                      (* \w *)

Inductive regex : Type :=
| Eps                                   (* the empty pattern *)
| Lit (c : char)                        (* a literal character *)
| Dot                                   (* .   (any character but newline) *)
| Cls (neg : bool) (items : list citem) (* [...] and [^...], \s, \d, \w *)
| Bol                                   (* ^ *)
| Eol                                   (* $ *)
| Seq (r1 r2 : regex)
| Alt (r1 r2 : regex)                   (* r1|r2, r1 tried first *)
| Star (greedy : bool) (r : regex)      (* r* and r*? *)
| Grp (id : string) (r : regex).        (* (?P<id>r); (r) with its number *)

(** The flags [re.IGNORECASE] (also the inline [(?i)]) and [re.MULTILINE]. *)
Record flags : Type := { ic : bool; ml : bool }.

Definition no_flags : flags := {| ic := false; ml := false |}.
Definition MULTILINE : flags := {| ic := false; ml := true |}.
Definition IGNORECASE : flags := {| ic := true; ml := false |}.
Definition IGNORECASE_MULTILINE : flags := {| ic := true; ml := true |}.

(** The cursor of a match attempt: the text before it (most recent
    character first), the text after it and the groups captured so far
    (most recent binding first). *)
Record mstate : Type :=
  { pre : pystr; rest : pystr; caps : list (string * pystr) }.

Definition citem_mem (it : citem) (c : char) : bool :=
  match it with
  | CChar x => N.eqb x c
  | CRange lo hi => in_range lo hi c
  | CSpace => is_space c
  | CDigit => is_digit c
  | CWord => is_word c
  end.

Definition cls_mem (items : list citem) (c : char) : bool :=
  existsb (fun it => citem_mem it c) items.

(** A class against a character of the text.  Without regard to case
    the character, its lower case and its upper case are tried (the
    sources match only [\s] that way, which case does not change). *)
Definition cls_match (f : flags) (neg : bool) (items : list citem)
  (c : char) : bool :=
  xorb neg
    (if ic f
     then cls_mem items c || cls_mem items (lower_c c)
          || cls_mem items (upper_c c)
     else cls_mem items c).

(** A literal of the pattern against a character of the text.  Without
    regard to case, a cased literal matches the characters whose
    lower-case form is that of the literal or a form of the same
    letter. *)
Definition lit_match (f : flags) (p c : char) : bool :=
  if ic f && is_cased p then
    let lo := lower_c p in
    N.eqb (lower_c c) lo
    || existsb (N.eqb (lower_c c)) (same_letters extra_cases lo)
  else N.eqb p c.

Definition at_bol (f : flags) (st : mstate) : bool :=
  match pre st with
  | [] => true
  | c :: _ => ml f && N.eqb c NL
  end.

Definition at_eol (f : flags) (st : mstate) : bool :=
  match rest st with
  | [] => true
  | c :: tl =>
      N.eqb c NL && (ml f || match tl with [] => true | _ => false end)
  end.

Definition advance (st : mstate) (c : char) (tl : pystr) : mstate :=
  {| pre := c :: pre st; rest := tl; caps := caps st |}.

(** The text consumed between two cursors of the same attempt. *)
Definition consumed (st st' : mstate) : pystr :=
  firstn (length (rest st) - length (rest st')) (rest st).

Definition orelse {A : Type} (a b : option A) : option A :=
  match a with Some x => Some x | None => b end.

(** Repetition of a body matcher: at most [n] more rounds.  A round is
    kept only if it consumes text; a greedy repetition tries one more
    round before it continues with [k], a lazy one after. *)
Fixpoint star_loop
  (body : mstate -> (mstate -> option mstate) -> option mstate)
  (greedy : bool) (k : mstate -> option mstate) (n : nat) (st0 : mstate)
  {struct n} : option mstate :=
  match n with
  | O => k st0
  | S n' =>
      let again :=
        body st0
          (fun st1 =>
             if Nat.ltb (length (rest st1)) (length (rest st0))
             then star_loop body greedy k n' st1 else None) in
      if greedy then orelse again (k st0) else orelse (k st0) again
  end.

Section Matcher.
Variable f : flags.

(** [rmatch r st k]: match [r] at cursor [st], then continue with [k];
    [None] asks the caller to backtrack.  A repetition runs its body at
    most once per remaining character (every repeated body of the
    sources consumes at least one character). *)
Fixpoint rmatch (r : regex) (st : mstate)
  (k : mstate -> option mstate) {struct r} : option mstate :=
  match r with
  | Eps => k st
  | Lit p =>
      match rest st with
      | c :: tl => if lit_match f p c then k (advance st c tl) else None
      | [] => None
      end
  | Dot =>
      match rest st with
      | c :: tl => if N.eqb c NL then None else k (advance st c tl)
      | [] => None
      end
  | Cls neg items =>
      match rest st with
      | c :: tl =>
          if cls_match f neg items c then k (advance st c tl) else None
      | [] => None
      end
  | Bol => if at_bol f st then k st else None
  | Eol => if at_eol f st then k st else None
  | Seq r1 r2 => rmatch r1 st (fun st1 => rmatch r2 st1 k)
  | Alt r1 r2 => orelse (rmatch r1 st k) (rmatch r2 st k)
  | Star greedy r1 =>
      star_loop (rmatch r1) greedy k (S (length (rest st))) st
  | Grp id r1 =>
      rmatch r1 st
        (fun st1 =>
           k {| pre := pre st1; rest := rest st1;
                caps := (id, consumed st st1) :: caps st1 |})
  end.

(** A match object: [m.start()], [m.group(0)], the captured groups and
    the cursor at [m.end()]. *)
Record rmatch_obj : Type :=
  { m_start : nat; m_text : pystr; m_end : mstate }.

(** One attempt at the cursor [(before, after)].  With [must_advance]
    an empty match is refused (the engine backtracks for another one). *)
Definition match_here (r : regex) (before after : pystr)
  (must_advance : bool) : option mstate :=
  rmatch r {| pre := before; rest := after; caps := [] |}
    (fun st1 =>
       if must_advance && Nat.eqb (length (rest st1)) (length after)
       then None else Some st1).

(** The scan of [re.search]: the leftmost position where an attempt
    succeeds.  [must_advance] only concerns the first position. *)
Fixpoint scan (r : regex) (pos : nat) (before after : pystr)
  (must_advance : bool) {struct after} : option rmatch_obj :=
  let here := {| pre := before; rest := after; caps := [] |} in
  match match_here r before after must_advance with
  | Some st1 =>
      Some {| m_start := pos; m_text := consumed here st1; m_end := st1 |}
  | None =>
      match after with
      | [] => None
      | c :: tl => scan r (S pos) (c :: before) tl false
      end
  end.

(** The scanner behind [finditer], [findall] and [sub]: each search
    starts where the previous match ended; after an empty match the next
    one has to advance.  Two steps per character and two more bound the
    number of matches. *)
Fixpoint scan_all (fuel : nat) (r : regex) (pos : nat)
  (before after : pystr) (must_advance : bool) : list rmatch_obj :=
  match fuel with
  | O => []
  | S fuel' =>
      match scan r pos before after must_advance with
      | None => []
      | Some m =>
          let e := m_end m in
          m :: scan_all fuel' r (m_start m + length (m_text m))
                 (pre e) (rest e)
                 (Nat.eqb (length (m_text m)) 0)
      end
  end.
End Matcher.

(** [re.search(r, text, flags)] *)
Definition re_search (f : flags) (r : regex) (text : pystr)
  : option rmatch_obj :=
  scan f r 0 [] text false.

(** [re.match(r, text, flags)] *)
Definition re_match (f : flags) (r : regex) (text : pystr) : option mstate :=
  match_here f r [] text false.

(** [re.finditer(r, text, flags)] *)
Definition re_finditer (f : flags) (r : regex) (text : pystr)
  : list rmatch_obj :=
  scan_all f (S (S (2 * length text))) r 0 [] text false.

(** [len(re.findall(r, text, flags))]: one item per match, whatever the
    groups of [r]. *)
Definition findall_count (f : flags) (r : regex) (text : pystr) : nat :=
  length (re_finditer f r text).

(** [m.group(id)]; [None] is Python's [None] of a group that took no part
    in the match. *)
Fixpoint group_of (id : string) (cs : list (string * pystr))
  : option pystr :=
  match cs with
  | [] => None
  | (id', v) :: cs' => if String.eqb id id' then Some v else group_of id cs'
  end.

Definition m_group (m : rmatch_obj) (id : string) : option pystr :=
  group_of id (caps (m_end m)).

(** [re.sub(r, repl, text, flags=f)] for a replacement without group
    references. *)
Fixpoint sub_pieces (repl : pystr) (text : pystr) (pos : nat)
  (ms : list rmatch_obj) : pystr :=
  match ms with
  | [] => skipn pos text
  | m :: ms' =>
      firstn (m_start m - pos) (skipn pos text) ++ repl ++
      sub_pieces repl text (m_start m + length (m_text m)) ms'
  end.

Definition re_sub (f : flags) (r : regex) (repl text : pystr) : pystr :=
  sub_pieces repl text 0 (re_finditer f r text).

(** *** Pattern syntax shorthands *)

Definition seqs (rs : list regex) : regex := fold_right Seq Eps rs.
Definition str_re (s : string) : regex := seqs (map Lit (lit s)).
Definition plus (r : regex) : regex := Seq r (Star true r).       (* r+ *)
Definition plus_lazy (r : regex) : regex := Seq r (Star false r). (* r+? *)
Definition star (r : regex) : regex := Star true r.               (* r* *)
Definition opt (r : regex) : regex := Alt r Eps.                  (* r? *)
Definition rep4 (r : regex) : regex := seqs [r; r; r; r].         (* r{4} *)
Definition rep12 (r : regex) : regex := Seq r (opt r).            (* r{1,2} *)
Definition chr (s : string) : regex := Lit (hd 0%N (lit s)).
Definition sp : regex := Cls false [CSpace].                      (* \s *)
Definition dg : regex := Cls false [CDigit].                      (* \d *)
Definition wd : regex := Cls false [CWord].                       (* \w *)
Definition year4 : regex := rep4 dg.                              (* \d{4} *)
(** [[A-Za-z\-]] *)
Definition name_c : regex :=
  Cls false [CRange 65 90; CRange 97 122; CChar 45].
(** [[A-Za-zÀ-ÿ\-]] *)
Definition name_u : regex :=
  Cls false [CRange 65 90; CRange 97 122; CRange 192 255; CChar 45].
(** [[A-Z]] *)
Definition upper_az : regex := Cls false [CRange 65 90].

(** Fragments shared by the patterns of the sources. *)
Module Frag.

(** [[A-Za-z\-]+(?:\s[A-Za-z\-]+)?] *)
Definition author : regex := Seq (plus name_c) (opt (Seq sp (plus name_c))).
(** [(?: et al\.)?] *)
Definition et_al : regex := opt (str_re " et al.").
(** [[A-Za-z\-]+(?:\s[A-Za-z\-]+)?(?: et al\.)?] *)
Definition author_et_al : regex := Seq author et_al.
(** [\d+(?:-\d+)?] *)
Definition num_range : regex :=
  Seq (plus dg) (opt (Seq (chr "-") (plus dg))).
(** [\d+-\d+] *)
Definition page_span : regex := seqs [plus dg; chr "-"; plus dg].
(** [(?:,\s(?P<pages>p\.?\s\d+(?:-\d+)?))?] *)
Definition apa_pages : regex :=
  opt (seqs [chr ","; sp;
             Grp "pages" (seqs [chr "p"; opt (chr "."); sp; num_range])]).
(** [(?:SEP(?P<pages>\d+(?:-\d+)?))?] *)
Definition pages_after (sep : string) : regex :=
  opt (Seq (str_re sep) (Grp "pages" num_range)).
(** [[A-Za-z\s]] *)
Definition alpha_sp : regex :=
  Cls false [CRange 65 90; CRange 97 122; CSpace].
(** [[A-Za-z\s\-]] *)
Definition alpha_sp_dash : regex :=
  Cls false [CRange 65 90; CRange 97 122; CSpace; CChar 45].
(** [[A-Za-z\.\s\d,]] *)
Definition date_c : regex :=
  Cls false [CRange 65 90; CRange 97 122; CChar 46; CSpace; CDigit;
             CChar 44].
(** [[A-Za-z]] *)
Definition alpha : regex := Cls false [CRange 65 90; CRange 97 122].
(** [https?://[^\s]+] *)
Definition url : regex :=
  seqs [str_re "http"; opt (chr "s"); str_re "://";
        plus (Cls true [CSpace])].
(** [.+?] and [.+] *)
Definition some_lazy : regex := plus_lazy Dot.
Definition some : regex := plus Dot.
(** [(?:\((?P<issue>\d+)\))?] *)
Definition issue_opt : regex :=
  opt (seqs [chr "("; Grp "issue" (plus dg); chr ")"]).
End Frag.

(** ** detector.py: class CitationStyleDetector *)

Module Detector.
Import Frag.

(** The sentinel returned when no citation is detected. *)
Definition NONE : pystr := lit "No se detectaron citas".

Record catalog : Type :=
  { in_text_patterns : odict (list regex);
    full_citation_patterns : odict (list regex) }.

(** *** [self.in_text_patterns] of [__init__] *)

(** [\((?P<author>[A-Za-z\-]+(?:\s[A-Za-z\-]+)?(?: et al\.)?),\s(?P<year>\d{4})(?:,\s(?P<pages>p\.?\s\d+(?:-\d+)?))?\)] *)
Definition apa_it1 : regex :=
  seqs [chr "("; Grp "author" author_et_al; chr ","; sp;
        Grp "year" year4; apa_pages; chr ")"].
(** [\((?P<author1>[A-Za-z\-]+(?:\s[A-Za-z\-]+)?)\s&\s(?P<author2>[A-Za-z\-]+(?:\s[A-Za-z\-]+)?),\s(?P<year>\d{4})(?:,\s(?P<pages>p\.?\s\d+(?:-\d+)?))?\)] *)
Definition apa_it2 : regex :=
  seqs [chr "("; Grp "author1" author; sp; chr "&"; sp;
        Grp "author2" author; chr ","; sp; Grp "year" year4; apa_pages;
        chr ")"].
(** [\((?P<author>[A-Za-z\-]+(?:\s[A-Za-z\-]+)?)\set\sal\.,\s(?P<year>\d{4})(?:,\s(?P<pages>p\.?\s\d+(?:-\d+)?))?\)] *)
Definition apa_it3 : regex :=
  seqs [chr "("; Grp "author" author; sp; str_re "et"; sp; str_re "al.,";
        sp; Grp "year" year4; apa_pages; chr ")"].
(** [(?P<author>[A-Za-z\-]+(?:\s[A-Za-z\-]+)?)\s\((?P<year>\d{4})(?:,\s(?P<pages>p\.?\s\d+(?:-\d+)?))?\)] *)
Definition apa_it4 : regex :=
  seqs [Grp "author" author; sp; chr "("; Grp "year" year4; apa_pages;
        chr ")"].

(** [\((?P<author>[A-Za-z\-]+(?:\s[A-Za-z\-]+)?(?: et al\.)?) (?P<pages>\d+(?:-\d+)?)\)] *)
Definition mla_it1 : regex :=
  seqs [chr "("; Grp "author" author_et_al; chr " ";
        Grp "pages" num_range; chr ")"].
(** [\((?P<author1>[A-Za-z\-]+(?:\s[A-Za-z\-]+)?) and (?P<author2>[A-Za-z\-]+(?:\s[A-Za-z\-]+)?) (?P<pages>\d+(?:-\d+)?)\)] *)
Definition mla_it2 : regex :=
  seqs [chr "("; Grp "author1" author; str_re " and ";
        Grp "author2" author; chr " "; Grp "pages" num_range; chr ")"].
(** [(?P<author>[A-Za-z\-]+(?:\s[A-Za-z\-]+)?(?: et al\.)?) \((?P<pages>\d+(?:-\d+)?)\)] *)
Definition mla_it3 : regex :=
  seqs [Grp "author" author_et_al; str_re " ("; Grp "pages" num_range;
        chr ")"].

(** [\((?P<author>[A-Za-z\-]+(?:\s[A-Za-z\-]+)?(?: et al\.)?) (?P<year>\d{4})(?:, (?P<pages>\d+(?:-\d+)?))?\)] *)
Definition chicago_ad1 : regex :=
  seqs [chr "("; Grp "author" author_et_al; chr " "; Grp "year" year4;
        pages_after ", "; chr ")"].
(** [\((?P<author1>[A-Za-z\-]+(?:\s[A-Za-z\-]+)?) and (?P<author2>[A-Za-z\-]+(?:\s[A-Za-z\-]+)?) (?P<year>\d{4})(?:, (?P<pages>\d+(?:-\d+)?))?\)] *)
Definition chicago_ad2 : regex :=
  seqs [chr "("; Grp "author1" author; str_re " and ";
        Grp "author2" author; chr " "; Grp "year" year4; pages_after ", ";
        chr ")"].
(** [(?P<author>[A-Za-z\-]+(?:\s[A-Za-z\-]+)?(?: et al\.)?) \((?P<year>\d{4})(?:, (?P<pages>\d+(?:-\d+)?))?\)] *)
Definition chicago_ad3 : regex :=
  seqs [Grp "author" author_et_al; str_re " ("; Grp "year" year4;
        pages_after ", "; chr ")"].

(** [^\d+\.\s(?P<citation>.+)] *)
Definition chicago_n1 : regex :=
  seqs [Bol; plus dg; chr "."; sp; Grp "citation" some].
(** [(?P<citation>(?:Ibid\.|Op\. cit\.|Loc\. cit\.)(?:,\s\d+(?:-\d+)?)?)] *)
Definition chicago_n2 : regex :=
  Grp "citation"
    (Seq (Alt (str_re "Ibid.") (Alt (str_re "Op. cit.") (str_re "Loc. cit.")))
         (opt (seqs [chr ","; sp; num_range]))).

(** [\((?P<author>[A-Za-z\-]+(?:\s[A-Za-z\-]+)?(?: et al\.)?),\s(?P<year>\d{4})(?:: (?P<pages>\d+(?:-\d+)?))?\)] *)
Definition harvard_it1 : regex :=
  seqs [chr "("; Grp "author" author_et_al; chr ","; sp;
        Grp "year" year4; pages_after ": "; chr ")"].
(** [(?P<author>[A-Za-z\-]+(?:\s[A-Za-z\-]+)?(?: et al\.)?) \((?P<year>\d{4})(?:: (?P<pages>\d+(?:-\d+)?))?\)] *)
Definition harvard_it2 : regex :=
  seqs [Grp "author" author_et_al; str_re " ("; Grp "year" year4;
        pages_after ": "; chr ")"].

(** [\[(?P<citation>\d+(?:,\s*\d+)* )\]]  (no blank before the
    closing parenthesis of the group) *)
Definition ieee_it1 : regex :=
  seqs [chr "[";
        Grp "citation"
          (Seq (plus dg) (star (seqs [chr ","; star sp; plus dg])));
        chr "]"].

(** [\((?P<citation>\d+(?:-\d+)?)\)] *)
Definition vancouver_it1 : regex :=
  seqs [chr "("; Grp "citation" num_range; chr ")"].
(** [(?P<citation>[\u00B9\u00B2\u00B3\u2070-\u2079]+)] *)
Definition vancouver_it2 : regex :=
  Grp "citation"
    (plus (Cls false [CChar 185; CChar 178; CChar 179; CRange 8304 8313])).

(** [\((?P<author>[A-Za-z\-]+(?:\s[A-Za-z\-]+)?(?: et al\.)?) (?P<year>\d{4})\)] *)
Definition cse_it1 : regex :=
  seqs [chr "("; Grp "author" author_et_al; chr " "; Grp "year" year4;
        chr ")"].
(** [(?P<author>[A-Za-z\-]+(?:\s[A-Za-z\-]+)?(?: et al\.)?) (?P<year>\d{4})] *)
Definition cse_it2 : regex :=
  seqs [Grp "author" author_et_al; chr " "; Grp "year" year4].

Definition builtin_in_text : odict (list regex) :=
  [ (lit "APA", [apa_it1; apa_it2; apa_it3; apa_it4]);
    (lit "MLA", [mla_it1; mla_it2; mla_it3]);
    (lit "CHICAGO_AUTHOR_DATE", [chicago_ad1; chicago_ad2; chicago_ad3]);
    (lit "CHICAGO_NOTES", [chicago_n1; chicago_n2]);
    (lit "HARVARD", [harvard_it1; harvard_it2]);
    (lit "IEEE", [ieee_it1]);
    (lit "VANCOUVER", [vancouver_it1; vancouver_it2]);
    (lit "CSE", [cse_it1; cse_it2]) ].

(** *** [self.full_citation_patterns] of [__init__] *)

(** [[A-Za-z\-]+,\s[A-Z]\.(?:\s[A-Z]\.)?] *)
Definition apa_name : regex :=
  seqs [plus name_c; chr ","; sp; upper_az; chr ".";
        opt (seqs [sp; upper_az; chr "."])].
(** The author list opening the three APA entries:
    [(?P<author>[A-Za-z\-]+,\s[A-Z]\.(?:\s[A-Z]\.)?)(?:,\s[A-Za-z\-]+,\s[A-Z]\.(?:\s[A-Z]\.)?)*(?:,?\s&\s[A-Za-z\-]+,\s[A-Z]\.(?:\s[A-Z]\.)?)?] *)
Definition apa_authors : regex :=
  seqs [Grp "author" apa_name; star (seqs [chr ","; sp; apa_name]);
        opt (seqs [opt (chr ","); sp; chr "&"; sp; apa_name])].
(** authors [\s\((?P<year>\d{4})\)\.\s(?P<title>.+?)\.\s(?P<publisher>[A-Za-z\s]+)\.] *)
Definition apa_full1 : regex :=
  seqs [apa_authors; sp; chr "("; Grp "year" year4; str_re ")."; sp;
        Grp "title" some_lazy; chr "."; sp;
        Grp "publisher" (plus alpha_sp); chr "."].
(** authors [\s\((?P<year>\d{4})\)\.\s(?P<title>.+?)\.\s(?P<journal>.+?),\s(?P<volume>\d+)(?:\((?P<issue>\d+)\))?,\s(?P<pages>\d+-\d+)\.] *)
Definition apa_full2 : regex :=
  seqs [apa_authors; sp; chr "("; Grp "year" year4; str_re ")."; sp;
        Grp "title" some_lazy; chr "."; sp; Grp "journal" some_lazy;
        chr ","; sp; Grp "volume" (plus dg); issue_opt; chr ","; sp;
        Grp "pages" page_span; chr "."].
(** authors [\s\((?P<year>\d{4})(?:,\s[A-Za-z]+\s\d+)?\)\.\s(?P<title>.+?)\.\s(?:Recuperado|Retrieved)(?:\son|\sde)\s(?P<url>https?://[^\s]+)] *)
Definition apa_full3 : regex :=
  seqs [apa_authors; sp; chr "("; Grp "year" year4;
        opt (seqs [chr ","; sp; plus alpha; sp; plus dg]); str_re ").";
        sp; Grp "title" some_lazy; chr "."; sp;
        Alt (str_re "Recuperado") (str_re "Retrieved");
        Alt (Seq sp (str_re "on")) (Seq sp (str_re "de")); sp;
        Grp "url" url].

(** [[A-Za-z\-]+,\s[A-Za-z\s\-]+] *)
Definition full_name : regex :=
  seqs [plus name_c; chr ","; sp; plus alpha_sp_dash].
(** The author list opening the three MLA entries:
    [(?P<author>[A-Za-z\-]+,\s[A-Za-z\s\-]+)(?:,\sand\s[A-Za-z\-]+,\s[A-Za-z\s\-]+)*] *)
Definition mla_authors : regex :=
  seqs [Grp "author" full_name;
        star (seqs [chr ","; sp; str_re "and"; sp; full_name])].
(** authors [\.\s(?P<title>.+?)\.\s(?P<publisher>[A-Za-z\s]+),\s(?P<year>\d{4})\.] *)
Definition mla_full1 : regex :=
  seqs [mla_authors; chr "."; sp; Grp "title" some_lazy; chr "."; sp;
        Grp "publisher" (plus alpha_sp); chr ","; sp; Grp "year" year4;
        chr "."].
(** authors [\.\s"(?P<title>.+?)\."\s(?P<journal>.+?),\svol\.\s(?P<volume>\d+)(?:,\sno\.\s(?P<issue>\d+))?,\s(?P<year>\d{4}),\spp\.\s(?P<pages>\d+-\d+)\.] *)
Definition mla_full2 : regex :=
  seqs [mla_authors; chr "."; sp; Lit 34; Grp "title" some_lazy; chr ".";
        Lit 34; sp; Grp "journal" some_lazy; chr ","; sp; str_re "vol.";
        sp; Grp "volume" (plus dg);
        opt (seqs [chr ","; sp; str_re "no."; sp; Grp "issue" (plus dg)]);
        chr ","; sp; Grp "year" year4; chr ","; sp; str_re "pp."; sp;
        Grp "pages" page_span; chr "."].
(** authors [\.\s"(?P<title>.+?)\."\s(?P<site>.+?),\s(?P<date>[A-Za-z\.\s\d,]+),\s(?P<url>https?://[^\s]+)(?:\.\s(?:Accessed|Accedido)\s(?P<access_date>[A-Za-z\.\s\d,]+))?.]
    (the last dot is not escaped) *)
Definition mla_full3 : regex :=
  seqs [mla_authors; chr "."; sp; Lit 34; Grp "title" some_lazy; chr ".";
        Lit 34; sp; Grp "site" some_lazy; chr ","; sp;
        Grp "date" (plus date_c); chr ","; sp; Grp "url" url;
        opt (seqs [chr "."; sp;
                   Alt (str_re "Accessed") (str_re "Accedido"); sp;
                   Grp "access_date" (plus date_c)]);
        Dot].

(** The author list opening the three Chicago entries:
    [(?P<author>[A-Za-z\-]+,\s[A-Za-z\s\-]+)(?:,\s[A-Za-z\-]+,\s[A-Za-z\s\-]+)*(?:,\sand\s[A-Za-z\-]+,\s[A-Za-z\s\-]+)?] *)
Definition chicago_authors : regex :=
  seqs [Grp "author" full_name; star (seqs [chr ","; sp; full_name]);
        opt (seqs [chr ","; sp; str_re "and"; sp; full_name])].
(** authors [\.\s(?P<title>.+?)\.\s(?P<city>[A-Za-z\s]+):\s(?P<publisher>[A-Za-z\s]+),\s(?P<year>\d{4})\.] *)
Definition chicago_full1 : regex :=
  seqs [chicago_authors; chr "."; sp; Grp "title" some_lazy; chr "."; sp;
        Grp "city" (plus alpha_sp); chr ":"; sp;
        Grp "publisher" (plus alpha_sp); chr ","; sp; Grp "year" year4;
        chr "."].
(** authors [\.\s"(?P<title>.+?)\."\s(?P<journal>.+?)\s(?P<volume>\d+),\sno\.\s(?P<issue>\d+)\s\((?P<year>\d{4})\):\s(?P<pages>\d+-\d+)\.] *)
Definition chicago_full2 : regex :=
  seqs [chicago_authors; chr "."; sp; Lit 34; Grp "title" some_lazy;
        chr "."; Lit 34; sp; Grp "journal" some_lazy; sp;
        Grp "volume" (plus dg); chr ","; sp; str_re "no."; sp;
        Grp "issue" (plus dg); sp; chr "("; Grp "year" year4;
        str_re "):"; sp; Grp "pages" page_span; chr "."].
(** authors [\.\s"(?P<title>.+?)\."\s(?P<site>.+?)\.\s(?P<date>[A-Za-z\.\s\d,]+)\.\s(?P<url>https?://[^\s]+)\.] *)
Definition chicago_full3 : regex :=
  seqs [chicago_authors; chr "."; sp; Lit 34; Grp "title" some_lazy;
        chr "."; Lit 34; sp; Grp "site" some_lazy; chr "."; sp;
        Grp "date" (plus date_c); chr "."; sp; Grp "url" url; chr "."].

(** [[A-Za-z\-]+,\s[A-Z]\.] *)
Definition harvard_name : regex :=
  seqs [plus name_c; chr ","; sp; upper_az; chr "."].
(** The author list opening the three Harvard entries:
    [(?P<author>[A-Za-z\-]+,\s[A-Z]\.)(?:,\s[A-Za-z\-]+,\s[A-Z]\.)*(?:\sand\s[A-Za-z\-]+,\s[A-Z]\.)?] *)
Definition harvard_authors : regex :=
  seqs [Grp "author" harvard_name; star (seqs [chr ","; sp; harvard_name]);
        opt (seqs [sp; str_re "and"; sp; harvard_name])].
(** authors [\s\((?P<year>\d{4})\)\s(?P<title>.+?)\.\s(?P<city>[A-Za-z\s]+):\s(?P<publisher>[A-Za-z\s]+)\.] *)
Definition harvard_full1 : regex :=
  seqs [harvard_authors; sp; chr "("; Grp "year" year4; chr ")"; sp;
        Grp "title" some_lazy; chr "."; sp; Grp "city" (plus alpha_sp);
        chr ":"; sp; Grp "publisher" (plus alpha_sp); chr "."].
(** authors [\s\((?P<year>\d{4})\)\s\'(?P<title>.+?)\',\s(?P<journal>.+?),\s(?P<volume>\d+)(?:\((?P<issue>\d+)\))?,\spp\.\s(?P<pages>\d+-\d+)\.] *)
Definition harvard_full2 : regex :=
  seqs [harvard_authors; sp; chr "("; Grp "year" year4; chr ")"; sp;
        Lit 39; Grp "title" some_lazy; Lit 39; chr ","; sp;
        Grp "journal" some_lazy; chr ","; sp; Grp "volume" (plus dg);
        issue_opt; chr ","; sp; str_re "pp."; sp; Grp "pages" page_span;
        chr "."].
(** authors [\s\((?P<year>\d{4})\)\s(?P<title>.+?)\s\[Online\]\.\s(?:Available|Disponible)(?:\sat|\sen):\s(?P<url>https?://[^\s]+)\s\[(?:Accessed|Accedido):\s(?P<access_date>[A-Za-z\.\s\d,]+)\]] *)
Definition harvard_full3 : regex :=
  seqs [harvard_authors; sp; chr "("; Grp "year" year4; chr ")"; sp;
        Grp "title" some_lazy; sp; str_re "[Online]."; sp;
        Alt (str_re "Available") (str_re "Disponible");
        Alt (Seq sp (str_re "at")) (Seq sp (str_re "en")); chr ":"; sp;
        Grp "url" url; sp; chr "[";
        Alt (str_re "Accessed") (str_re "Accedido"); chr ":"; sp;
        Grp "access_date" (plus date_c); chr "]"].

(** [[A-Z]\.\s[A-Za-z\-]+] *)
Definition ieee_name : regex := seqs [upper_az; chr "."; sp; plus name_c].
(** The number and author list opening the two IEEE entries:
    [\[(?P<number>\d+)\]\s(?P<author>[A-Z]\.\s[A-Za-z\-]+)(?:,\s[A-Z]\.\s[A-Za-z\-]+)*(?:,\sand\s[A-Z]\.\s[A-Za-z\-]+)?,\s] *)
Definition ieee_authors : regex :=
  seqs [chr "["; Grp "number" (plus dg); chr "]"; sp;
        Grp "author" ieee_name; star (seqs [chr ","; sp; ieee_name]);
        opt (seqs [chr ","; sp; str_re "and"; sp; ieee_name]); chr ",";
        sp].
(** authors ["(?P<title>.+?)(?:,|")(?:\s(?P<journal>.+?),\svol\.\s(?P<volume>\d+),\sno\.\s(?P<issue>\d+),\spp\.\s(?P<pages>\d+-\d+),\s(?P<date>[A-Za-z\.\s\d,]+))?] *)
Definition ieee_full1 : regex :=
  seqs [ieee_authors; Lit 34; Grp "title" some_lazy;
        Alt (chr ",") (Lit 34);
        opt (seqs [sp; Grp "journal" some_lazy; chr ","; sp;
                   str_re "vol."; sp; Grp "volume" (plus dg); chr ",";
                   sp; str_re "no."; sp; Grp "issue" (plus dg); chr ",";
                   sp; str_re "pp."; sp; Grp "pages" page_span; chr ",";
                   sp; Grp "date" (plus date_c)])].
(** authors [(?P<title>.+?)\.\s(?P<city>[A-Za-z\s]+):\s(?P<publisher>[A-Za-z\s]+),\s(?P<year>\d{4})(?:,\spp\.\s(?P<pages>\d+-\d+))?] *)
Definition ieee_full2 : regex :=
  seqs [ieee_authors; Grp "title" some_lazy; chr "."; sp;
        Grp "city" (plus alpha_sp); chr ":"; sp;
        Grp "publisher" (plus alpha_sp); chr ","; sp; Grp "year" year4;
        opt (seqs [chr ","; sp; str_re "pp."; sp; Grp "pages" page_span])].

(** [[A-Za-z\-]+\s[A-Z]{1,2}] *)
Definition initials_name : regex :=
  seqs [plus name_c; sp; rep12 upper_az].
(** The number and author list opening the two Vancouver entries:
    [(?P<number>\d+)\.\s(?P<author>[A-Za-z\-]+\s[A-Z]{1,2})(?:,\s[A-Za-z\-]+\s[A-Z]{1,2})*(?:,\s[A-Za-z\-]+\s[A-Z]{1,2})?\.\s] *)
Definition vancouver_authors : regex :=
  seqs [Grp "number" (plus dg); chr "."; sp; Grp "author" initials_name;
        star (seqs [chr ","; sp; initials_name]);
        opt (seqs [chr ","; sp; initials_name]); chr "."; sp].
(** authors [(?P<title>.+?)\.\s(?P<journal>.+?)\.\s(?P<year>\d{4});(?P<volume>\d+)(?:\((?P<issue>\d+)\))?:(?P<pages>\d+-\d+)\.] *)
Definition vancouver_full1 : regex :=
  seqs [vancouver_authors; Grp "title" some_lazy; chr "."; sp;
        Grp "journal" some_lazy; chr "."; sp; Grp "year" year4; chr ";";
        Grp "volume" (plus dg); issue_opt; chr ":"; Grp "pages" page_span;
        chr "."].
(** authors [(?P<title>.+?)(?:\.\s(?P<edition>\d+)(?:rd|nd|st|th)\sed)?(?:\.\s(?P<city>[A-Za-z\s]+):\s(?P<publisher>[A-Za-z\s]+);\s(?P<year>\d{4}))?] *)
Definition vancouver_full2 : regex :=
  seqs [vancouver_authors; Grp "title" some_lazy;
        opt (seqs [chr "."; sp; Grp "edition" (plus dg);
                   Alt (str_re "rd")
                     (Alt (str_re "nd") (Alt (str_re "st") (str_re "th")));
                   sp; str_re "ed"]);
        opt (seqs [chr "."; sp; Grp "city" (plus alpha_sp); chr ":"; sp;
                   Grp "publisher" (plus alpha_sp); chr ";"; sp;
                   Grp "year" year4])].

(** The authors, year and title opening the two CSE entries:
    [(?P<author>[A-Za-z\-]+\s[A-Z]{1,2})(?:,\s[A-Za-z\-]+\s[A-Z]{1,2})*\.\s(?P<year>\d{4})\.\s(?P<title>.+?)\.\s] *)
Definition cse_head : regex :=
  seqs [Grp "author" initials_name;
        star (seqs [chr ","; sp; initials_name]); chr "."; sp;
        Grp "year" year4; chr "."; sp; Grp "title" some_lazy; chr ".";
        sp].
(** head [(?P<journal>.+?)\.\s(?P<volume>\d+)(?:\((?P<issue>\d+)\))?:(?P<pages>\d+-\d+)\.] *)
Definition cse_full1 : regex :=
  seqs [cse_head; Grp "journal" some_lazy; chr "."; sp;
        Grp "volume" (plus dg); issue_opt; chr ":"; Grp "pages" page_span;
        chr "."].
(** head [(?P<city>[A-Za-z\s]+)(?:\s\([A-Z]{2}\))?:\s(?P<publisher>[A-Za-z\s]+)(?:\.\s(?P<pages>\d+)\sp)?] *)
Definition cse_full2 : regex :=
  seqs [cse_head; Grp "city" (plus alpha_sp);
        opt (seqs [sp; chr "("; upper_az; upper_az; chr ")"]); chr ":";
        sp; Grp "publisher" (plus alpha_sp);
        opt (seqs [chr "."; sp; Grp "pages" (plus dg); sp; chr "p"])].

Definition builtin_full_citation : odict (list regex) :=
  [ (lit "APA", [apa_full1; apa_full2; apa_full3]);
    (lit "MLA", [mla_full1; mla_full2; mla_full3]);
    (lit "CHICAGO", [chicago_full1; chicago_full2; chicago_full3]);
    (lit "HARVARD", [harvard_full1; harvard_full2; harvard_full3]);
    (lit "IEEE", [ieee_full1; ieee_full2]);
    (lit "VANCOUVER", [vancouver_full1; vancouver_full2]);
    (lit "CSE", [cse_full1; cse_full2]) ].

(** The detector built by [CitationStyleDetector()]. *)
Definition builtin : catalog :=
  {| in_text_patterns := builtin_in_text;
     full_citation_patterns := builtin_full_citation |}.

(** *** Exceptions

    A Python operation that can raise ([d[k]] on a missing key, division
    by zero, [max] of an empty dict, a method call on [None]) yields
    [None]; [x <- e ;; k] stops at the first one. *)
Definition bind {A B : Type} (e : option A) (k : A -> option B)
  : option B :=
  match e with Some x => k x | None => None end.

Notation "x <- e ;; k" := (bind e (fun x => k))
  (at level 61, e at next level, right associativity).

(** *** [detect_citation_styles] *)

Record results : Type :=
  { in_text : odict nat; full_citation : odict nat }.

(** [{style: 0 for style in d}] *)
Definition zero_counts (d : odict (list regex)) : odict nat :=
  fold_left (fun acc style => set style 0 acc) (keys d) [].

(** [d[k] += n] *)
Definition incr (k : pystr) (n : nat) (d : odict nat)
  : option (odict nat) :=
  v <- get k d ;; Some (set k (v + n) d).

(** [for pattern in patterns: counts[style] += len(re.findall(pattern, text, re.MULTILINE))] *)
Fixpoint count_patterns (text style : pystr) (patterns : list regex)
  (counts : odict nat) : option (odict nat) :=
  match patterns with
  | [] => Some counts
  | p :: ps =>
      c <- incr style (findall_count MULTILINE p text) counts ;;
      count_patterns text style ps c
  end.

(** [for style, patterns in table.items(): ...] *)
Fixpoint count_styles (text : pystr) (items : odict (list regex))
  (counts : odict nat) : option (odict nat) :=
  match items with
  | [] => Some counts
  | (style, patterns) :: items' =>
      c <- count_patterns text style patterns counts ;;
      count_styles text items' c
  end.

Definition detect_citation_styles (self : catalog) (text : pystr)
  : option results :=
  it <- count_styles text (in_text_patterns self)
          (zero_counts (in_text_patterns self)) ;;
  fc <- count_styles text (full_citation_patterns self)
          (zero_counts (full_citation_patterns self)) ;;
  Some {| in_text := it; full_citation := fc |}.

(** *** [identify_primary_style] *)

Definition CHICAGO : pystr := lit "CHICAGO".
Definition CHICAGO_AUTHOR_DATE : pystr := lit "CHICAGO_AUTHOR_DATE".
Definition CHICAGO_NOTES : pystr := lit "CHICAGO_NOTES".

(** [if k not in d: d[k] = 0] followed by [d[k] += n] *)
Definition add_to (k : pystr) (n : nat) (d : odict nat)
  : option (odict nat) :=
  incr k n (if mem k d then d else set k 0 d).

(** The first loop over [self.in_text_patterns]. *)
Fixpoint combine_in_text (styles : list pystr) (counts : odict nat)
  (combined : odict nat) : option (odict nat) :=
  match styles with
  | [] => Some combined
  | style :: styles' =>
      n <- get style counts ;;
      c <- (if str_eqb style CHICAGO_AUTHOR_DATE
               || str_eqb style CHICAGO_NOTES
            then add_to CHICAGO n combined
            else add_to style n combined) ;;
      combine_in_text styles' counts c
  end.

(** The second loop, over [self.full_citation_patterns]. *)
Fixpoint combine_full (styles : list pystr) (counts : odict nat)
  (combined : odict nat) : option (odict nat) :=
  match styles with
  | [] => Some combined
  | style :: styles' =>
      n <- get style counts ;;
      c <- add_to style n combined ;;
      combine_full styles' counts c
  end.

(** The dict [combined_results] built by [identify_primary_style]. *)
Definition combined_results (self : catalog) (res : results)
  : option (odict nat) :=
  c <- combine_in_text (keys (in_text_patterns self)) (in_text res) [] ;;
  combine_full (keys (full_citation_patterns self)) (full_citation res) c.

(** [max(d, key=d.get)]: the first key that holds the largest value. *)
Fixpoint max_key_from (best : pystr) (bv : nat) (d : odict nat) : pystr :=
  match d with
  | [] => best
  | (k, v) :: d' =>
      if Nat.ltb bv v then max_key_from k v d' else max_key_from best bv d'
  end.

Definition max_key (d : odict nat) : option pystr :=
  match d with
  | [] => None
  | (k, v) :: d' => Some (max_key_from k v d')
  end.

(** [a / b] on non-negative integers. *)
Definition div_int (a b : nat) : option Q :=
  if Nat.eqb b 0 then None
  else Some (Qmake (Z.of_nat a) (Pos.of_nat b)).

Definition identify_primary_style (self : catalog) (text : pystr)
  : option (pystr * Q) :=
  res <- detect_citation_styles self text ;;
  let total_in_text := list_sum (values (in_text res)) in
  let total_full := list_sum (values (full_citation res)) in
  let total := total_in_text + total_full in
  if Nat.eqb total 0 then Some (NONE, 0%Q)
  else
    combined <- combined_results self res ;;
    match combined with
    | [] => Some (NONE, 0%Q)
    | _ =>
        primary_style <- max_key combined ;;
        v <- get primary_style combined ;;
        confidence <- div_int v total ;;
        Some (primary_style, confidence)
    end.

(** *** [_extract_citation_keys] *)

Definition APA : pystr := lit "APA".
Definition MLA : pystr := lit "MLA".
Definition HARVARD : pystr := lit "HARVARD".

(** [\((?P<author>[A-Za-z\-]+(?:\s[A-Za-z\-]+)?(?: et al\.)?),\s(?P<year>\d{4})] *)
Definition key_apa_paren : regex :=
  seqs [chr "("; Grp "author" author_et_al; chr ","; sp; Grp "year" year4].
(** [(?P<author>[A-Za-z\-]+(?:\s[A-Za-z\-]+)?(?: et al\.)?)\s\((?P<year>\d{4})] *)
Definition key_apa_narrative : regex :=
  seqs [Grp "author" author_et_al; sp; chr "("; Grp "year" year4].
(** [\((?P<author>[A-Za-z\-]+(?:\s[A-Za-z\-]+)?(?: et al\.)?)\s\d+] *)
Definition key_mla_paren : regex :=
  seqs [chr "("; Grp "author" author_et_al; sp; plus dg].
(** [(?P<author>[A-Za-z\-]+(?:\s[A-Za-z\-]+)?(?: et al\.)?)\s\(\d+] *)
Definition key_mla_narrative : regex :=
  seqs [Grp "author" author_et_al; sp; chr "("; plus dg].
(** [\((?P<author>[A-Za-z\-]+(?:\s[A-Za-z\-]+)?(?: et al\.)?)\s(?P<year>\d{4})] *)
Definition key_chicago : regex :=
  seqs [chr "("; Grp "author" author_et_al; sp; Grp "year" year4].

Definition key : Type := (pystr * pystr)%type.

Definition key_eqb (a b : key) : bool :=
  str_eqb (fst a) (fst b) && str_eqb (snd a) (snd b).

(** [for match in matches: keys.append((author, year))] with both
    groups read from the match and stripped. *)
Fixpoint author_year_keys (ms : list rmatch_obj) : option (list key) :=
  match ms with
  | [] => Some []
  | m :: ms' =>
      author <- m_group m "author" ;;
      year <- m_group m "year" ;;
      ks <- author_year_keys ms' ;;
      Some ((strip author, strip year) :: ks)
  end.

(** [for match in matches: keys.append((author, ""))] *)
Fixpoint author_only_keys (ms : list rmatch_obj) : option (list key) :=
  match ms with
  | [] => Some []
  | m :: ms' =>
      author <- m_group m "author" ;;
      ks <- author_only_keys ms' ;;
      Some ((strip author, []) :: ks)
  end.

(** [list(set(xs))].  The order in which a set is listed is not
    specified by Python; the model lists each element at the place of
    its first occurrence. *)
Section SetList.
Variable A : Type.
Variable eqb : A -> A -> bool.
Fixpoint set_list_from (seen xs : list A) : list A :=
  match xs with
  | [] => []
  | x :: xs' =>
      if existsb (eqb x) seen then set_list_from seen xs'
      else x :: set_list_from (x :: seen) xs'
  end.
Definition set_list (xs : list A) : list A := set_list_from [] xs.
End SetList.

Definition _extract_citation_keys (text style : pystr)
  : option (list key) :=
  keys <-
    (if str_eqb style APA || str_eqb style HARVARD then
       k1 <- author_year_keys (re_finditer no_flags key_apa_paren text) ;;
       k2 <- author_year_keys
               (re_finditer no_flags key_apa_narrative text) ;;
       Some (k1 ++ k2)%list
     else if str_eqb style MLA then
       k1 <- author_only_keys (re_finditer no_flags key_mla_paren text) ;;
       k2 <- author_only_keys
               (re_finditer no_flags key_mla_narrative text) ;;
       Some (k1 ++ k2)%list
     else if str_eqb style CHICAGO then
       author_year_keys (re_finditer no_flags key_chicago text)
     else Some []) ;;
  Some (set_list key_eqb keys).

(** *** [_find_bibliography_section] *)

Definition Bibliografia : pystr := lit "Bibliograf" ++ [237%N] ++ lit "a".
Definition Referencias_bibliograficas : pystr :=
  lit "Referencias bibliogr" ++ [225%N] ++ lit "ficas".

(** The local dict [headers]. *)
Definition headers : odict (list pystr) :=
  [ (lit "APA", [lit "Referencias"; Bibliografia;
                 Referencias_bibliograficas; lit "References";
                 lit "Bibliography"; lit "Reference List"]);
    (lit "MLA", [lit "Obras citadas"; Bibliografia; lit "Works Cited";
                 lit "Bibliography"]);
    (lit "CHICAGO", [Bibliografia; lit "Notas"; lit "Bibliography";
                     lit "Notes"; lit "References"]);
    (lit "HARVARD", [lit "Referencias"; Bibliografia; lit "References";
                     lit "Bibliography"]);
    (lit "IEEE", [lit "Referencias"; lit "References"]);
    (lit "VANCOUVER", [lit "Referencias"; Bibliografia; lit "References";
                       lit "Bibliography"]);
    (lit "CSE", [lit "Referencias"; Bibliografia; lit "References";
                 lit "Bibliography"; lit "Cited References"]) ].

(** A header used as a pattern: letters and blanks only, each one a
    literal. *)
Definition header_re (h : pystr) : regex := seqs (map Lit h).

(** [fr'(?i)(?:^|\n)\s*{header}\s*(?:\n|$)'] *)
Definition header_line_re (h : pystr) : regex :=
  seqs [Alt Bol (Lit NL); star sp; header_re h; star sp; Alt (Lit NL) Eol].

Definition is_some {A : Type} (o : option A) : bool :=
  match o with Some _ => true | None => false end.

Definition nonempty {A : Type} (l : list A) : bool :=
  match l with [] => false | _ => true end.

(** [d.get(k, [])] *)
Definition get_list {A : Type} (k : pystr) (d : odict (list A)) : list A :=
  match get k d with Some l => l | None => [] end.

(** The first loop: the text from the first header found. *)
Fixpoint from_header (text : pystr) (style_headers : list pystr)
  : option pystr :=
  match style_headers with
  | [] => None
  | h :: hs =>
      match re_search IGNORECASE (header_line_re h) text with
      | Some m => Some (skipn (m_start m) text)
      | None => from_header text hs
      end
  end.

(** The [while] loop: walk back from a reference line to a blank line
    or to a line holding a header. *)
Fixpoint walk_back (style_headers : list pystr) (lines : list pystr)
  (start_line : nat) : nat :=
  match start_line with
  | O => O
  | S j =>
      if nonempty (strip (nth j lines []))
      then
        if existsb
             (fun h =>
                is_some (re_search IGNORECASE (header_re h) (nth j lines [])))
             style_headers
        then j
        else walk_back style_headers lines j
      else S j
  end.

(** [for i in range(len(lines) - 1, 0, -1)]: [i] runs down to 1. *)
Fixpoint from_last_reference (patterns : list regex)
  (style_headers : list pystr) (lines : list pystr) (i : nat)
  : option pystr :=
  match i with
  | O => None
  | S i' =>
      if existsb (fun p => is_some (re_match no_flags p (nth i lines [])))
           patterns
      then Some (join [NL] (skipn (walk_back style_headers lines i) lines))
      else from_last_reference patterns style_headers lines i'
  end.

Definition _find_bibliography_section (self : catalog)
  (text style : pystr) : pystr :=
  let style_headers := get_list style headers in
  match from_header text style_headers with
  | Some section => section
  | None =>
      let lines := split_char NL text in
      match from_last_reference
              (get_list style (full_citation_patterns self))
              style_headers lines (length lines - 1) with
      | Some section => section
      | None => []
      end
  end.

(** *** [extract_citations] *)

Record citations : Type :=
  { en_texto : list pystr; bibliograficas : list pystr }.

(** [^[A-Za-z\-]+,], [^\[\d+\]] and [^\d+\.] *)
Definition starts_surname : regex := seqs [Bol; plus name_c; chr ","].
Definition starts_bracket_no : regex :=
  seqs [Bol; chr "["; plus dg; chr "]"].
Definition starts_number_dot : regex := seqs [Bol; plus dg; chr "."].

(** The line-by-line grouping used when no pattern matched: the
    references closed so far and the one being read. *)
Fixpoint group_lines (lines : list pystr) (refs : list pystr)
  (current_ref : pystr) : list pystr :=
  match lines with
  | [] => if nonempty current_ref then refs ++ [current_ref] else refs
  | line0 :: lines' =>
      let line := strip line0 in
      if negb (nonempty line) then
        if nonempty current_ref
        then group_lines lines' (refs ++ [current_ref]) []
        else group_lines lines' refs current_ref
      else if is_some (re_match no_flags starts_surname line)
              || is_some (re_match no_flags starts_bracket_no line)
              || is_some (re_match no_flags starts_number_dot line)
      then group_lines lines'
             (if nonempty current_ref then refs ++ [current_ref] else refs)
             line
      else group_lines lines' refs (current_ref ++ lit " " ++ line)
  end%list.

(** [sorted(xs)] for strings: insertion into an ascending list. *)
Fixpoint insert_sorted (x : pystr) (l : list pystr) : list pystr :=
  match l with
  | [] => [x]
  | y :: l' => if str_leb x y then x :: l else y :: insert_sorted x l'
  end.

Definition sorted (l : list pystr) : list pystr :=
  fold_right insert_sorted [] l.

(** [[m.group(0) for p in patterns for m in re.finditer(p, text, re.MULTILINE)]] *)
Definition all_matches (patterns : list regex) (text : pystr)
  : list pystr :=
  flat_map (fun p => map (@m_text) (re_finditer MULTILINE p text)) patterns.

Definition extract_citations (self : catalog) (text : pystr)
  : option citations :=
  r <- identify_primary_style self text ;;
  let primary_style := fst r in
  if str_eqb primary_style NONE
  then Some {| en_texto := []; bibliograficas := [] |}
  else
    let in_text_found :=
      if mem primary_style (in_text_patterns self) then
        let patterns :=
          if str_eqb primary_style CHICAGO
          then (get_list CHICAGO_AUTHOR_DATE (in_text_patterns self)
                ++ get_list CHICAGO_NOTES (in_text_patterns self))%list
          else get_list primary_style (in_text_patterns self) in
        all_matches patterns text
      else [] in
    let bib_found :=
      if mem primary_style (full_citation_patterns self) then
        let bibliography_section :=
          _find_bibliography_section self text primary_style in
        if nonempty bibliography_section then
          let by_pattern :=
            all_matches
              (get_list primary_style (full_citation_patterns self))
              bibliography_section in
          if nonempty by_pattern then by_pattern
          else group_lines (split_char NL bibliography_section) [] []
        else []
      else [] in
    Some {| en_texto := sorted (set_list str_eqb in_text_found);
            bibliograficas := sorted (set_list str_eqb bib_found) |}.

(** *** [_load_custom_patterns]

    The value read by [json.load]; the pattern tables hold such values
    too, since the loader stores whatever the file gives for a style. *)
Local Unset Elimination Schemes.
Inductive json : Type :=
| JNull
| JBool (b : bool)
| JNum (z : Z)
| JStr (s : pystr)
| JArr (xs : list json)
| JObj (items : list (pystr * json)).
Local Set Elimination Schemes.

Record tables : Type :=
  { t_in_text : odict json; t_full_citation : odict json }.

(** [k in v]; [None] is the [TypeError] of a value that is no
    container. *)
Definition py_in (k : pystr) (v : json) : option bool :=
  match v with
  | JObj items => Some (mem k items)
  | JArr xs =>
      Some (existsb
              (fun x => match x with JStr s => str_eqb s k | _ => false end)
              xs)
  | JStr s => Some (contains k s)
  | _ => None
  end.

(** [v[k]] for a string [k]: [KeyError] and [TypeError] are [None]. *)
Definition py_getitem (v : json) (k : pystr) : option json :=
  match v with
  | JObj items => get k items
  | _ => None
  end.

(** [v.items()]: only a dict has the method. *)
Definition py_items (v : json) : option (list (pystr * json)) :=
  match v with
  | JObj items => Some items
  | _ => None
  end.

(** [list(v)]: what [extend] appends; [None] for a value that cannot be
    iterated. *)
Definition py_iter (v : json) : option (list json) :=
  match v with
  | JArr xs => Some xs
  | JStr s => Some (map (fun c => JStr [c]) s)
  | JObj items => Some (map (fun kv => JStr (fst kv)) items)
  | _ => None
  end.

(** [target.extend(patterns)]: only a list has the method. *)
Definition py_extend (target patterns : json) : option json :=
  match target with
  | JArr xs => ys <- py_iter patterns ;; Some (JArr (xs ++ ys)%list)
  | _ => None
  end.

(** One of the two [for style, patterns in ....items()] loops.  The
    table is updated in place, so an exception leaves the updates made
    so far; the boolean tells whether one was raised. *)
Fixpoint merge_styles (items : list (pystr * json)) (table : odict json)
  : odict json * bool :=
  match items with
  | [] => (table, false)
  | (style, patterns) :: items' =>
      match get style table with
      | Some current =>
          match py_extend current patterns with
          | Some extended => merge_styles items' (set style extended table)
          | None => (table, true)
          end
      | None => merge_styles items' (set style patterns table)
      end
  end.

(** [if name in custom_patterns: for ... in custom_patterns[name].items(): ...] *)
Definition merge_section (name : pystr) (custom_patterns : json)
  (table : odict json) : odict json * bool :=
  match py_in name custom_patterns with
  | None => (table, true)
  | Some false => (table, false)
  | Some true =>
      match py_getitem custom_patterns name with
      | None => (table, true)
      | Some section =>
          match py_items section with
          | None => (table, true)
          | Some items => merge_styles items table
          end
      end
  end.

(** [_load_custom_patterns], given what [json.load] returned ([None]
    when opening or parsing the file raised).  The result is the state
    of the tables afterwards and whether the [except] branch ran (the
    error is logged, never propagated). *)
Definition _load_custom_patterns (self : tables)
  (loaded : option json) : tables * bool :=
  match loaded with
  | None => (self, true)
  | Some custom_patterns =>
      let (it, raised) :=
        merge_section (lit "in_text_patterns") custom_patterns
          (t_in_text self) in
      if raised
      then ({| t_in_text := it; t_full_citation := t_full_citation self |},
            true)
      else
        let (fc, raised') :=
          merge_section (lit "full_citation_patterns") custom_patterns
            (t_full_citation self) in
        ({| t_in_text := it; t_full_citation := fc |}, raised')
  end.

End Detector.

(** ** extractor.py: class CitationExtractor *)

Module Extractor.
Import Frag.
Import Detector (bind).

Notation "x <- e ;; k" := (bind e (fun x => k))
  (at level 61, e at next level, right associativity).

Definition APA : pystr := lit "APA".
Definition MLA : pystr := lit "MLA".
Definition CHICAGO : pystr := lit "CHICAGO".
Definition CHICAGO_AUTHOR_DATE : pystr := lit "CHICAGO_AUTHOR_DATE".
Definition CHICAGO_NOTES : pystr := lit "CHICAGO_NOTES".
Definition HARVARD : pystr := lit "HARVARD".
Definition IEEE : pystr := lit "IEEE".
Definition VANCOUVER : pystr := lit "VANCOUVER".
Definition CSE : pystr := lit "CSE".

(** The only state given to the constructor: [self.patterns], an
    optional [CitationPatterns] object, seen through
    [get_pattern(style, 'in_text')], which returns patterns compiled
    with [re.MULTILINE]. *)
Record extractor : Type :=
  { patterns : option (pystr -> list regex) }.

(** *** [_init_section_patterns] *)

(** [self.bibliography_headers].  Every entry of the source has the
    form [(?i)^WORDS$]; the table lists WORDS. *)
Definition bibliography_headers : odict (list pystr) :=
  [ (APA, [lit "Referencias"; Detector.Referencias_bibliograficas;
           Detector.Bibliografia; lit "References"; lit "Reference List";
           lit "Bibliography"]);
    (MLA, [lit "Obras citadas"; lit "Works Cited"; Detector.Bibliografia;
           lit "Bibliography"]);
    (CHICAGO, [Detector.Bibliografia; lit "Bibliography";
               lit "Referencias"; lit "References"; lit "Notas";
               lit "Notes"]);
    (HARVARD, [lit "Referencias"; Detector.Referencias_bibliograficas;
               Detector.Bibliografia; lit "Reference List";
               lit "References"]);
    (IEEE, [lit "Referencias"; lit "References"]);
    (VANCOUVER, [lit "Referencias"; lit "References";
                 Detector.Bibliografia; lit "Bibliography"]);
    (CSE, [lit "Referencias"; lit "References"; lit "Cited References";
           lit "Referencias citadas"; Detector.Bibliografia;
           lit "Bibliography"]) ].

(** The pattern text [(?i)^WORDS$] of a header and its length
    ([len(header)]). *)
Definition header_src (words : pystr) : pystr :=
  lit "(?i)^" ++ words ++ lit "$".
Definition header_len (words : pystr) : nat := length (header_src words).

(** [(?i)^WORDS$], searched with [re.IGNORECASE | re.MULTILINE]. *)
Definition header_re (words : pystr) : regex :=
  seqs [Bol; Detector.header_re words; Eol].

(** *** Patterns pasted around a header

    Three methods build a pattern by pasting a header of the table after
    the text [(?i)^]: [f"(?i)^{header}\\s*$"] and [f"(?i)^{header}\\s*\n"].
    The header brings its own [(?i)], which then stands after the item
    [^].  [re] refuses a pattern in which a global flag follows another
    item: [re.compile] raises [re.error], "global flags not at the start
    of the expression" (CPython 3.11 and later; earlier versions warned
    and let the flag apply to the whole pattern). *)

Definition flag_i : pystr := lit "(?i)".

(** The text of a pattern after the groups [(?i)] that it starts
    with. *)
Fixpoint after_flags (n : nat) (src : pystr) : pystr :=
  match n with
  | O => src
  | S n' =>
      if startswith flag_i src then after_flags n' (skipn 4 src) else src
  end.

(** A global flag [(?i)] that follows another item.  (The texts pasted
    here hold no other group, class or escape before it.) *)
Definition misplaced_flag (src : pystr) : bool :=
  contains flag_i (after_flags (length src) src).

(** [re.compile] of the pattern text [src], whose tree (with the flags
    set by [(?i)] at its start) is [r]; [None] is [re.error]. *)
Definition compile_pasted (src : pystr) (r : regex) : option regex :=
  if misplaced_flag src then None else Some r.

(** [f"(?i)^{header}\\s*$"], that is [(?i)^(?i)^WORDS$\s*$], searched
    with [re.MULTILINE]: its text and the tree it would have. *)
Definition header_line_src (words : pystr) : pystr :=
  lit "(?i)^" ++ header_src words ++ lit "\s*$".
Definition header_line_re (words : pystr) : regex :=
  seqs [Bol; header_re words; star sp; Eol].
(** [f"(?i)^{header}\\s*\n"], used by [re.sub] without [re.MULTILINE];
    the text ends with a newline character. *)
Definition header_strip_src (words : pystr) : pystr :=
  lit "(?i)^" ++ header_src words ++ lit "\s*" ++ [NL].
Definition header_strip_re (words : pystr) : regex :=
  seqs [Bol; header_re words; star sp; Lit NL].

(** [[A-Za-zÀ-ÿ\-]+(?:\s[A-Za-zÀ-ÿ\-]+)?] *)
Definition author : regex := Seq (plus name_u) (opt (Seq sp (plus name_u))).
(** [[A-Za-zÀ-ÿ\-]+(?:\s[A-Za-zÀ-ÿ\-]+)?(?: et al\.)?] *)
Definition author_et_al : regex := Seq author et_al.
(** [[A-Za-zÀ-ÿ\-]+(?:\s[A-Za-zÀ-ÿ\-]+)?(?: et al\.)?(?: and [A-Za-zÀ-ÿ\-]+(?:\s[A-Za-zÀ-ÿ\-]+)?)?] *)
Definition authors_and : regex :=
  Seq author_et_al (opt (Seq (str_re " and ") author)).
(** [(?:[A-Za-zÀ-ÿ\-]+(?:\s[A-Za-zÀ-ÿ\-]+)?(?: et al\.)?(?:,| &| y) )?[A-Za-zÀ-ÿ\-]+(?:\s[A-Za-zÀ-ÿ\-]+)?(?: et al\.)?] *)
Definition apa_authors : regex :=
  Seq (opt (seqs [author_et_al;
                  Alt (chr ",") (Alt (str_re " &") (str_re " y"));
                  chr " "]))
      author_et_al.
(** [(?:, p\.? \d+(?:-\d+)?)?] *)
Definition apa_page : regex :=
  opt (seqs [str_re ", p"; opt (chr "."); chr " "; num_range]).
(** [(?:, \d+(?:-\d+)?)?] *)
Definition chicago_page : regex := opt (Seq (str_re ", ") num_range).
(** [(?::\s?\d+(?:-\d+)?)?] *)
Definition harvard_page : regex :=
  opt (seqs [chr ":"; opt sp; num_range]).

(** [self.in_text_patterns], in the order of the source. *)
Definition in_text_patterns : odict (list regex) :=
  [ (APA,
     [ (* \( apa_authors , \d{4} apa_page \) *)
       seqs [chr "("; apa_authors; str_re ", "; year4; apa_page; chr ")"];
       (* apa_authors  \(\d{4} apa_page \) *)
       seqs [apa_authors; str_re " ("; year4; apa_page; chr ")"] ]);
    (MLA,
     [ (* \( authors_and  \d+(?:-\d+)?\) *)
       seqs [chr "("; authors_and; chr " "; num_range; chr ")"];
       (* authors_and  \(\d+(?:-\d+)?\) *)
       seqs [authors_and; str_re " ("; num_range; chr ")"] ]);
    (CHICAGO_AUTHOR_DATE,
     [ (* \( authors_and  \d{4}(?:, \d+(?:-\d+)?)?\) *)
       seqs [chr "("; authors_and; chr " "; year4; chicago_page; chr ")"];
       (* authors_and  \(\d{4}(?:, \d+(?:-\d+)?)?\) *)
       seqs [authors_and; str_re " ("; year4; chicago_page; chr ")"] ]);
    (CHICAGO_NOTES,
     [ (* ^\d+\.\s.+ *)
       seqs [Bol; plus dg; chr "."; sp; some];
       (* (?:Ibid\.|Op\. cit\.|Loc\. cit\.)(?:,\s\d+(?:-\d+)?)? *)
       Seq (Alt (str_re "Ibid.")
              (Alt (str_re "Op. cit.") (str_re "Loc. cit.")))
           (opt (seqs [chr ","; sp; num_range])) ]);
    (HARVARD,
     [ (* \( authors_and , \d{4}(?::\s?\d+(?:-\d+)?)?\) *)
       seqs [chr "("; authors_and; str_re ", "; year4; harvard_page;
             chr ")"];
       (* authors_and  \(\d{4}(?::\s?\d+(?:-\d+)?)?\) *)
       seqs [authors_and; str_re " ("; year4; harvard_page; chr ")"] ]);
    (IEEE,
     [ (* \[\d+\] *)
       seqs [chr "["; plus dg; chr "]"];
       (* \[\d+(?:,\s*\d+)*\] *)
       seqs [chr "["; plus dg; star (seqs [chr ","; star sp; plus dg]);
             chr "]"] ]);
    (VANCOUVER,
     [ (* \(\d+\) *)
       seqs [chr "("; plus dg; chr ")"];
       (* \[\d+\] *)
       seqs [chr "["; plus dg; chr "]"];
       (* (?:^|\s)[\u00B9\u00B2\u00B3\u2070-\u2079]+ *)
       seqs [Alt Bol sp;
             plus (Cls false [CChar 185; CChar 178; CChar 179;
                              CRange 8304 8313])] ]);
    (CSE,
     [ (* \( author_et_al  \d{4}\) *)
       seqs [chr "("; author_et_al; chr " "; year4; chr ")"];
       (* author_et_al  \d{4} *)
       seqs [author_et_al; chr " "; year4];
       (* \[\d+\] *)
       seqs [chr "["; plus dg; chr "]"];
       (* \[ author (?:,\s\d{4})?\] *)
       seqs [chr "["; author; opt (seqs [chr ","; sp; year4]); chr "]"] ])
  ].

(** *** [_is_valid_citation] *)

Definition in_text : pystr := lit "in_text".
Definition bibliography : pystr := lit "bibliography".

Definition found (f : flags) (r : regex) (s : pystr) : bool :=
  Detector.is_some (re_search f r s).

(** [[.!?]$] *)
Definition ends_punct : regex :=
  Seq (Cls false [CChar 46; CChar 33; CChar 63]) Eol.
(** [^\[\d+\]|\d+\.] *)
Definition numbered_start : regex :=
  Alt (seqs [Bol; chr "["; plus dg; chr "]"]) (seqs [plus dg; chr "."]).
(** [^[A-Za-zÀ-ÿ\-]+,] *)
Definition surname_start : regex := seqs [Bol; plus name_u; chr ","].

Definition _is_valid_citation (citation style citation_type : pystr)
  : bool :=
  if Nat.ltb (length citation) 3 then false
  else if str_eqb citation_type in_text then
    if (if str_eqb style APA then
          negb (found no_flags year4 citation)
          || (startswith (lit "(") citation
              && negb (endswith (lit ")") citation))
        else if str_eqb style MLA then
          has_char 40 citation && has_char 41 citation
          && negb (found no_flags (plus dg) citation)
        else if str_eqb style CHICAGO_AUTHOR_DATE || str_eqb style CHICAGO
        then
          negb (found no_flags year4 citation)
          || (startswith (lit "(") citation
              && negb (endswith (lit ")") citation))
        else if str_eqb style IEEE || str_eqb style VANCOUVER then
          negb (found no_flags (plus dg) citation)
        else false)
    then false
    else negb (Nat.ltb 100 (length citation))
  else if str_eqb citation_type bibliography then
    if negb (found no_flags ends_punct citation) then false
    else if negb (str_eqb style MLA)
            && negb (found no_flags year4 citation) then false
    else if (str_eqb style IEEE || str_eqb style VANCOUVER)
            && negb (found no_flags numbered_start citation) then false
    else if (str_eqb style APA || str_eqb style MLA
             || str_eqb style CHICAGO || str_eqb style HARVARD)
            && negb (found no_flags surname_start citation) then false
    else if Nat.ltb (length citation) 20 then false
    else negb (Nat.ltb 1000 (length citation))
  else true.

(** *** [_extract_main_text] and [_extract_bibliography_section] *)

(** [\n[A-Za-zÀ-ÿ\-]+,\s[A-Z]\.(?:\s[A-Z]\.)?\s\(\d{4}\)\.] *)
Definition apa_pattern : regex :=
  seqs [Lit NL; plus name_u; chr ","; sp; upper_az; chr ".";
        opt (seqs [sp; upper_az; chr "."]); sp; chr "("; year4;
        str_re ")."].
(** [\n[A-Za-zÀ-ÿ\-]+,\s[A-Za-zÀ-ÿ\-\s]+\.\s] *)
Definition mla_pattern : regex :=
  seqs [Lit NL; plus name_u; chr ","; sp;
        plus (Cls false [CRange 65 90; CRange 97 122; CRange 192 255;
                         CChar 45; CSpace]);
        chr "."; sp].
(** [\n\[\d+\]\s[A-Z]\.\s[A-Za-zÀ-ÿ\-]+] *)
Definition ieee_pattern : regex :=
  seqs [Lit NL; chr "["; plus dg; chr "]"; sp; upper_az; chr "."; sp;
        plus name_u].
(** [\n\s*[A-Z][A-Za-zÀ-ÿ\s]+\s*\n] *)
Definition next_section_re : regex :=
  seqs [Lit NL; star sp; upper_az;
        plus (Cls false [CRange 65 90; CRange 97 122; CRange 192 255;
                         CSpace]);
        star sp; Lit NL].

(** [while start_pos > 0 and text[start_pos-1] != '\n': start_pos -= 1] *)
Fixpoint line_start (text : pystr) (start_pos : nat) : nat :=
  match start_pos with
  | O => O
  | S p => if N.eqb (nth p text 0%N) NL then S p else line_start text p
  end.

(** [while start_pos > 0: if text[start_pos:start_pos+2] == '\n\n':
    start_pos += 2; break
    start_pos -= 1] *)
Fixpoint blank_line_back (text : pystr) (start_pos : nat) : nat :=
  match start_pos with
  | O => O
  | S p =>
      if str_eqb (firstn 2 (skipn start_pos text)) [NL; NL]
      then start_pos + 2
      else blank_line_back text p
  end.

(** The start of the block of entries around a match of an entry
    pattern. *)
Definition entries_start (text : pystr) (m : rmatch_obj) : nat :=
  blank_line_back text (line_start text (m_start m)).

(** The loop [for header in headers: match = re.search(...); if match:]
    up to its first match: the header and the match, [Some None] when
    the loop ends without a match, [None] when [re.search] raises. *)
Fixpoint first_header (text : pystr) (hs : list pystr)
  : option (option (pystr * rmatch_obj)) :=
  match hs with
  | [] => Some None
  | h :: hs' =>
      r <- compile_pasted (header_line_src h) (header_line_re h) ;;
      match re_search IGNORECASE_MULTILINE r text with
      | Some m => Some (Some (h, m))
      | None => first_header text hs'
      end
  end.

Definition all_headers : list pystr :=
  flat_map (fun kv => snd kv) bibliography_headers.

Definition _extract_main_text (text : pystr) : option pystr :=
  header <- first_header text all_headers ;;
  Some
    match header with
    | Some (_, m) => firstn (m_start m) text
    | None =>
        match re_search no_flags apa_pattern text with
        | Some m => firstn (entries_start text m) text
        | None => text
        end
    end.

Definition _extract_bibliography_section (text style : pystr)
  : option pystr :=
  let headers :=
    match Detector.get_list style bibliography_headers with
    | [] => all_headers
    | hs => hs
    end in
  header <- first_header text headers ;;
  Some
    match header with
    | Some (header, m) =>
        let bibliography := skipn (m_start m) text in
        match re_search no_flags next_section_re
                (skipn (header_len header) bibliography) with
        | Some next_section =>
            firstn (header_len header + m_start next_section) bibliography
        | None => bibliography
        end
    | None =>
        let by_entry (r : regex) :=
          match re_search no_flags r text with
          | Some first_match => skipn (entries_start text first_match) text
          | None => []
          end in
        if str_eqb style APA then by_entry apa_pattern
        else if str_eqb style MLA then by_entry mla_pattern
        else if str_eqb style IEEE then by_entry ieee_pattern
        else []
    end.

(** *** [_split_bibliography_entries] *)

(** [^\[\d+\]|\d+\.] is [numbered_start];
    [^\[\d+\]|\d+\.|\w+\s\w+\s\d{4}\.]: *)
Definition cse_start : regex :=
  Alt (seqs [Bol; chr "["; plus dg; chr "]"])
    (Alt (seqs [plus dg; chr "."])
         (seqs [plus wd; sp; plus wd; sp; year4; chr "."])).

(** The loop shared, word for word, by the three style branches; they
    differ in the pattern that starts a new entry. *)
Fixpoint group_entries (start : regex) (lines : list pystr)
  (entries : list pystr) (current_entry : pystr) : list pystr :=
  match lines with
  | [] =>
      if Detector.nonempty (strip current_entry)
      then entries ++ [strip current_entry] else entries
  | line0 :: lines' =>
      let line := strip line0 in
      if negb (Detector.nonempty line) then
        if Detector.nonempty (strip current_entry)
        then group_entries start lines'
               (entries ++ [strip current_entry]) []
        else group_entries start lines' entries current_entry
      else if Detector.is_some (re_match no_flags start line) then
        group_entries start lines'
          (if Detector.nonempty (strip current_entry)
           then entries ++ [strip current_entry] else entries)
          line
      else
        group_entries start lines' entries
          (current_entry ++ lit " " ++ line)
  end.

(** [re.split(r, text)] for a pattern without groups. *)
Fixpoint split_pieces (text : pystr) (pos : nat) (ms : list rmatch_obj)
  : list pystr :=
  match ms with
  | [] => [skipn pos text]
  | m :: ms' =>
      firstn (m_start m - pos) (skipn pos text)
      :: split_pieces text (m_start m + length (m_text m)) ms'
  end.

Definition re_split (f : flags) (r : regex) (text : pystr) : list pystr :=
  split_pieces text 0 (re_finditer f r text).

(** [\n\s*\n] *)
Definition blank_line_re : regex := seqs [Lit NL; star sp; Lit NL].

(** [for header in ...: bib_section = re.sub(f"(?i)^{header}\\s*\n", '',
    bib_section)] *)
Fixpoint strip_headers (hs : list pystr) (bib_section : pystr)
  : option pystr :=
  match hs with
  | [] => Some bib_section
  | header :: hs' =>
      r <- compile_pasted (header_strip_src header)
             (header_strip_re header) ;;
      strip_headers hs' (re_sub IGNORECASE r [] bib_section)
  end.

Definition _split_bibliography_entries (bib_section style : pystr)
  : option (list pystr) :=
  bib_section <-
    strip_headers (Detector.get_list style bibliography_headers)
      bib_section ;;
  Some
    (if str_eqb style APA || str_eqb style MLA || str_eqb style CHICAGO
        || str_eqb style HARVARD then
       group_entries surname_start (split_char NL bib_section) [] []
     else if str_eqb style IEEE || str_eqb style VANCOUVER then
       group_entries numbered_start (split_char NL bib_section) [] []
     else if str_eqb style CSE then
       group_entries cse_start (split_char NL bib_section) [] []
     else
       filter (fun e => Detector.nonempty e)
         (map strip (re_split no_flags blank_line_re bib_section))).

(** *** [extract_in_text_citations] and [extract_bibliography_citations] *)

(** The patterns tried, each with the flags it is compiled with. *)
Definition patterns_for (self : extractor) (style : pystr)
  : list (flags * regex) :=
  let chosen :=
    match patterns self with
    | Some get_pattern => map (pair MULTILINE) (get_pattern style)
    | None =>
        map (pair no_flags)
          (if str_eqb style CHICAGO
           then Detector.get_list CHICAGO_AUTHOR_DATE in_text_patterns
                ++ Detector.get_list CHICAGO_NOTES in_text_patterns
           else Detector.get_list style in_text_patterns)
    end in
  match chosen with
  | [] => map (pair no_flags) (flat_map (fun kv => snd kv) in_text_patterns)
  | _ => chosen
  end.

(** The list [citations] before duplicates are dropped. *)
Definition collected (self : extractor) (main_text style : pystr)
  : list pystr :=
  flat_map
    (fun fp =>
       filter (fun citation => _is_valid_citation citation style in_text)
         (map (@m_text) (re_finditer (fst fp) (snd fp) main_text)))
    (patterns_for self style).

(** The closing loop: keep a citation unless it is in [seen]. *)
Fixpoint unique_from (seen : list pystr) (citations : list pystr)
  : list pystr :=
  match citations with
  | [] => []
  | citation :: citations' =>
      if existsb (str_eqb citation) seen
      then unique_from seen citations'
      else citation :: unique_from (citation :: seen) citations'
  end.

Definition extract_in_text_citations (self : extractor)
  (text style : pystr) : option (list pystr) :=
  main_text <- _extract_main_text text ;;
  Some (unique_from [] (collected self main_text style)).

Definition extract_bibliography_citations (self : extractor)
  (text style : pystr) : option (list pystr) :=
  bib_section <- _extract_bibliography_section text style ;;
  if negb (Detector.nonempty bib_section) then Some []
  else
    entries <- _split_bibliography_entries bib_section style ;;
    Some
      (filter
         (fun entry =>
            Detector.nonempty entry
            && _is_valid_citation entry style bibliography)
         (map strip entries)).

(** *** [_detect_citation_style] *)

(** [d[k] += n] on a [defaultdict(int)] *)
Definition dd_add (k : pystr) (n : nat) (d : odict nat) : odict nat :=
  set k (match get k d with Some v => v | None => 0 end + n) d.

(** [d.pop(k, 0)] *)
Definition dd_pop (k : pystr) (d : odict nat) : nat * odict nat :=
  (match get k d with Some v => v | None => 0 end, remove k d).

Definition score_headers (text : pystr) (style_counts : odict nat)
  : odict nat :=
  fold_left
    (fun counts kv =>
       fold_left
         (fun c header =>
            if found IGNORECASE_MULTILINE (header_re header) text
            then dd_add (fst kv) 5 c else c)
         (snd kv) counts)
    bibliography_headers style_counts.

Definition score_in_text (text : pystr) (style_counts : odict nat)
  : odict nat :=
  fold_left
    (fun counts kv =>
       fold_left
         (fun c pattern =>
            dd_add (fst kv) (findall_count no_flags pattern text) c)
         (snd kv) counts)
    in_text_patterns style_counts.

Definition merge_chicago (style_counts : odict nat) : odict nat :=
  if mem CHICAGO_AUTHOR_DATE style_counts || mem CHICAGO_NOTES style_counts
  then
    let (author_date, c1) := dd_pop CHICAGO_AUTHOR_DATE style_counts in
    let (notes, c2) := dd_pop CHICAGO_NOTES c1 in
    set CHICAGO (author_date + notes) c2
  else style_counts.

(** [max(d.items(), key=lambda x: x[1])]: the first item with the
    largest count. *)
Fixpoint max_item_from (best : pystr * nat) (d : odict nat)
  : pystr * nat :=
  match d with
  | [] => best
  | kv :: d' =>
      if Nat.ltb (snd best) (snd kv) then max_item_from kv d'
      else max_item_from best d'
  end.

Definition style_scores (text : pystr) : odict nat :=
  merge_chicago (score_in_text text (score_headers text [])).

Definition _detect_citation_style (text : pystr) : pystr :=
  match style_scores text with
  | [] => APA
  | kv :: d' =>
      let max_style := max_item_from kv d' in
      if Nat.ltb 0 (snd max_style) then fst max_style else APA
  end.

(** *** [extract_all_citations] *)

Record citations : Type :=
  { en_texto : list pystr; bibliograficas : list pystr }.

(** [if not style: style = self._detect_citation_style(text)].  [style]
    is [None] or a string; [not style] holds for [None] and for the empty
    string. *)
Definition resolved_style (text : pystr) (style : option pystr) : pystr :=
  match style with
  | Some (c :: s) => c :: s
  | _ => _detect_citation_style text
  end.

Definition extract_all_citations (self : extractor) (text : pystr)
  (style : option pystr) : option citations :=
  let style := resolved_style text style in
  en_texto <- extract_in_text_citations self text style ;;
  bibliograficas <- extract_bibliography_citations self text style ;;
  Some {| en_texto := en_texto; bibliograficas := bibliograficas |}.

End Extractor.

(** ** validator.py: class CitationValidator *)

Module Validator.
Import Frag.
Import Detector (bind).

Notation "x <- e ;; k" := (bind e (fun x => k))
  (at level 61, e at next level, right associativity).

Definition key : Type := (pystr * pystr)%type.

(** *** [_extract_citation_keys]; groups are named by their number. *)

(** [[A-Za-z\-]+(?: et al\.)?] *)
Definition surname_et_al : regex := Seq (plus name_c) et_al.
(** [\(([A-Za-z\-]+(?: et al\.)?),\s(\d{4})] *)
Definition apa_paren : regex :=
  seqs [chr "("; Grp "1" surname_et_al; chr ","; sp; Grp "2" year4].
(** [([A-Za-z\-]+(?: et al\.)?)\s\((\d{4})] *)
Definition apa_narrative : regex :=
  seqs [Grp "1" surname_et_al; sp; chr "("; Grp "2" year4].
(** [\(([A-Za-z\-]+(?:\s[A-Za-z\-]+)?)(?:\s&|\sy)\s([A-Za-z\-]+(?:\s[A-Za-z\-]+)?),\s(\d{4})] *)
Definition apa_two : regex :=
  seqs [chr "("; Grp "1" author;
        Alt (Seq sp (chr "&")) (Seq sp (chr "y")); sp; Grp "2" author;
        chr ","; sp; Grp "3" year4].
(** [\(([A-Za-z\-]+(?: et al\.)?)\s\d+] *)
Definition mla_paren : regex :=
  seqs [chr "("; Grp "1" surname_et_al; sp; plus dg].
(** [\(([A-Za-z\-]+(?:\s[A-Za-z\-]+)?)\sand\s([A-Za-z\-]+(?:\s[A-Za-z\-]+)?)\s\d+] *)
Definition mla_two : regex :=
  seqs [chr "("; Grp "1" author; sp; str_re "and"; sp; Grp "2" author; sp;
        plus dg].
(** [\(([A-Za-z\-]+(?: et al\.)?)\s(\d{4})] *)
Definition chicago_paren : regex :=
  seqs [chr "("; Grp "1" surname_et_al; sp; Grp "2" year4].

Definition APA : pystr := lit "APA".
Definition MLA : pystr := lit "MLA".
Definition CHICAGO : pystr := lit "CHICAGO".
Definition HARVARD : pystr := lit "HARVARD".

(** The body of the loop for one citation: the key it contributes, if
    any. *)
Definition citation_key (citation style : pystr)
  : option (option key) :=
  if str_eqb style APA || str_eqb style HARVARD then
    match re_search no_flags apa_paren citation with
    | Some m =>
        a <- m_group m "1" ;; y <- m_group m "2" ;; Some (Some (a, y))
    | None =>
        match re_search no_flags apa_narrative citation with
        | Some m =>
            a <- m_group m "1" ;; y <- m_group m "2" ;; Some (Some (a, y))
        | None =>
            match re_search no_flags apa_two citation with
            | Some m =>
                a <- m_group m "1" ;; b <- m_group m "2" ;;
                y <- m_group m "3" ;;
                Some (Some (a ++ lit " & " ++ b, y))
            | None => Some None
            end
        end
    end
  else if str_eqb style MLA then
    match re_search no_flags mla_paren citation with
    | Some m => a <- m_group m "1" ;; Some (Some (a, []))
    | None =>
        match re_search no_flags mla_two citation with
        | Some m =>
            a <- m_group m "1" ;; b <- m_group m "2" ;;
            Some (Some (a ++ lit " and " ++ b, []))
        | None => Some None
        end
    end
  else if str_eqb style CHICAGO then
    match re_search no_flags chicago_paren citation with
    | Some m =>
        a <- m_group m "1" ;; y <- m_group m "2" ;; Some (Some (a, y))
    | None => Some None
    end
  else Some None.

Fixpoint _extract_citation_keys (citations : list pystr) (style : pystr)
  : option (list key) :=
  match citations with
  | [] => Some []
  | citation :: citations' =>
      k <- citation_key citation style ;;
      ks <- _extract_citation_keys citations' style ;;
      Some (match k with Some x => x :: ks | None => ks end)
  end.

(** *** [_normalize_author_name] *)



(** *** [_match_author_names] *)




End Validator.

(** ** patterns.py: class CitationPatterns *)

Module Patterns.

(** The tables touched by [add_custom_pattern]: pattern texts and, key
    by key, their compiled forms. *)
Record state : Type :=
  { in_text_patterns : odict (list pystr);
    compiled_in_text : odict (list regex);
    bibliography_patterns : odict (list pystr);
    compiled_bibliography : odict (list regex);
    bibliography_headers : odict (list pystr);
    compiled_headers : odict (list regex) }.

(** How [re.compile(pattern, re.MULTILINE)] ends: a compiled pattern,
    [re.error] for a malformed pattern such as [(], or another exception:
    [OverflowError] for a repetition count that is too large, as in
    [a{4294967296}], and [RecursionError] for a pattern nested too
    deep. *)
Inductive compile_result : Type :=
| Compiled (compiled_pattern : regex)
| ReError
| OtherError.

(** How a call ends: a returned boolean, or an exception that
    [except re.error] does not catch: the [KeyError] of
    [compiled[style]] when the compiled table lacks a style that the
    text table has, or what [re.compile] raised other than [re.error]. *)
Inductive outcome : Type :=
| Returned (b : bool)
| RaisedKeyError
| RaisedByCompile.

(** [d[style].append(x)] *)
Definition append_to {A : Type} (style : pystr) (x : A)
  (d : odict (list A)) : option (odict (list A)) :=
  match get style d with
  | Some l => Some (set style (l ++ [x]) d)
  | None => None
  end.

(** One branch of [add_custom_pattern] on a pair of tables: the tables
    afterwards and whether every lookup succeeded. *)
Definition add_pair (style pattern : pystr) (compiled_pattern : regex)
  (texts : odict (list pystr)) (compiled : odict (list regex))
  : odict (list pystr) * odict (list regex) * bool :=
  let '(texts0, compiled0) :=
    if mem style texts then (texts, compiled)
    else (set style [] texts, set style [] compiled) in
  match append_to style pattern texts0 with
  | None => (texts0, compiled0, false)
  | Some texts1 =>
      match append_to style compiled_pattern compiled0 with
      | None => (texts1, compiled0, false)
      | Some compiled1 => (texts1, compiled1, true)
      end
  end.

Definition outcome_of (ok : bool) : outcome :=
  if ok then Returned true else RaisedKeyError.

Section AddCustomPattern.
(** [re.compile(pattern, re.MULTILINE)] *)
Variable re_compile : pystr -> compile_result.

Definition add_custom_pattern (self : state)
  (style pattern_type pattern : pystr) : state * outcome :=
  match re_compile pattern with
  | ReError => (self, Returned false)
  | OtherError => (self, RaisedByCompile)
  | Compiled compiled_pattern =>
      if str_eqb pattern_type (lit "in_text") then
        let '(t, c, ok) :=
          add_pair style pattern compiled_pattern
            (in_text_patterns self) (compiled_in_text self) in
        ({| in_text_patterns := t; compiled_in_text := c;
            bibliography_patterns := bibliography_patterns self;
            compiled_bibliography := compiled_bibliography self;
            bibliography_headers := bibliography_headers self;
            compiled_headers := compiled_headers self |},
         outcome_of ok)
      else if str_eqb pattern_type (lit "bibliography") then
        let '(t, c, ok) :=
          add_pair style pattern compiled_pattern
            (bibliography_patterns self) (compiled_bibliography self) in
        ({| in_text_patterns := in_text_patterns self;
            compiled_in_text := compiled_in_text self;
            bibliography_patterns := t; compiled_bibliography := c;
            bibliography_headers := bibliography_headers self;
            compiled_headers := compiled_headers self |},
         outcome_of ok)
      else if str_eqb pattern_type (lit "headers") then
        let '(t, c, ok) :=
          add_pair style pattern compiled_pattern
            (bibliography_headers self) (compiled_headers self) in
        ({| in_text_patterns := in_text_patterns self;
            compiled_in_text := compiled_in_text self;
            bibliography_patterns := bibliography_patterns self;
            compiled_bibliography := compiled_bibliography self;
            bibliography_headers := t; compiled_headers := c |},
         outcome_of ok)
      else (self, Returned false)
  end.
End AddCustomPattern.

End Patterns.

(** [d.get(k, 0)] *)
Definition count_of (k : pystr) (d : odict nat) : nat :=
  match get k d with Some v => v | None => 0 end.

(** ** Static analyses of patterns *)

Module Analysis.

(** [blocked r]: every match of [r] consumes a character that is not
    white space (for patterns used without [re.IGNORECASE]). *)
Fixpoint blocked (r : regex) : bool :=
  match r with
  | Lit c => negb (is_space c)
  | Cls neg items =>
      forallb (fun w => negb (xorb neg (cls_mem items w))) ws_chars
  | Seq r1 r2 => blocked r1 || blocked r2
  | Alt r1 r2 => blocked r1 && blocked r2
  | Grp _ r1 => blocked r1
  | Eps | Dot | Bol | Eol | Star _ _ => false
  end.

(** [binds id r]: every match of [r] sets the group [id]. *)
Fixpoint binds (id : string) (r : regex) : bool :=
  match r with
  | Grp id' r1 => String.eqb id id' || binds id r1
  | Seq r1 r2 => binds id r1 || binds id r2
  | Alt r1 r2 => binds id r1 && binds id r2
  | _ => false
  end.

Definition has_group (id : string) (st : mstate) : bool :=
  match group_of id (caps st) with Some _ => true | None => false end.

(** Text made of white space only (the empty text included). *)
Definition blank (s : pystr) : bool := forallb is_space s.

(** A continuation that fails on every cursor followed by blank text
    only. *)
Definition dead (k : mstate -> option mstate) : Prop :=
  forall st, blank (rest st) = true -> k st = None.

(** The continuation succeeded from a cursor that has the group [id]
    whenever the start has it or [b] holds. *)
Definition keeps (id : string) (st : mstate)
  (k : mstate -> option mstate) (b : bool) (res : mstate) : Prop :=
  exists st1, k st1 = Some res
    /\ (has_group id st = true \/ b = true -> has_group id st1 = true).

Definition all_blocked (d : odict (list regex)) : bool :=
  forallb (fun kv => forallb blocked (snd kv)) d.

(** The key under which [identify_primary_style] adds the in-text count
    of a style. *)
Definition sub_chicago (style : pystr) : pystr :=
  if str_eqb style Detector.CHICAGO_AUTHOR_DATE
     || str_eqb style Detector.CHICAGO_NOTES
  then Detector.CHICAGO else style.

(** The styles of the two built-in tables, in their order. *)
Definition in_text_keys : list pystr :=
  [lit "APA"; lit "MLA"; Detector.CHICAGO_AUTHOR_DATE;
   Detector.CHICAGO_NOTES; lit "HARVARD"; lit "IEEE"; lit "VANCOUVER";
   lit "CSE"].

Definition full_keys : list pystr :=
  [lit "APA"; lit "MLA"; Detector.CHICAGO; lit "HARVARD"; lit "IEEE";
   lit "VANCOUVER"; lit "CSE"].

(** A key without a year. *)
Definition no_year (k : pystr * pystr) : Prop := snd k = [].

End Analysis.

(** A dict with known keys, one entry at a time. *)
Ltac shape d K :=
  repeat (let k := fresh "k" in
          let n := fresh "n" in
          destruct d as [|[k n] d];
          [discriminate K|
           cbn [keys map fst] in K; injection K as -> K]);
  destruct d; [clear K|discriminate K].

(** ** Concrete inputs used by the examples *)

Module Scenarios.

(** The detector after loading the custom pattern file
    [{"in_text_patterns": {"No se detectaron citas": ["x"]}}]: the new
    style is appended to the built-in table. *)
Definition sentinel_catalog : Detector.catalog :=
  {| Detector.in_text_patterns :=
       Detector.builtin_in_text ++ [(Detector.NONE, [chr "x"])];
     Detector.full_citation_patterns := Detector.builtin_full_citation |}.

Definition blank_text : pystr := [32; 10; 9; 32]%N.

Definition smith_25 : pystr := lit "(Smith 25)".

End Scenarios.

(** ** Statements about custom patterns *)

Module CustomPatterns.
Import Patterns.

(** [d'] is [d] with [x] appended to the list of [style] (a new list
    when the style was absent) and every other style untouched. *)
Definition appended (A : Type) (style : pystr) (x : A)
  (d d' : odict (list A)) : Prop :=
  get style d' = Some (Detector.get_list style d ++ [x])
  /\ forall s, s <> style -> get s d' = get s d.

(** The pair of tables that a pattern type names. *)
Definition tables_of (pattern_type : pystr) (s : state)
  : option (odict (list pystr) * odict (list regex)) :=
  if str_eqb pattern_type (lit "in_text")
  then Some (in_text_patterns s, compiled_in_text s)
  else if str_eqb pattern_type (lit "bibliography")
  then Some (bibliography_patterns s, compiled_bibliography s)
  else if str_eqb pattern_type (lit "headers")
  then Some (bibliography_headers s, compiled_headers s)
  else None.

(** The state kept by [__init__] and [_compile_patterns]: a compiled
    table has the styles of its pattern table. *)
Definition consistent (s : state) : Prop :=
  forall style,
    mem style (compiled_in_text s) = mem style (in_text_patterns s)
    /\ mem style (compiled_bibliography s)
       = mem style (bibliography_patterns s)
    /\ mem style (compiled_headers s) = mem style (bibliography_headers s).

(** A value of a loader table after a load: unchanged, or a list with
    items added at its end. *)
Definition extends (v v' : Detector.json) : Prop :=
  v' = v
  \/ exists xs ys, v = Detector.JArr xs /\ v' = Detector.JArr (xs ++ ys).

(** A file whose in-text section is fine and whose full-citation
    section is a number:
    [{"in_text_patterns": {"APA": ["x"]}, "full_citation_patterns": 5}] *)
Definition half_malformed : Detector.json :=
  Detector.JObj
    [ (lit "in_text_patterns",
       Detector.JObj [(lit "APA", Detector.JArr [Detector.JStr (lit "x")])]);
      (lit "full_citation_patterns", Detector.JNum 5) ].

Definition small_tables : Detector.tables :=
  {| Detector.t_in_text :=
       [(lit "APA", Detector.JArr [Detector.JStr (lit "a")])];
     Detector.t_full_citation :=
       [(lit "APA", Detector.JArr [Detector.JStr (lit "b")])] |}.

Definition empty_state : state :=
  {| in_text_patterns := []; compiled_in_text := [];
     bibliography_patterns := []; compiled_bibliography := [];
     bibliography_headers := []; compiled_headers := [] |}.

(** A stand-in for [re.compile] in examples: it refuses the pattern
    [(] with [re.error] and [a{4294967296}] with [OverflowError], and
    compiles any other text to the empty pattern. *)
Definition toy_compile (pattern : pystr) : compile_result :=
  if str_eqb pattern (lit "(") then ReError
  else if str_eqb pattern (lit "a{4294967296}") then OtherError
  else Compiled Eps.

End CustomPatterns.

(** ** Statements about extraction *)

Module Extraction.

(** "Deduplicate while preserving first-seen order": each string stays
    where it first occurs and its later occurrences are dropped. *)
Fixpoint first_seen (l : list pystr) : list pystr :=
  match l with
  | [] => []
  | x :: l' => x :: filter (fun y => negb (str_eqb y x)) (first_seen l')
  end.

(** Strictly ascending in the order of Python strings. *)
Fixpoint ascending (l : list pystr) : bool :=
  match l with
  | x :: (y :: _) as l' => str_ltb x y && ascending l'
  | _ => true
  end.

(** Ascending with repetitions allowed. *)
Fixpoint weakly_ascending (l : list pystr) : bool :=
  match l with
  | x :: (y :: _) as l' => str_leb x y && weakly_ascending l'
  | _ => true
  end.

(** Not among the strings seen so far. *)
Definition fresh (seen : list pystr) (y : pystr) : bool :=
  negb (existsb (str_eqb y) seen).








(** Two APA citations, the later one first in the alphabet. *)
Definition zed_abe : pystr := lit "(Zed, 2020) (Abe, 2019)".

Definition no_citations : pystr := lit "plain words only".

End Extraction.

(** ** Further functions of the sources *)

(** [s.replace(old, new)] for a non-empty [old]: occurrences are
    replaced from left to right and do not overlap; [skip] counts the
    characters of an occurrence still to pass over. *)
Fixpoint replace_from (old new : pystr) (skip : nat) (s : pystr) : pystr :=
  match s with
  | [] => []
  | c :: s' =>
      match skip with
      | S n => replace_from old new n s'
      | O =>
          if startswith old s
          then new ++ replace_from old new (length old - 1) s'
          else c :: replace_from old new 0 s'
      end
  end.

Definition replace_str (old new s : pystr) : pystr := replace_from old new 0 s.

(** [s.split(',')[0]] *)
Definition before_comma (s : pystr) : pystr := hd [] (split_char 44 s).

(** [author.lower().replace('et al.', '').strip()], the normal form of a
    cited author in [detector.py] and [extractor.py]. *)
Definition cited_author_norm (author : pystr) : pystr :=
  strip (replace_str (lit "et al.") [] (lower author)).

(** *** detector.py: [_find_citations_without_references] and
    [_find_references_without_citations] *)

Module CrossCheck.
Import Detector.

(** An entry of [references]: a dict of strings. *)
Definition reference : Type := odict pystr.

(** [ref.get(k, '')] *)
Definition field (k : string) (ref : reference) : pystr :=
  match get (lit k) ref with Some v => v | None => [] end.

(** [ref_author = ref.get('author', '')] followed by
    [if ref_author: ref_author = ref_author.split(',')[0].strip()] *)
Definition ref_surname (ref : reference) : pystr :=
  let ref_author := field "author" ref in
  if nonempty ref_author then strip (before_comma ref_author)
  else ref_author.

(** [author_norm in ref_author_norm or ref_author_norm in author_norm] *)
Definition authors_overlap (author ref_author : pystr) : bool :=
  let author_norm := cited_author_norm author in
  let ref_author_norm := strip (lower ref_author) in
  contains author_norm ref_author_norm
  || contains ref_author_norm author_norm.

(** The body of the inner loop of both functions: whether this pair of
    a citation and a reference sets the flag and leaves the loop. *)
Definition pair_matches (style author year ref_author ref_year : pystr)
  : bool :=
  if existsb (str_eqb style) [APA; HARVARD; CHICAGO] then
    if nonempty author && nonempty ref_author
       && nonempty year && nonempty ref_year
    then
      if authors_overlap author ref_author then str_eqb year ref_year
      else false
    else false
  else if str_eqb style MLA then
    if nonempty author && nonempty ref_author
    then authors_overlap author ref_author
    else false
  else false.

(** [f"{author} ({year})" if year else author] *)
Definition citation_text (author year : pystr) : pystr :=
  if nonempty year then author ++ lit " (" ++ year ++ lit ")" else author.

Fixpoint _find_citations_without_references (citations : list key)
  (references : list reference) (style : pystr) : list pystr :=
  match citations with
  | [] => []
  | (author, year) :: citations' =>
      let found :=
        existsb
          (fun ref =>
             pair_matches style author year (ref_surname ref)
               (field "year" ref))
          references in
      let missing :=
        _find_citations_without_references citations' references style in
      if negb found && nonempty (strip author)
      then citation_text author year :: missing
      else missing
  end.

Fixpoint _find_references_without_citations (citations : list key)
  (references : list reference) (style : pystr) : list reference :=
  match references with
  | [] => []
  | ref :: references' =>
      let ref_author := ref_surname ref in
      let ref_year := field "year" ref in
      let cited :=
        existsb
          (fun c => pair_matches style (fst c) (snd c) ref_author ref_year)
          citations in
      let unused :=
        _find_references_without_citations citations references' style in
      if negb cited && nonempty (strip ref_author)
      then ref :: unused
      else unused
  end.

(** The styles that the two functions compare anything for. *)
Definition compared (style : pystr) : bool :=
  existsb (str_eqb style) [APA; HARVARD; CHICAGO; MLA].

(** A citation that can be reported: its author is not blank. *)
Definition reportable (c : key) : bool := nonempty (strip (fst c)).

(** A reference that can be reported: its surname is not blank. *)
Definition listed (ref : reference) : bool :=
  nonempty (strip (ref_surname ref)).

Definition smith_2020 : key := (lit "Smith", lit "2020").
Definition smith_ref : reference :=
  [(lit "author", lit "Smith, J."); (lit "year", lit "2020")].
End CrossCheck.

(** *** validator.py: [_find_matching_reference] and
    [_find_matching_citation] *)

Module Consistency.
Import Validator.
Import Detector (bind, nonempty).





End Consistency.

(** *** extractor.py: [_is_matching_citation] and
    [identify_style_markers] *)

Module Matching.
Import Extractor.
Import Detector (bind, nonempty).

Notation "x <- e ;; k" := (bind e (fun x => k))
  (at level 61, e at next level, right associativity).

(** The surname of a bibliography author: the text before the first
    comma, else the first word, else the empty string. *)
Definition bib_surname_of (bib_author_simple : pystr) : option pystr :=
  if has_char 44 bib_author_simple
  then Some (strip (before_comma bib_author_simple))
  else if nonempty bib_author_simple
  then option_map strip (first_token bib_author_simple)
  else Some [].

Definition _is_matching_citation
  (author year bib_author bib_year style : pystr) : option bool :=
  if negb (nonempty author) && negb (nonempty year) then Some false
  else
    let author_simple := cited_author_norm author in
    let bib_author_simple := strip (lower bib_author) in
    bib_surname <- bib_surname_of bib_author_simple ;;
    if str_eqb style MLA then
      Some (contains author_simple bib_author_simple
            || contains bib_surname author_simple)
    else
      let author_match :=
        contains author_simple bib_author_simple
        || contains bib_surname author_simple in
      let year_match := str_eqb year bib_year in
      Some (author_match && year_match).
End Matching.

Module Markers.
Import Extractor.
Import Detector (bind, get_list).

Notation "x <- e ;; k" := (bind e (fun x => k))
  (at level 61, e at next level, right associativity).

(** [\([A-Za-zÀ-ÿ\-]+ & [A-Za-zÀ-ÿ\-]+,] *)
Definition apa_ampersand : regex :=
  seqs [chr "("; plus name_u; str_re " & "; plus name_u; chr ","].
(** [\d{4}, p\. \d+] *)
Definition apa_page_mark : regex :=
  seqs [year4; str_re ", p. "; plus dg].
(** [\([A-Za-zÀ-ÿ\-]+ and [A-Za-zÀ-ÿ\-]+ \d+] *)
Definition mla_and : regex :=
  seqs [chr "("; plus name_u; str_re " and "; plus name_u; chr " ";
        plus dg].
(** [\([A-Za-zÀ-ÿ\-]+ \d+\)] *)
Definition mla_page : regex :=
  seqs [chr "("; plus name_u; chr " "; plus dg; chr ")"].
(** [^\d+\.\s] *)
Definition footnote : regex := seqs [Bol; plus dg; chr "."; sp].
(** [Ibid\.|Op\. cit\.|Loc\. cit\.] *)
Definition latin : regex :=
  Alt (str_re "Ibid.") (Alt (str_re "Op. cit.") (str_re "Loc. cit.")).
(** [\d{4}: \d+] *)
Definition harvard_colon : regex := seqs [year4; str_re ": "; plus dg].
(** [\[\d+\]] *)
Definition bracket : regex := seqs [chr "["; plus dg; chr "]"].
(** [\(\d+\)] *)
Definition paren_number : regex := seqs [chr "("; plus dg; chr ")"].
(** [[A-Za-zÀ-ÿ\-]+ [A-Z]{1,2}\. \d{4}\.] *)
Definition cse_name_year : regex :=
  seqs [plus name_u; chr " "; rep12 upper_az; str_re ". "; year4;
        chr "."].

Definition headers : pystr := lit "headers".
Definition specific : pystr := lit "specific".

(** The four counters of a style. *)
Definition counters : Type := odict nat.

(** [{'in_text': 0, 'bibliography': 0, 'headers': 0, 'specific': 0}] *)
Definition zero_counters : counters :=
  [(in_text, 0); (bibliography, 0); (headers, 0); (specific, 0)].

Definition styles : list pystr :=
  [APA; MLA; CHICAGO; HARVARD; IEEE; VANCOUVER; CSE].

(** The dict [markers] as first built. *)
Definition initial_markers : odict counters :=
  map (fun style => (style, zero_counters)) styles.

(** [markers[style][counter] += n] *)
Definition bump (style counter : pystr) (n : nat)
  (markers : odict counters) : option (odict counters) :=
  inner <- get style markers ;;
  v <- get counter inner ;;
  Some (set style (set counter (v + n) inner) markers).

(** [for header in headers: if re.search(...): markers[style]['headers'] += 1] *)
Fixpoint count_headers (text style : pystr) (hs : list pystr)
  (markers : odict counters) : option (odict counters) :=
  match hs with
  | [] => Some markers
  | header :: hs' =>
      m <- (if found IGNORECASE_MULTILINE (header_re header) text
            then bump style headers 1 markers
            else Some markers) ;;
      count_headers text style hs' m
  end.

(** [for style, headers in self.bibliography_headers.items(): ...] *)
Fixpoint header_markers (text : pystr) (items : odict (list pystr))
  (markers : odict counters) : option (odict counters) :=
  match items with
  | [] => Some markers
  | (style, hs) :: items' =>
      m <- count_headers text style hs markers ;;
      header_markers text items' m
  end.

(** [if cond: markers[style]['specific'] += n] *)
Definition mark (cond : bool) (style : pystr) (n : nat)
  (markers : odict counters) : option (odict counters) :=
  if cond then bump style specific n markers else Some markers.

Definition identify_style_markers (text : pystr)
  : option (odict counters) :=
  m <- header_markers text bibliography_headers initial_markers ;;
  m <- mark (found no_flags apa_ampersand text) APA 1 m ;;
  m <- mark (found no_flags apa_page_mark text) APA 1 m ;;
  m <- mark (found no_flags mla_and text) MLA 1 m ;;
  m <- mark (found no_flags mla_page text) MLA 1 m ;;
  let footnote_count := findall_count MULTILINE footnote text in
  m <- mark (Nat.ltb 0 footnote_count) CHICAGO
         (Nat.min footnote_count 5) m ;;
  let latin_count := findall_count no_flags latin text in
  m <- mark (Nat.ltb 0 latin_count) CHICAGO (Nat.min latin_count 3) m ;;
  m <- mark (found no_flags harvard_colon text) HARVARD 1 m ;;
  let bracket_count := findall_count no_flags bracket text in
  m <- mark (Nat.ltb 0 bracket_count) IEEE (Nat.min bracket_count 5) m ;;
  m <- mark (found no_flags paren_number text) VANCOUVER 1 m ;;
  m <- mark (found no_flags cse_name_year text) CSE 1 m ;;
  Some m.

(** The four counters of a style as a dict. *)
Definition counters_of (h s : nat) : counters :=
  [(in_text, 0); (bibliography, 0); (headers, h); (specific, s)].

(** The dict [markers] with the given header and specific counts. *)
Definition markers_of (h s : pystr -> nat) : odict counters :=
  map (fun style => (style, counters_of (h style) (s style))) styles.

(** A count with [n] added for one style. *)
Definition plus_at (style : pystr) (n : nat) (h : pystr -> nat)
  : pystr -> nat :=
  fun x => if str_eqb x style then h x + n else h x.

(** The largest value that ['specific'] can reach for a style. *)
Definition specific_bound (style : pystr) : nat :=
  if str_eqb style APA then 2
  else if str_eqb style MLA then 2
  else if str_eqb style CHICAGO then 8
  else if str_eqb style IEEE then 5
  else 1.
End Markers.

(** *** patterns.py: [get_pattern] *)

Module Lookup.
Import Patterns.
Import Detector (get_list).

(** What [get_pattern] returns: one compiled pattern or a list. *)
Inductive pattern_result : Type :=
| One (p : regex)
| Many (ps : list regex).

(** [index] is [None] or an integer. *)
Definition get_pattern (self : state) (style pattern_type : pystr)
  (index : option Z) : pattern_result :=
  let pick (patterns : list regex) :=
    match index with
    | Some i =>
        if (0 <=? i)%Z && (i <? Z.of_nat (length patterns))%Z
        then match nth_error patterns (Z.to_nat i) with
             | Some p => One p
             | None => Many patterns
             end
        else Many patterns
    | None => Many patterns
    end in
  if str_eqb pattern_type (lit "in_text")
  then pick (get_list style (compiled_in_text self))
  else if str_eqb pattern_type (lit "bibliography")
  then pick (get_list style (compiled_bibliography self))
  else if str_eqb pattern_type (lit "headers")
  then pick (get_list style (compiled_headers self))
  else Many [].
End Lookup.

(** ** Notions used by the further properties *)

Module Notions.

(** [s] is a contiguous part of [text]. *)
Definition occurs_in (s text : pystr) : Prop :=
  exists before after, text = before ++ s ++ after.

(** [s] is what is left of [text] from some position on. *)
Definition suffix_of (s text : pystr) : Prop :=
  exists before, text = before ++ s.

(** Four decimal digits. *)
Definition four_digits (s : pystr) : Prop :=
  length s = 4 /\ forallb is_digit s = true.

(** A key whose year is four decimal digits. *)
Definition year_ok (k : pystr * pystr) : Prop := four_digits (snd k).

(** The text holds four decimal digits in a row. *)
Definition has_year (s : pystr) : Prop :=
  exists before y after, s = before ++ y ++ after /\ four_digits y.

(** The text holds a decimal digit. *)
Definition has_digit (s : pystr) : Prop :=
  exists before d after, s = before ++ d :: after /\ is_digit d = true.

(** A non-empty string without white space at either end. *)
Definition trimmed (s : pystr) : Prop := s <> [] /\ strip s = s.

(** The cursor [st1] is the cursor [st] moved forward over [w]. *)
Definition moved_over (w : pystr) (st st1 : mstate) : Prop :=
  rest st = w ++ rest st1 /\ pre st1 = rev w ++ pre st.

Definition moved (st st1 : mstate) : Prop :=
  exists w, moved_over w st st1.

(** The styles that [_detect_citation_style] can return. *)
Definition reported_styles : list pystr :=
  [Extractor.APA; Extractor.MLA; Extractor.CHICAGO; Extractor.HARVARD;
   Extractor.IEEE; Extractor.VANCOUVER; Extractor.CSE].

(** The styles whose in-text keys carry a year. *)
Definition dated (style : pystr) : bool :=
  str_eqb style Detector.APA || str_eqb style Detector.HARVARD
  || str_eqb style Detector.CHICAGO.

(** The sum of the match counts of a list of patterns. *)
Definition matches_of (f : flags) (patterns : list regex) (text : pystr)
  : nat :=
  list_sum (map (fun p => findall_count f p text) patterns).

(** No pattern of either table of the detector matches in the
    text. *)
Definition no_match (self : Detector.catalog) (text : pystr) : Prop :=
  forall style ps p,
    In (style, ps)
      (Detector.in_text_patterns self
       ++ Detector.full_citation_patterns self) ->
    In p ps -> findall_count MULTILINE p text = 0.

(** A detector with two small tables. *)
Definition two_styles : Detector.catalog :=
  {| Detector.in_text_patterns :=
       [(lit "A", [chr "a"]); (lit "B", [chr "b"; str_re "bb"])];
     Detector.full_citation_patterns := [(lit "A", [str_re "aa"])] |}.

End Notions.

(** * Properties *)

(** ** Strings *)

Lemma str_eqb_eq (a b : pystr) : str_eqb a b = true <-> a = b.
Proof.
  revert b; induction a as [|x a IH]; intros [|y b]; simpl; split;
    try congruence; try reflexivity.
  - intros H. apply andb_true_iff in H as [Hx Hab].
    apply N.eqb_eq in Hx. apply IH in Hab. congruence.
  - intros H. injection H as -> ->. rewrite N.eqb_refl. simpl.
    now apply IH.
Qed.

Lemma str_eqb_refl (a : pystr) : str_eqb a a = true.
Proof. now apply str_eqb_eq. Qed.

Lemma str_eqb_neq (a b : pystr) : str_eqb a b = false <-> a <> b.
Proof.
  split.
  - intros H E. apply str_eqb_eq in E. congruence.
  - intros H. destruct (str_eqb a b) eqn:E; [|reflexivity].
    apply str_eqb_eq in E. contradiction.
Qed.

Lemma str_eqb_sym (a b : pystr) : str_eqb a b = str_eqb b a.
Proof.
  destruct (str_eqb a b) eqn:E.
  - apply str_eqb_eq in E. subst. now rewrite str_eqb_refl.
  - symmetry. apply str_eqb_neq. apply str_eqb_neq in E. congruence.
Qed.

(** ** Dictionaries *)

Section OdictFacts.
Variable V : Type.
Implicit Types (d : odict V) (k : pystr).

Lemma mem_keys k d : mem k d = existsb (str_eqb k) (keys d).
Proof.
  unfold mem. induction d as [|[k' v] d IH]; simpl; [reflexivity|].
  destruct (str_eqb k k'); simpl; [reflexivity|exact IH].
Qed.

Lemma mem_In k d : mem k d = true <-> In k (keys d).
Proof.
  rewrite mem_keys, existsb_exists. split.
  - intros [x [Hx E]]. apply str_eqb_eq in E. now subst.
  - intros H. exists k. split; [assumption|apply str_eqb_refl].
Qed.

Lemma get_set_same k v d : get k (set k v d) = Some v.
Proof.
  induction d as [|[k' v'] d IH]; simpl.
  - now rewrite str_eqb_refl.
  - destruct (str_eqb k k') eqn:E; simpl; rewrite E; [reflexivity|exact IH].
Qed.

Lemma get_set_other k k' v d :
  str_eqb k k' = false -> get k' (set k v d) = get k' d.
Proof.
  intros Hne. induction d as [|[k0 v0] d IH]; simpl.
  - rewrite str_eqb_sym, Hne. reflexivity.
  - destruct (str_eqb k k0) eqn:E; simpl.
    + apply str_eqb_eq in E. subst k0.
      rewrite str_eqb_sym, Hne. reflexivity.
    + destruct (str_eqb k' k0); [reflexivity|exact IH].
Qed.

Lemma set_present k v d :
  mem k d = true -> keys (set k v d) = keys d.
Proof.
  unfold mem. induction d as [|[k' v'] d IH]; simpl; [discriminate|].
  destruct (str_eqb k k') eqn:E; simpl; [reflexivity|].
  intros H. now rewrite IH.
Qed.

Lemma set_absent k v d :
  mem k d = false -> set k v d = d ++ [(k, v)].
Proof.
  unfold mem. induction d as [|[k' v'] d IH]; simpl; [reflexivity|].
  destruct (str_eqb k k') eqn:E; simpl; [discriminate|].
  intros H. now rewrite IH.
Qed.

Lemma mem_set k k' v d :
  mem k' (set k v d) = str_eqb k' k || mem k' d.
Proof.
  unfold mem. destruct (str_eqb k' k) eqn:E.
  - apply str_eqb_eq in E. subst. now rewrite get_set_same.
  - rewrite get_set_other by (now rewrite str_eqb_sym). reflexivity.
Qed.

Lemma wf_set k v d : wf d = true -> wf (set k v d) = true.
Proof.
  intros H. destruct (mem k d) eqn:M.
  - unfold wf. now rewrite set_present.
  - rewrite set_absent by assumption. unfold wf, keys in *.
    rewrite map_app. simpl. clear v.
    rewrite mem_keys in M. unfold keys in M.
    induction (map fst d) as [|k0 ks IH]; simpl in *; [reflexivity|].
    apply andb_true_iff in H as [H1 H2].
    apply orb_false_iff in M as [M1 M2].
    rewrite IH by assumption. rewrite andb_true_r.
    rewrite existsb_app. simpl. rewrite orb_false_r.
    apply negb_true_iff in H1. rewrite H1. simpl.
    rewrite str_eqb_sym. now rewrite M1.
Qed.

Lemma mem_app k d1 d2 : mem k (d1 ++ d2) = mem k d1 || mem k d2.
Proof.
  rewrite !mem_keys. unfold keys. now rewrite map_app, existsb_app.
Qed.

Lemma get_In k v d : get k d = Some v -> In (k, v) d.
Proof.
  induction d as [|[k' v'] d IH]; simpl; [discriminate|].
  destruct (str_eqb k k') eqn:E.
  - apply str_eqb_eq in E. intros [= ->]. subst. now left.
  - intros H. right. now apply IH.
Qed.

Lemma In_get k v d : wf d = true -> In (k, v) d -> get k d = Some v.
Proof.
  unfold wf. induction d as [|[k' v'] d IH]; simpl; [contradiction|].
  intros H [E|Hin].
  - injection E as -> ->. now rewrite str_eqb_refl.
  - apply andb_true_iff in H as [H1 H2].
    destruct (str_eqb k k') eqn:E.
    + apply str_eqb_eq in E. subst k'.
      apply negb_true_iff in H1.
      assert (M : existsb (str_eqb k) (keys d) = true).
      { apply existsb_exists. exists k. split; [|apply str_eqb_refl].
        apply (in_map fst) in Hin. exact Hin. }
      unfold keys in *. congruence.
    + now apply IH.
Qed.
End OdictFacts.

Lemma sum_set k v (d : odict nat) :
  list_sum (values (set k v d)) + count_of k d = list_sum (values d) + v.
Proof.
  unfold count_of. induction d as [|[k' v'] d IH]; simpl; [lia|].
  destruct (str_eqb k k') eqn:E; simpl; lia.
Qed.

Lemma sum_over_keys (d : odict nat) :
  wf d = true ->
  list_sum (map (fun k => count_of k d) (keys d)) = list_sum (values d).
Proof.
  unfold wf, count_of. induction d as [|[k v] d IH]; simpl; [reflexivity|].
  intros H. apply andb_true_iff in H as [H1 H2].
  rewrite str_eqb_refl. f_equal. rewrite <- IH by assumption.
  f_equal. apply map_ext_in. intros k' Hin.
  destruct (str_eqb k' k) eqn:E; [|reflexivity].
  apply str_eqb_eq in E. subst k'. apply negb_true_iff in H1.
  assert (existsb (str_eqb k) (keys d) = true).
  { apply existsb_exists. exists k. split; [assumption|apply str_eqb_refl]. }
  congruence.
Qed.

(** ** The style scorer of [detector.py] *)

Module DetectorFacts.
Import Detector Analysis.

Lemma fold_set_fresh (ks : list pystr) (acc : odict nat) :
  distinct ks = true ->
  (forall k, In k ks -> mem k acc = false) ->
  fold_left (fun a style => set style 0 a) ks acc
  = acc ++ map (fun k => (k, 0)) ks.
Proof.
  revert acc. induction ks as [|k ks IH]; intros acc Hd Hf; simpl.
  - now rewrite app_nil_r.
  - simpl in Hd. apply andb_true_iff in Hd as [Hk Hd].
    apply negb_true_iff in Hk.
    rewrite set_absent by (apply Hf; now left).
    rewrite IH; [now rewrite <- app_assoc|assumption|].
    intros k' Hin. rewrite mem_app, (Hf k') by now right.
    unfold mem. simpl. destruct (str_eqb k' k) eqn:E; [|reflexivity].
    apply str_eqb_eq in E. subst k'.
    assert (existsb (str_eqb k) ks = true); [|congruence].
    apply existsb_exists. exists k. split; [assumption|apply str_eqb_refl].
Qed.

Lemma zero_counts_keys (d : odict (list regex)) :
  wf d = true -> keys (zero_counts d) = keys d.
Proof.
  intros H. unfold zero_counts. rewrite fold_set_fresh; try assumption.
  - simpl. unfold keys. rewrite map_map. simpl. now rewrite map_id.
  - reflexivity.
Qed.

Lemma incr_ok k n (d : odict nat) :
  mem k d = true ->
  exists d', incr k n d = Some d' /\ keys d' = keys d
             /\ list_sum (values d') = list_sum (values d) + n.
Proof.
  intros M. unfold incr, bind. pose proof (sum_set k (count_of k d + n) d).
  unfold count_of in *. unfold mem in M.
  destruct (get k d) as [v|] eqn:G; [|discriminate].
  eexists. split; [reflexivity|]. split.
  - apply set_present. unfold mem. now rewrite G.
  - lia.
Qed.

Lemma count_patterns_ok text style ps (counts : odict nat) :
  mem style counts = true ->
  exists c, count_patterns text style ps counts = Some c
            /\ keys c = keys counts.
Proof.
  revert counts. induction ps as [|p ps IH]; intros counts M; simpl.
  - now exists counts.
  - destruct (incr_ok style (findall_count MULTILINE p text) counts M)
      as [d' [E [K _]]].
    rewrite E. simpl.
    destruct (IH d') as [c [Ec Kc]].
    + rewrite mem_keys, K, <- mem_keys. exact M.
    + exists c. split; [exact Ec|congruence].
Qed.

Lemma count_styles_ok text (items : odict (list regex))
  (counts : odict nat) :
  (forall k, In k (keys items) -> mem k counts = true) ->
  exists c, count_styles text items counts = Some c
            /\ keys c = keys counts.
Proof.
  revert counts. induction items as [|[style ps] items IH];
    intros counts H; simpl.
  - now exists counts.
  - destruct (count_patterns_ok text style ps counts) as [c [E K]].
    { apply H. now left. }
    rewrite E. simpl. destruct (IH c) as [c' [E' K']].
    + intros k Hin. rewrite mem_keys, K, <- mem_keys. apply H. now right.
    + exists c'. split; [exact E'|congruence].
Qed.

Lemma count_table_ok text (d : odict (list regex)) :
  wf d = true ->
  exists c, count_styles text d (zero_counts d) = Some c
            /\ keys c = keys d.
Proof.
  intros W. destruct (count_styles_ok text d (zero_counts d)) as [c [E K]].
  - intros k Hin. apply mem_In. now rewrite zero_counts_keys.
  - exists c. split; [exact E|]. now rewrite K, zero_counts_keys.
Qed.

(** [detect_citation_styles] returns, with one count per style of each
    table. *)
Lemma detect_ok (self : catalog) text :
  wf (in_text_patterns self) = true ->
  wf (full_citation_patterns self) = true ->
  exists res, detect_citation_styles self text = Some res
    /\ keys (in_text res) = keys (in_text_patterns self)
    /\ keys (full_citation res) = keys (full_citation_patterns self).
Proof.
  intros W1 W2. unfold detect_citation_styles.
  destruct (count_table_ok text _ W1) as [it [E1 K1]].
  destruct (count_table_ok text _ W2) as [fc [E2 K2]].
  rewrite E1, E2. simpl. eexists. split; [reflexivity|]. now split.
Qed.

Lemma add_to_ok k n (d : odict nat) :
  exists d', add_to k n d = Some d'
    /\ list_sum (values d') = list_sum (values d) + n
    /\ (wf d = true -> wf d' = true)
    /\ (forall x, In x (keys d') -> x = k \/ In x (keys d))
    /\ get k d' = Some (count_of k d + n)
    /\ (forall x, str_eqb k x = false -> get x d' = get x d).
Proof.
  unfold add_to, incr, bind, count_of.
  destruct (mem k d) eqn:M.
  - unfold mem in M. destruct (get k d) as [v|] eqn:G; [|discriminate].
    eexists. split; [reflexivity|].
    pose proof (sum_set k (v + n) d) as S. unfold count_of in S.
    rewrite G in S.
    repeat split.
    + lia.
    + apply wf_set.
    + intros x Hin. right. rewrite set_present in Hin; [assumption|].
      unfold mem. now rewrite G.
    + apply get_set_same.
    + intros x Hx. now apply get_set_other.
  - rewrite get_set_same. eexists. split; [reflexivity|].
    assert (G : get k d = None).
    { unfold mem in M. destruct (get k d); [discriminate|reflexivity]. }
    pose proof (sum_set k 0 d) as S0.
    pose proof (sum_set k (0 + n) (set k 0 d)) as S1.
    unfold count_of in S0, S1. rewrite G in S0.
    rewrite get_set_same in S1. rewrite G.
    repeat split.
    + lia.
    + intros W. now apply wf_set, wf_set.
    + intros x Hin. rewrite set_present in Hin
        by (rewrite mem_set, str_eqb_refl; reflexivity).
      rewrite set_absent in Hin by assumption.
      unfold keys in Hin. rewrite map_app in Hin.
      apply in_app_or in Hin as [Hin|[<-|[]]]; [now right|now left].
    + apply get_set_same.
    + intros x Hx. now rewrite !get_set_other.
Qed.

Lemma combine_in_text_ok styles (counts comb : odict nat) :
  (forall s, In s styles -> mem s counts = true) ->
  exists c, combine_in_text styles counts comb = Some c
    /\ list_sum (values c)
       = list_sum (values comb)
         + list_sum (map (fun s => count_of s counts) styles)
    /\ (wf comb = true -> wf c = true)
    /\ (forall x, In x (keys c) ->
          In x (map sub_chicago styles) \/ In x (keys comb)).
Proof.
  revert comb. induction styles as [|s styles IH]; intros comb H; simpl.
  - exists comb. repeat split; auto; lia.
  - assert (M : mem s counts = true) by (apply H; now left).
    unfold mem in M. unfold count_of at 1.
    destruct (get s counts) as [n|] eqn:G; [|discriminate]. simpl.
    destruct (add_to_ok (sub_chicago s) n comb)
      as [d' [E [S [W [K _]]]]].
    unfold sub_chicago in E at 1.
    replace (if str_eqb s CHICAGO_AUTHOR_DATE || str_eqb s CHICAGO_NOTES
             then add_to CHICAGO n comb else add_to s n comb)
      with (Some d')
      by (rewrite <- E;
          now destruct (str_eqb s CHICAGO_AUTHOR_DATE
                        || str_eqb s CHICAGO_NOTES)).
    simpl. destruct (IH d') as [c [Ec [Sc [Wc Kc]]]].
    { intros s' Hin. apply H. now right. }
    exists c. repeat split.
    + exact Ec.
    + lia.
    + auto.
    + intros x Hin. apply Kc in Hin as [Hin|Hin]; [left; now right|].
      apply K in Hin as [->|Hin]; [left; now left|now right].
Qed.

Lemma combine_full_ok styles (counts comb : odict nat) :
  (forall s, In s styles -> mem s counts = true) ->
  exists c, combine_full styles counts comb = Some c
    /\ list_sum (values c)
       = list_sum (values comb)
         + list_sum (map (fun s => count_of s counts) styles)
    /\ (wf comb = true -> wf c = true)
    /\ (forall x, In x (keys c) -> In x styles \/ In x (keys comb)).
Proof.
  revert comb. induction styles as [|s styles IH]; intros comb H; simpl.
  - exists comb. repeat split; auto; lia.
  - assert (M : mem s counts = true) by (apply H; now left).
    unfold mem in M. unfold count_of at 1.
    destruct (get s counts) as [n|] eqn:G; [|discriminate]. simpl.
    destruct (add_to_ok s n comb) as [d' [E [S [W [K _]]]]].
    rewrite E. simpl. destruct (IH d') as [c [Ec [Sc [Wc Kc]]]].
    { intros s' Hin. apply H. now right. }
    exists c. repeat split.
    + exact Ec.
    + lia.
    + auto.
    + intros x Hin. apply Kc in Hin as [Hin|Hin]; [left; now right|].
      apply K in Hin as [->|Hin]; [left; now left|now right].
Qed.

(** The combined scores add up to the number of matches counted. *)
Lemma combined_ok (self : catalog) (res : results) :
  wf (in_text res) = true -> wf (full_citation res) = true ->
  keys (in_text res) = keys (in_text_patterns self) ->
  keys (full_citation res) = keys (full_citation_patterns self) ->
  exists comb, combined_results self res = Some comb
    /\ list_sum (values comb)
       = list_sum (values (in_text res))
         + list_sum (values (full_citation res))
    /\ wf comb = true
    /\ (forall x, In x (keys comb) ->
          In x (map sub_chicago (keys (in_text_patterns self)))
          \/ In x (keys (full_citation_patterns self))).
Proof.
  intros W1 W2 K1 K2. unfold combined_results.
  destruct (combine_in_text_ok (keys (in_text_patterns self))
              (in_text res) []) as [c1 [E1 [S1 [Wc1 Kc1]]]].
  { intros s Hin. apply mem_In. now rewrite K1. }
  rewrite E1. simpl.
  destruct (combine_full_ok (keys (full_citation_patterns self))
              (full_citation res) c1) as [c2 [E2 [S2 [Wc2 Kc2]]]].
  { intros s Hin. apply mem_In. now rewrite K2. }
  exists c2. repeat split.
  - exact E2.
  - rewrite S2, S1. rewrite <- K1, <- K2.
    rewrite !sum_over_keys by assumption. simpl. lia.
  - apply Wc2, Wc1. reflexivity.
  - intros x Hin. apply Kc2 in Hin as [Hin|Hin]; [now right|].
    apply Kc1 in Hin as [Hin|[]]. now left.
Qed.

Lemma max_key_from_spec (d : odict nat) best bv :
  let r := max_key_from best bv d in
  (r = best /\ forall k v, In (k, v) d -> v <= bv)
  \/ (exists v, In (r, v) d /\ bv < v
                /\ forall k' v', In (k', v') d -> v' <= v).
Proof.
  revert best bv. induction d as [|[k v] d IH]; intros best bv; simpl.
  - left. split; [reflexivity|]. intros k v [].
  - destruct (Nat.ltb bv v) eqn:L.
    + apply Nat.ltb_lt in L. right.
      destruct (IH k v) as [[E H]|[v' [Hin [Hlt H]]]].
      * exists v. rewrite E. split; [now left|]. split; [assumption|].
        intros k' v' [[= <- <-]|Hin]; [lia|]. eapply H; eassumption.
      * exists v'. split; [now right|]. split; [lia|].
        intros k' v0 [[= <- <-]|Hin']; [lia|]. eapply H; eassumption.
    + apply Nat.ltb_ge in L.
      destruct (IH best bv) as [[E H]|[v' [Hin [Hlt H]]]].
      * left. split; [assumption|].
        intros k' v' [[= <- <-]|Hin]; [lia|]. eapply H; eassumption.
      * right. exists v'. split; [now right|]. split; [lia|].
        intros k' v0 [[= <- <-]|Hin']; [lia|]. eapply H; eassumption.
Qed.

Lemma max_key_spec (d : odict nat) :
  d <> [] -> wf d = true ->
  exists k v, max_key d = Some k /\ get k d = Some v
    /\ In k (keys d)
    /\ forall k' v', In (k', v') d -> v' <= v.
Proof.
  intros Hne W. destruct d as [|[k v] d]; [congruence|]. simpl max_key.
  assert (Hall : forall k0 v0, In (k0, v0) ((k, v) :: d) ->
                 (forall k' v', In (k', v') ((k, v) :: d) -> v' <= v0) ->
                 exists k1 v1, Some k0 = Some k1
                   /\ get k1 ((k, v) :: d) = Some v1
                   /\ In k1 (keys ((k, v) :: d))
                   /\ forall k' v', In (k', v') ((k, v) :: d) -> v' <= v1).
  { intros k0 v0 Hin H. exists k0, v0. split; [reflexivity|].
    split; [now apply In_get|]. split; [|exact H].
    apply (in_map fst) in Hin. exact Hin. }
  destruct (max_key_from_spec d k v) as [[E H]|[v' [Hin [Hlt H]]]].
  - rewrite E. apply (Hall k v); [now left|].
    intros k' v' [[= <- <-]|Hin]; [lia|]. eapply H; eassumption.
  - apply (Hall _ v'); [now right|].
    intros k' v0 [[= <- <-]|Hin']; [lia|]. eapply H; eassumption.
Qed.

Lemma value_le_sum (d : odict nat) k v :
  In (k, v) d -> v <= list_sum (values d).
Proof.
  induction d as [|[k' v'] d IH]; simpl; [contradiction|].
  intros [[= -> ->]|Hin]; [lia|]. apply IH in Hin. lia.
Qed.

Lemma sum_zero_if_bounded (d : odict nat) :
  (forall k v, In (k, v) d -> v <= 0) -> list_sum (values d) = 0.
Proof.
  induction d as [|[k v] d IH]; simpl; [reflexivity|].
  intros H. rewrite IH by (intros; eapply H; right; eassumption).
  specialize (H k v (or_introl eq_refl)). lia.
Qed.

Lemma keys_wf (A B : Type) (d : odict A) (d' : odict B) :
  keys d = keys d' -> wf d' = true -> wf d = true.
Proof. unfold wf. now intros ->. Qed.

(** What [identify_primary_style] returns on a well-formed catalog:
    the sentinel with confidence 0 when nothing matched, otherwise a key
    of the combined scores with a confidence in (0, 1]. *)
Lemma identify_spec (self : catalog) text :
  wf (in_text_patterns self) = true ->
  wf (full_citation_patterns self) = true ->
  exists res, detect_citation_styles self text = Some res /\
  let total :=
    list_sum (values (in_text res))
    + list_sum (values (full_citation res)) in
  (total = 0 /\ identify_primary_style self text = Some (NONE, 0%Q))
  \/ (0 < total /\ exists comb s v,
        combined_results self res = Some comb
        /\ In s (keys comb) /\ get s comb = Some v
        /\ 0 < v <= total
        /\ identify_primary_style self text
           = Some (s, Qmake (Z.of_nat v) (Pos.of_nat total))).
Proof.
  intros W1 W2. destruct (detect_ok self text W1 W2) as [res [E [K1 K2]]].
  exists res. split; [exact E|]. intros total.
  unfold identify_primary_style. rewrite E. simpl. fold total.
  destruct (Nat.eqb total 0) eqn:T.
  - left. apply Nat.eqb_eq in T. now split.
  - right. apply Nat.eqb_neq in T. split; [lia|].
    destruct (combined_ok self res) as [comb [Ec [S [Wc Kc]]]];
      try assumption.
    { eapply keys_wf; eassumption. }
    { eapply keys_wf; eassumption. }
    rewrite Ec. simpl.
    assert (Hne : comb <> []).
    { intros ->. simpl in S. unfold total in T. lia. }
    destruct (max_key_spec Hne Wc) as [s [v [Em [G [Hin Hmax]]]]].
    exists comb, s, v. split; [reflexivity|].
    split; [exact Hin|]. split; [exact G|].
    assert (Hv : 0 < v <= total).
    { split.
      - destruct v; [|lia]. exfalso. apply T. unfold total.
        rewrite <- S. apply sum_zero_if_bounded. exact Hmax.
      - unfold total. rewrite <- S. eapply value_le_sum.
        apply get_In. exact G. }
    split; [exact Hv|].
    destruct comb as [|kv comb']; [congruence|].
    rewrite Em. unfold bind. rewrite G. unfold div_int.
    destruct (Nat.eqb total 0) eqn:T'; [apply Nat.eqb_eq in T'; lia|].
    reflexivity.
Qed.
End DetectorFacts.

(** ** The matcher *)

Module MatcherFacts.
Import Analysis.

Lemma orelse_none (A : Type) (a b : option A) :
  a = None -> b = None -> orelse a b = None.
Proof. now intros -> ->. Qed.

Lemma orelse_some (A : Type) (a b : option A) x :
  orelse a b = Some x -> a = Some x \/ b = Some x.
Proof. destruct a; simpl; intros H; [left|right]; assumption. Qed.

(** *** Blank text *)

Section Blank.
Variable f : flags.
Hypothesis case_sensitive : ic f = false.

Lemma space_in_ws c : is_space c = true -> In c ws_chars.
Proof.
  unfold is_space. rewrite existsb_exists.
  intros [x [Hin E]]. apply N.eqb_eq in E. now subst.
Qed.

Lemma star_loop_dead body greedy k n st :
  (forall st0 k0, blank (rest st0) = true -> dead k0 ->
                  body st0 k0 = None) ->
  dead k -> blank (rest st) = true ->
  star_loop body greedy k n st = None.
Proof.
  intros Hbody Hk. revert st.
  induction n as [|n IH]; intros st Hst; simpl; [now apply Hk|].
  assert (A : body st
                (fun st1 =>
                   if Nat.ltb (length (rest st1)) (length (rest st))
                   then star_loop body greedy k n st1 else None) = None).
  { apply Hbody; [assumption|]. intros st1 H1.
    destruct (Nat.ltb _ _); [now apply IH|reflexivity]. }
  rewrite A. rewrite (Hk st Hst). now destruct greedy.
Qed.

Lemma rmatch_blank r :
  forall st k, blank (rest st) = true ->
    blocked r = true \/ dead k -> rmatch f r st k = None.
Proof.
  induction r as [|p| |neg items| | |r1 IH1 r2 IH2|r1 IH1 r2 IH2
                  |g r1 IH1|id r1 IH1];
    intros st k Hst H; cbn [rmatch].
  - destruct H as [H|H]; [discriminate|now apply H].
  - destruct (rest st) as [|c tl] eqn:R; [reflexivity|].
    simpl in Hst. apply andb_true_iff in Hst as [Hc Htl].
    unfold lit_match. rewrite case_sensitive.
    destruct (N.eqb p c) eqn:E; [|reflexivity].
    apply N.eqb_eq in E. subst p.
    destruct H as [H|H].
    + simpl in H. rewrite Hc in H. discriminate.
    + apply H. exact Htl.
  - destruct (rest st) as [|c tl] eqn:R; [reflexivity|].
    simpl in Hst. apply andb_true_iff in Hst as [Hc Htl].
    destruct (N.eqb c NL); [reflexivity|].
    destruct H as [H|H]; [discriminate|]. apply H. exact Htl.
  - destruct (rest st) as [|c tl] eqn:R; [reflexivity|].
    simpl in Hst. apply andb_true_iff in Hst as [Hc Htl].
    unfold cls_match. rewrite case_sensitive.
    destruct (xorb neg (cls_mem items c)) eqn:E; [|reflexivity].
    destruct H as [H|H].
    + cbn [blocked] in H. rewrite forallb_forall in H.
      specialize (H c (space_in_ws c Hc)). rewrite E in H. discriminate.
    + apply H. exact Htl.
  - destruct H as [H|H]; [discriminate|].
    destruct (at_bol f st); [now apply H|reflexivity].
  - destruct H as [H|H]; [discriminate|].
    destruct (at_eol f st); [now apply H|reflexivity].
  - destruct H as [H|H].
    + simpl in H. apply orb_true_iff in H as [H|H].
      * apply IH1; [assumption|now left].
      * apply IH1; [assumption|]. right. intros st1 H1.
        apply IH2; [assumption|now left].
    + apply IH1; [assumption|]. right. intros st1 H1.
      apply IH2; [assumption|now right].
  - apply orelse_none.
    + apply IH1; [assumption|]. destruct H as [H|H]; [|now right].
      simpl in H. apply andb_true_iff in H as [H _]. now left.
    + apply IH2; [assumption|]. destruct H as [H|H]; [|now right].
      simpl in H. apply andb_true_iff in H as [_ H]. now left.
  - destruct H as [H|H]; [discriminate|].
    apply star_loop_dead; try assumption.
    intros st0 k0 H0 Hk0. apply IH1; [assumption|now right].
  - apply IH1; [assumption|]. destruct H as [H|H]; [now left|].
    right. intros st1 H1. apply H. exact H1.
Qed.

Lemma match_here_blank r before after ma :
  blocked r = true -> blank after = true ->
  match_here f r before after ma = None.
Proof.
  intros B H. unfold match_here. apply rmatch_blank; [exact H|now left].
Qed.

Lemma scan_blank r pos before after ma :
  blocked r = true -> blank after = true ->
  scan f r pos before after ma = None.
Proof.
  intros B. revert pos before ma.
  induction after as [|c tl IH]; intros pos before ma H; simpl;
    rewrite match_here_blank by assumption; [reflexivity|].
  simpl in H. apply andb_true_iff in H as [_ H]. now apply IH.
Qed.

(** A pattern that needs a non-blank character finds nothing in
    blank text. *)
Lemma finditer_blank r text :
  blocked r = true -> blank text = true -> re_finditer f r text = [].
Proof.
  intros B H. unfold re_finditer. cbn [scan_all].
  now rewrite scan_blank.
Qed.
End Blank.

(** *** Groups that every match sets *)

Section Groups.
Variable f : flags.
Variable id : string.

Lemma keeps_here st k res : k st = Some res -> keeps id st k false res.
Proof.
  intros H. exists st. split; [exact H|]. now intros [Hg|Hg].
Qed.

Lemma star_loop_keeps body greedy k n st res :
  (forall st0 k0 res0, body st0 k0 = Some res0 ->
                       keeps id st0 k0 false res0) ->
  star_loop body greedy k n st = Some res -> keeps id st k false res.
Proof.
  intros Hbody. revert st res.
  induction n as [|n IH]; intros st res H; simpl in H.
  - now apply keeps_here.
  - assert (A : forall x,
              body st
                (fun st1 =>
                   if Nat.ltb (length (rest st1)) (length (rest st))
                   then star_loop body greedy k n st1 else None)
              = Some x -> keeps id st k false x).
    { intros x Hx. apply Hbody in Hx as [st1 [H1 P1]].
      destruct (Nat.ltb _ _); [|discriminate].
      apply IH in H1 as [st2 [H2 P2]]. exists st2. split; [exact H2|].
      intros [Hg|Hg]; [|discriminate]. apply P2. left. apply P1.
      now left. }
    destruct greedy; apply orelse_some in H as [H|H];
      auto using keeps_here.
Qed.

Lemma rmatch_keeps r :
  forall st k res, rmatch f r st k = Some res ->
    keeps id st k (binds id r) res.
Proof.
  induction r as [|p| |neg items| | |r1 IH1 r2 IH2|r1 IH1 r2 IH2
                  |g r1 IH1|id' r1 IH1];
    intros st k res H; cbn [rmatch] in H; cbn [binds].
  - now apply keeps_here.
  - destruct (rest st) as [|c tl]; [discriminate|].
    destruct (lit_match f p c); [|discriminate].
    eexists. split; [exact H|]. now intros [Hg|Hg].
  - destruct (rest st) as [|c tl]; [discriminate|].
    destruct (N.eqb c NL); [discriminate|].
    eexists. split; [exact H|]. now intros [Hg|Hg].
  - destruct (rest st) as [|c tl]; [discriminate|].
    destruct (cls_match f neg items c); [|discriminate].
    eexists. split; [exact H|]. now intros [Hg|Hg].
  - destruct (at_bol f st); [|discriminate]. now apply keeps_here.
  - destruct (at_eol f st); [|discriminate]. now apply keeps_here.
  - apply IH1 in H as [st1 [H1 P1]].
    apply IH2 in H1 as [st2 [H2 P2]].
    exists st2. split; [exact H2|]. intros [Hg|Hg].
    + apply P2. left. apply P1. now left.
    + apply orb_true_iff in Hg as [Hg|Hg].
      * apply P2. left. apply P1. now right.
      * apply P2. now right.
  - apply orelse_some in H as [H|H].
    + apply IH1 in H as [st1 [H1 P1]]. exists st1. split; [exact H1|].
      intros [Hg|Hg]; apply P1; [now left|].
      apply andb_true_iff in Hg as [Hg _]. now right.
    + apply IH2 in H as [st1 [H1 P1]]. exists st1. split; [exact H1|].
      intros [Hg|Hg]; apply P1; [now left|].
      apply andb_true_iff in Hg as [_ Hg]. now right.
  - eapply star_loop_keeps; [|exact H]. intros st0 k0 res0 H0.
    apply IH1 in H0 as [st1 [H1 P1]]. exists st1. split; [exact H1|].
    intros [Hg|Hg]; [|discriminate]. apply P1. now left.
  - apply IH1 in H as [st1 [H1 P1]]. eexists. split; [exact H1|].
    intros Hg. unfold has_group. simpl.
    destruct (String.eqb id id') eqn:E; [reflexivity|].
    fold (has_group id st1). apply P1.
    destruct Hg as [Hg|Hg]; [now left|now right].
Qed.

Lemma match_here_binds r before after ma st1 :
  binds id r = true ->
  match_here f r before after ma = Some st1 -> has_group id st1 = true.
Proof.
  intros B H. unfold match_here in H.
  apply rmatch_keeps in H as [st2 [H2 P2]].
  destruct (ma && _); [discriminate|]. injection H2 as <-.
  apply P2. now right.
Qed.

Lemma scan_binds r pos before after ma m :
  binds id r = true ->
  scan f r pos before after ma = Some m ->
  has_group id (m_end m) = true.
Proof.
  intros B. revert pos before ma.
  induction after as [|c tl IH]; intros pos before ma H; simpl in H.
  - destruct (match_here f r before [] ma) eqn:E; [|discriminate].
    injection H as <-. simpl. eapply match_here_binds; eassumption.
  - destruct (match_here f r before (c :: tl) ma) eqn:E.
    + injection H as <-. simpl. eapply match_here_binds; eassumption.
    + eapply IH; eassumption.
Qed.

Lemma scan_all_binds r fuel pos before after ma :
  binds id r = true ->
  Forall (fun m => has_group id (m_end m) = true)
    (scan_all f fuel r pos before after ma).
Proof.
  intros B. revert pos before after ma.
  induction fuel as [|fuel IH]; intros pos before after ma; simpl;
    [constructor|].
  destruct (scan f r pos before after ma) as [m|] eqn:E; [|constructor].
  constructor; [|apply IH]. eapply scan_binds; eassumption.
Qed.

(** Every match found sets the groups that the pattern always
    binds. *)
Lemma finditer_binds r text :
  binds id r = true ->
  Forall (fun m => exists s, m_group m id = Some s)
    (re_finditer f r text).
Proof.
  intros B. unfold re_finditer.
  eapply Forall_impl; [|apply scan_all_binds; exact B].
  intros m H. unfold has_group in H. unfold m_group.
  destruct (group_of id (caps (m_end m))) as [s|]; [|discriminate].
  now exists s.
Qed.
End Groups.

End MatcherFacts.

(** ** Claims on [identify_primary_style] *)

Module DetectorClaims.
Import Detector Analysis DetectorFacts MatcherFacts Scenarios.

Lemma pos_of_nat_Z (n : nat) : 0 < n -> Z.pos (Pos.of_nat n) = Z.of_nat n.
Proof.
  intros H. rewrite <- positive_nat_Z. f_equal. apply Nat2Pos.id. lia.
Qed.

Lemma ratio_bounds (v total : nat) :
  0 < v <= total ->
  let c := Qmake (Z.of_nat v) (Pos.of_nat total) in
  (0 <= c)%Q /\ (c <= 1)%Q /\ ~ (c == 0)%Q.
Proof.
  intros H c. unfold c, Qle, Qeq. simpl.
  rewrite pos_of_nat_Z by lia. repeat split; lia.
Qed.

Lemma wf_builtin :
  wf (in_text_patterns builtin) = true
  /\ wf (full_citation_patterns builtin) = true.
Proof. split; reflexivity. Qed.

Lemma sub_chicago_cases s :
  sub_chicago s = CHICAGO \/ sub_chicago s = s.
Proof.
  unfold sub_chicago.
  destruct (str_eqb s CHICAGO_AUTHOR_DATE || str_eqb s CHICAGO_NOTES);
    [now left|now right].
Qed.

Lemma not_mem_neq (V : Type) k x (d : odict V) :
  mem k d = false -> In x (keys d) -> x <> k.
Proof.
  intros M Hin ->. apply mem_In in Hin. congruence.
Qed.
End DetectorClaims.

(** C1 (as stated, refuted): with the custom style named like the sentinel
    loaded, the text [x] is scored for that style alone, so the sentinel
    string is returned with confidence 1, not 0. *)
Lemma C1_sentinel_named_style_counterexample :
  Detector.identify_primary_style Scenarios.sentinel_catalog (lit "x")
  = Some (Detector.NONE, 1%Q)
  /\ ~ (1 == 0)%Q.
Proof.
  split; [vm_compute; reflexivity|]. intros H. discriminate H.
Qed.

(** C1 (amended): for every text and every catalog whose tables are
    well-formed dicts without a style named like the sentinel,
    [identify_primary_style] returns a style and a confidence [c] with
    [0 <= c <= 1], and [c] is 0 exactly when the style is the sentinel
    ['No se detectaron citas']. *)
Theorem C1_confidence_bounds (self : Detector.catalog) (text : pystr) :
  wf (Detector.in_text_patterns self) = true ->
  wf (Detector.full_citation_patterns self) = true ->
  mem Detector.NONE (Detector.in_text_patterns self) = false ->
  mem Detector.NONE (Detector.full_citation_patterns self) = false ->
  exists s c,
    Detector.identify_primary_style self text = Some (s, c)
    /\ (0 <= c)%Q /\ (c <= 1)%Q
    /\ ((c == 0)%Q <-> s = Detector.NONE).
Proof.
  intros W1 W2 N1 N2.
  destruct (DetectorFacts.identify_spec self text W1 W2)
    as [res [E [[T I]|[T [comb [s [v [Ec [Hin [G [Hv I]]]]]]]]]]].
  - exists Detector.NONE, 0%Q. split; [exact I|].
    repeat split; try (unfold Qle; simpl; lia); reflexivity.
  - eexists s, _. split; [exact I|].
    destruct (DetectorClaims.ratio_bounds Hv) as [B0 [B1 Bne]].
    split; [exact B0|]. split; [exact B1|].
    split; [intros H; contradiction|].
    intros ->. exfalso.
    destruct (DetectorFacts.combined_ok self res) as [comb' [Ec' [_ [_ K]]]].
    + destruct (DetectorFacts.detect_ok self text W1 W2) as [r [Er [K1 _]]].
      rewrite E in Er. injection Er as <-.
      eapply DetectorFacts.keys_wf; eassumption.
    + destruct (DetectorFacts.detect_ok self text W1 W2) as [r [Er [_ K2]]].
      rewrite E in Er. injection Er as <-.
      eapply DetectorFacts.keys_wf; eassumption.
    + destruct (DetectorFacts.detect_ok self text W1 W2) as [r [Er [K1 _]]].
      rewrite E in Er. now injection Er as <-.
    + destruct (DetectorFacts.detect_ok self text W1 W2) as [r [Er [_ K2]]].
      rewrite E in Er. now injection Er as <-.
    + rewrite Ec in Ec'. injection Ec' as <-.
      apply K in Hin as [Hin|Hin].
      * apply in_map_iff in Hin as [k [Ek Hk]].
        destruct (DetectorClaims.sub_chicago_cases k) as [C|C];
          rewrite C in Ek.
        -- discriminate Ek.
        -- subst k. eapply DetectorClaims.not_mem_neq in Hk; eauto.
      * eapply DetectorClaims.not_mem_neq in Hin; eauto.
Qed.

Lemma C1_confidence_bounds_witness :
  exists s c,
    Detector.identify_primary_style Detector.builtin Scenarios.smith_25
    = Some (s, c)
    /\ (0 <= c)%Q /\ (c <= 1)%Q
    /\ ((c == 0)%Q <-> s = Detector.NONE).
Proof.
  apply (C1_confidence_bounds Detector.builtin Scenarios.smith_25);
    reflexivity.
Defined.

Module BlankFacts.
Import Detector Analysis DetectorFacts MatcherFacts.

Lemma set_same (V : Type) k (v : V) d : get k d = Some v -> set k v d = d.
Proof.
  induction d as [|[k' v'] d IH]; simpl; [discriminate|].
  destruct (str_eqb k k') eqn:E.
  - now intros [= ->].
  - intros H. now rewrite IH.
Qed.

Lemma count_patterns_zero text style ps (counts : odict nat) :
  (forall p, In p ps -> findall_count MULTILINE p text = 0) ->
  mem style counts = true ->
  count_patterns text style ps counts = Some counts.
Proof.
  intros Hz M. induction ps as [|p ps IH]; simpl; [reflexivity|].
  rewrite Hz by now left. unfold incr, bind. unfold mem in M.
  destruct (get style counts) as [v|] eqn:G; [|discriminate].
  rewrite Nat.add_0_r, (set_same _ _ G). apply IH.
  intros q Hq. apply Hz. now right.
Qed.

Lemma count_styles_zero text (items : odict (list regex))
  (counts : odict nat) :
  (forall style ps, In (style, ps) items ->
     mem style counts = true
     /\ forall p, In p ps -> findall_count MULTILINE p text = 0) ->
  count_styles text items counts = Some counts.
Proof.
  induction items as [|[style ps] items IH]; intros H; simpl;
    [reflexivity|].
  destruct (H style ps (or_introl eq_refl)) as [M Hz].
  rewrite count_patterns_zero by assumption. simpl. apply IH.
  intros s q Hin. apply H. now right.
Qed.

Lemma count_blank text (d : odict (list regex)) :
  wf d = true -> all_blocked d = true -> blank text = true ->
  count_styles text d (zero_counts d) = Some (zero_counts d).
Proof.
  intros W B H. apply count_styles_zero. intros style ps Hin. split.
  - apply mem_In. rewrite zero_counts_keys by assumption.
    apply (in_map fst) in Hin. exact Hin.
  - intros p Hp. unfold findall_count.
    rewrite finditer_blank; [reflexivity|reflexivity| |exact H].
    unfold all_blocked in B. rewrite forallb_forall in B.
    specialize (B _ Hin). simpl in B. rewrite forallb_forall in B.
    now apply B.
Qed.

Lemma detect_blank text :
  blank text = true ->
  detect_citation_styles builtin text
  = Some {| in_text := zero_counts builtin_in_text;
            full_citation := zero_counts builtin_full_citation |}.
Proof.
  intros H. unfold detect_citation_styles.
  change (in_text_patterns builtin) with builtin_in_text.
  change (full_citation_patterns builtin) with builtin_full_citation.
  rewrite !count_blank by (try exact H; reflexivity). reflexivity.
Qed.

Lemma identify_blank text :
  blank text = true ->
  identify_primary_style builtin text = Some (NONE, 0%Q).
Proof.
  intros H. unfold identify_primary_style.
  rewrite detect_blank by exact H. reflexivity.
Qed.

Lemma extract_blank text :
  blank text = true ->
  extract_citations builtin text
  = Some {| en_texto := []; bibliograficas := [] |}.
Proof.
  intros H. unfold extract_citations.
  rewrite identify_blank by exact H. reflexivity.
Qed.
End BlankFacts.

(** C2: with the built-in tables [identify_primary_style] returns for
    every text (no operation in it raises); for the empty string and for
    every text made of white space only it returns the sentinel with
    confidence 0, and [extract_citations] then returns two empty lists. *)
Theorem C2_never_raises_blank_gives_none :
  (forall text,
     exists r, Detector.identify_primary_style Detector.builtin text = Some r)
  /\ (Detector.identify_primary_style Detector.builtin []
      = Some (Detector.NONE, 0%Q)
      /\ Detector.extract_citations Detector.builtin []
         = Some {| Detector.en_texto := []; Detector.bibliograficas := [] |})
  /\ (forall text,
        Analysis.blank text = true ->
        Detector.identify_primary_style Detector.builtin text
        = Some (Detector.NONE, 0%Q)
        /\ Detector.extract_citations Detector.builtin text
           = Some {| Detector.en_texto := [];
                     Detector.bibliograficas := [] |}).
Proof.
  split; [|split].
  - intros text.
    destruct (DetectorFacts.identify_spec Detector.builtin text)
      as [res [_ [[_ I]|[_ [comb [s [v [_ [_ [_ [_ I]]]]]]]]]]];
      try reflexivity; eexists; exact I.
  - split; [apply BlankFacts.identify_blank|apply BlankFacts.extract_blank];
      reflexivity.
  - intros text H.
    split; [apply BlankFacts.identify_blank|apply BlankFacts.extract_blank];
      exact H.
Qed.

Lemma C2_never_raises_blank_gives_none_witness :
  Analysis.blank Scenarios.blank_text = true
  /\ Detector.identify_primary_style Detector.builtin Scenarios.blank_text
     = Some (Detector.NONE, 0%Q)
  /\ Detector.extract_citations Detector.builtin Scenarios.blank_text
     = Some {| Detector.en_texto := []; Detector.bibliograficas := [] |}.
Proof.
  split; [reflexivity|].
  apply (proj2 (proj2 C2_never_raises_blank_gives_none)
           Scenarios.blank_text).
  reflexivity.
Defined.

(** C8: on the text [(Smith 25)] the primary style is MLA with confidence
    exactly 1, and the citation keys extracted for MLA are exactly
    [[("Smith", "")]]. *)
Theorem C8_scenario_smith_25 :
  Detector.identify_primary_style Detector.builtin (lit "(Smith 25)")
  = Some (lit "MLA", 1%Q)
  /\ Detector._extract_citation_keys (lit "(Smith 25)") (lit "MLA")
     = Some [(lit "Smith", [])].
Proof. split; vm_compute; reflexivity. Qed.

Module FusionFacts.
Import Detector Analysis DetectorFacts.

Lemma builtin_in_text_keys : keys builtin_in_text = in_text_keys.
Proof. reflexivity. Qed.

Lemma builtin_full_keys : keys builtin_full_citation = full_keys.
Proof. reflexivity. Qed.

Lemma builtin_combined (res : results) :
  keys (in_text res) = keys builtin_in_text ->
  keys (full_citation res) = keys builtin_full_citation ->
  exists comb,
    combined_results builtin res = Some comb
    /\ get CHICAGO comb
       = Some (count_of CHICAGO_AUTHOR_DATE (in_text res)
               + count_of CHICAGO_NOTES (in_text res)
               + count_of CHICAGO (full_citation res))
    /\ keys comb = full_keys.
Proof.
  destruct res as [it fc]. cbn [in_text full_citation].
  rewrite builtin_in_text_keys, builtin_full_keys.
  unfold in_text_keys, full_keys. intros K1 K2.
  shape it K1. shape fc K2.
  unfold combined_results.
  change (keys (in_text_patterns builtin)) with (keys builtin_in_text).
  change (keys (full_citation_patterns builtin))
    with (keys builtin_full_citation).
  rewrite builtin_in_text_keys, builtin_full_keys.
  cbn [in_text full_citation].
  eexists. split; [vm_compute; reflexivity|].
  split; [|reflexivity].
  vm_compute. f_equal.
Qed.
End FusionFacts.

(** C3 (as stated, refuted): the public [detect_citation_styles] reports
    its in-text counts under the sub-style tags, whatever the text (here
    the empty one). *)
Lemma C3_substyle_tags_reported_counterexample :
  exists res,
    Detector.detect_citation_styles Detector.builtin [] = Some res
    /\ In Detector.CHICAGO_AUTHOR_DATE (keys (Detector.in_text res))
    /\ In Detector.CHICAGO_NOTES (keys (Detector.in_text res)).
Proof.
  eexists. split; [vm_compute; reflexivity|].
  split; simpl; tauto.
Qed.

(** C3 (amended): with the built-in tables, the combined CHICAGO score of
    [identify_primary_style] is the in-text count of CHICAGO_AUTHOR_DATE
    plus the in-text count of CHICAGO_NOTES plus the full-citation count
    of CHICAGO, and the style it returns is never one of the two sub-style
    tags.  (The per-style breakdown of [detect_citation_styles] does carry
    both tags.) *)
Theorem C3_chicago_fusion (text : pystr) :
  exists res comb s c,
    Detector.detect_citation_styles Detector.builtin text = Some res
    /\ Detector.combined_results Detector.builtin res = Some comb
    /\ get Detector.CHICAGO comb
       = Some (count_of Detector.CHICAGO_AUTHOR_DATE (Detector.in_text res)
               + count_of Detector.CHICAGO_NOTES (Detector.in_text res)
               + count_of Detector.CHICAGO (Detector.full_citation res))
    /\ Detector.identify_primary_style Detector.builtin text = Some (s, c)
    /\ s <> Detector.CHICAGO_AUTHOR_DATE
    /\ s <> Detector.CHICAGO_NOTES
    /\ In Detector.CHICAGO_AUTHOR_DATE (keys (Detector.in_text res))
    /\ In Detector.CHICAGO_NOTES (keys (Detector.in_text res)).
Proof.
  destruct (DetectorFacts.identify_spec Detector.builtin text)
    as [res [E I]]; try reflexivity.
  destruct (DetectorFacts.detect_ok Detector.builtin text)
    as [res' [E' [K1 K2]]]; try reflexivity.
  rewrite E in E'. injection E' as <-.
  destruct (FusionFacts.builtin_combined res K1 K2) as [comb [Ec [G K]]].
  assert (Tags : In Detector.CHICAGO_AUTHOR_DATE (keys (Detector.in_text res))
                 /\ In Detector.CHICAGO_NOTES (keys (Detector.in_text res))).
  { rewrite K1.
    change (keys (Detector.in_text_patterns Detector.builtin))
      with Analysis.in_text_keys.
    unfold Analysis.in_text_keys. split; cbn [In]; tauto. }
  cbv zeta in I.
  destruct I as [[_ I]|[_ [comb' [s [v [Ec' [Hin [_ [_ I]]]]]]]]].
  - exists res, comb, Detector.NONE, 0%Q.
    repeat split; try assumption; try apply Tags; discriminate.
  - rewrite Ec in Ec'. injection Ec' as <-.
    eexists res, comb, s, _.
    repeat split; try eassumption; try apply Tags.
    + intros ->. rewrite K in Hin. vm_compute in Hin.
      repeat (destruct Hin as [Hin|Hin]; [discriminate Hin|]).
      contradiction.
    + intros ->. rewrite K in Hin. vm_compute in Hin.
      repeat (destruct Hin as [Hin|Hin]; [discriminate Hin|]).
      contradiction.
Qed.

(** ** Citation keys *)

Module KeyFacts.
Import Analysis MatcherFacts.

Lemma author_only_keys_ok ms :
  Forall (fun m => exists s, m_group m "author" = Some s) ms ->
  exists ks, Detector.author_only_keys ms = Some ks /\ Forall no_year ks.
Proof.
  induction 1 as [|m ms [s Hs] _ [ks [E F]]]; simpl.
  - exists []. split; [reflexivity|constructor].
  - rewrite Hs, E. simpl. eexists. split; [reflexivity|].
    constructor; [reflexivity|exact F].
Qed.

Lemma set_list_from_incl (A : Type) (eqb : A -> A -> bool) seen xs x :
  In x (Detector.set_list_from eqb seen xs) -> In x xs.
Proof.
  revert seen. induction xs as [|y xs IH]; intros seen; simpl;
    [tauto|].
  destruct (existsb (eqb y) seen).
  - intros H. right. eapply IH. exact H.
  - intros [->|H]; [now left|]. right. eapply IH. exact H.
Qed.

Lemma set_list_Forall (A : Type) (eqb : A -> A -> bool) (P : A -> Prop)
  xs :
  Forall P xs -> Forall P (Detector.set_list eqb xs).
Proof.
  intros H. apply Forall_forall. intros x Hin.
  apply set_list_from_incl in Hin. rewrite Forall_forall in H. now apply H.
Qed.



End KeyFacts.


(** ** Author matching *)

Module MatchFacts.
Import Validator.

Lemma lstrip_head s :
  lstrip s = [] \/ exists c t, lstrip s = c :: t /\ is_space c = false.
Proof.
  induction s as [|c s IH]; simpl; [now left|].
  destruct (is_space c) eqn:E; [exact IH|].
  right. now exists c, s.
Qed.

Lemma lstrip_snoc l c :
  is_space c = false -> exists l', lstrip (l ++ [c]) = l' ++ [c].
Proof.
  intros Hc. induction l as [|a l IH]; simpl.
  - rewrite Hc. now exists [].
  - destruct (is_space a); [exact IH|]. now exists (a :: l).
Qed.

(** A stripped string does not start with white space. *)
Lemma lstrip_strip s : lstrip (strip s) = strip s.
Proof.
  unfold strip, rstrip.
  destruct (lstrip_head s) as [E|[c [t [E Hc]]]]; rewrite E.
  - reflexivity.
  - simpl rev. destruct (@lstrip_snoc (rev t) c Hc) as [l' El].
    rewrite El, rev_app_distr. simpl. now rewrite Hc.
Qed.



End MatchFacts.


(** ** Custom patterns *)

Module CustomFacts.
Import Patterns CustomPatterns.

Lemma mem_get_list (A : Type) style (d : odict (list A)) :
  mem style d = false -> Detector.get_list style d = [].
Proof.
  unfold mem, Detector.get_list. now destruct (get style d).
Qed.

Lemma appended_set (A : Type) style (x : A) l (d0 d : odict (list A)) :
  Detector.get_list style d = l ->
  (forall s, s <> style -> get s d0 = get s d) ->
  appended style x d (set style (l ++ [x]) d0).
Proof.
  intros <- Hs. split.
  - apply get_set_same.
  - intros s Hne. rewrite get_set_other.
    + now apply Hs.
    + apply str_eqb_neq. congruence.
Qed.

(** One branch of [add_custom_pattern] on consistent tables. *)
Lemma add_pair_ok style pattern compiled_pattern
  (texts : odict (list pystr)) (compiled : odict (list regex)) :
  (forall s, mem s compiled = mem s texts) ->
  exists texts' compiled',
    add_pair style pattern compiled_pattern texts compiled
    = (texts', compiled', true)
    /\ appended style pattern texts texts'
    /\ appended style compiled_pattern compiled compiled'
    /\ (forall s, mem s compiled' = mem s texts').
Proof.
  intros C. unfold add_pair, append_to.
  destruct (mem style texts) eqn:M.
  - pose proof (C style) as Mc. rewrite M in Mc. unfold mem in M, Mc.
    destruct (get style texts) as [l|] eqn:G; [|discriminate].
    destruct (get style compiled) as [lc|] eqn:Gc; [|discriminate].
    do 2 eexists. split; [reflexivity|]. split; [|split].
    + apply appended_set; [|reflexivity].
      unfold Detector.get_list. now rewrite G.
    + apply appended_set; [|reflexivity].
      unfold Detector.get_list. now rewrite Gc.
    + intros s. rewrite !mem_set. now rewrite C.
  - rewrite !get_set_same.
    do 2 eexists. split; [reflexivity|]. split; [|split].
    + apply appended_set; [now apply mem_get_list|].
      intros s Hne. apply get_set_other. apply str_eqb_neq. congruence.
    + apply appended_set.
      * apply mem_get_list. now rewrite C.
      * intros s Hne. apply get_set_other. apply str_eqb_neq. congruence.
    + intros s. rewrite !mem_set. now rewrite C.
Qed.

Lemma extends_refl v : extends v v.
Proof. now left. Qed.

Lemma extends_trans v1 v2 v3 :
  extends v1 v2 -> extends v2 v3 -> extends v1 v3.
Proof.
  intros [->|[xs [ys [-> ->]]]] H; [exact H|].
  destruct H as [->|[xs' [zs [E ->]]]].
  - right. now exists xs, ys.
  - injection E as <-. right. exists xs, (ys ++ zs).
    now rewrite app_assoc.
Qed.

Lemma py_extend_extends cur pats v :
  Detector.py_extend cur pats = Some v -> extends cur v.
Proof.
  destruct cur as [ |b|z|s|xs|items]; simpl; try discriminate.
  destruct (Detector.py_iter pats) as [ys|]; simpl; [|discriminate].
  intros [= <-]. right. now exists xs, ys.
Qed.

(** A merge loop only adds at the end of the lists it finds. *)
Lemma merge_styles_extends items :
  forall table style v,
    get style table = Some v ->
    exists v',
      get style (fst (Detector.merge_styles items table)) = Some v'
      /\ extends v v'.
Proof.
  induction items as [|[style0 pats] items IH]; intros table style v G;
    simpl.
  - exists v. split; [exact G|apply extends_refl].
  - destruct (get style0 table) as [cur|] eqn:G0.
    + destruct (Detector.py_extend cur pats) as [ext|] eqn:E.
      * destruct (str_eqb style0 style) eqn:S.
        -- apply str_eqb_eq in S. subst style0.
           rewrite G in G0. injection G0 as <-.
           destruct (IH (set style ext table) style ext) as [v' [G' X]].
           { apply get_set_same. }
           exists v'. split; [exact G'|].
           eapply extends_trans; [|exact X].
           eapply py_extend_extends; eassumption.
        -- apply IH. now rewrite get_set_other.
      * exists v. split; [exact G|apply extends_refl].
    + apply IH. rewrite get_set_other; [exact G|].
      apply str_eqb_neq. intros ->. congruence.
Qed.

Lemma merge_section_extends name cfg table style v :
  get style table = Some v ->
  exists v',
    get style (fst (Detector.merge_section name cfg table)) = Some v'
    /\ extends v v'.
Proof.
  intros G. unfold Detector.merge_section.
  destruct (Detector.py_in name cfg) as [[|]|];
    try (exists v; split; [exact G|apply extends_refl]).
  destruct (Detector.py_getitem cfg name) as [section|];
    try (exists v; split; [exact G|apply extends_refl]).
  destruct (Detector.py_items section) as [items|];
    try (exists v; split; [exact G|apply extends_refl]).
  now apply merge_styles_extends.
Qed.

Lemma merge_section_not_object name cfg table :
  (forall items, cfg <> Detector.JObj items) ->
  fst (Detector.merge_section name cfg table) = table.
Proof.
  intros H. unfold Detector.merge_section.
  destruct cfg as [ |b|z|s|xs|items]; simpl; try reflexivity.
  - now destruct (contains name s).
  - now destruct (existsb _ xs).
  - exfalso. now apply (H items).
Qed.
End CustomFacts.

(** C4 (as stated, refuted): loading a file whose in-text section is
    valid and whose full-citation section is a number fails (the error is
    caught) after the in-text table has been extended. *)
Lemma C4_partial_load_counterexample :
  let r := Detector._load_custom_patterns CustomPatterns.small_tables
             (Some CustomPatterns.half_malformed) in
  snd r = true
  /\ get (lit "APA") (Detector.t_in_text CustomPatterns.small_tables)
     = Some (Detector.JArr [Detector.JStr (lit "a")])
  /\ get (lit "APA") (Detector.t_in_text (fst r))
     = Some (Detector.JArr [Detector.JStr (lit "a"); Detector.JStr (lit "x")]).
Proof. repeat split. Qed.

(** C4 (amended): [add_custom_pattern] is atomic: when [re.compile]
    raises [re.error], or when the pattern compiles and the pattern type
    is unknown, it returns [False] and leaves every table unchanged; on a
    consistent state, a pattern that compiles is appended, with its
    compiled form, to the lists of its style in the tables of its type,
    and [True] is returned.  (Nothing is said of a pattern on which
    [re.compile] raises another exception.)  Loading a configuration
    never propagates an error, but it is not rolled back: a
    configuration that is not an object (or could not be read) changes
    nothing, and in every case a style already present keeps its value,
    at most extended at the end. *)
Theorem C4_custom_patterns :
  (forall re_compile self style pattern_type pattern,
     re_compile pattern = Patterns.ReError
     \/ (re_compile pattern <> Patterns.OtherError
         /\ CustomPatterns.tables_of pattern_type self = None) ->
     Patterns.add_custom_pattern re_compile self style pattern_type pattern
     = (self, Patterns.Returned false))
  /\ (forall re_compile self style pattern_type pattern compiled t c,
        CustomPatterns.consistent self ->
        re_compile pattern = Patterns.Compiled compiled ->
        CustomPatterns.tables_of pattern_type self = Some (t, c) ->
        exists self' t' c',
          Patterns.add_custom_pattern re_compile self style pattern_type
            pattern
          = (self', Patterns.Returned true)
          /\ CustomPatterns.tables_of pattern_type self' = Some (t', c')
          /\ CustomPatterns.appended style pattern t t'
          /\ CustomPatterns.appended style compiled c c'
          /\ CustomPatterns.consistent self')
  /\ (forall self, Detector._load_custom_patterns self None = (self, true))
  /\ (forall self cfg,
        (forall items, cfg <> Detector.JObj items) ->
        fst (Detector._load_custom_patterns self (Some cfg)) = self)
  /\ (forall self loaded style v,
        (get style (Detector.t_in_text self) = Some v ->
         exists v',
           get style
             (Detector.t_in_text
                (fst (Detector._load_custom_patterns self loaded)))
           = Some v'
           /\ CustomPatterns.extends v v')
        /\ (get style (Detector.t_full_citation self) = Some v ->
            exists v',
              get style
                (Detector.t_full_citation
                   (fst (Detector._load_custom_patterns self loaded)))
              = Some v'
              /\ CustomPatterns.extends v v')).
Proof.
  split; [|split; [|split; [|split]]].
  - intros re_compile self style pattern_type pattern H.
    unfold Patterns.add_custom_pattern.
    destruct (re_compile pattern) as [cp| |]; [|reflexivity|].
    + destruct H as [H|[_ H]]; [discriminate|].
      unfold CustomPatterns.tables_of in H.
      destruct (str_eqb pattern_type (lit "in_text")); [discriminate|].
      destruct (str_eqb pattern_type (lit "bibliography"));
        [discriminate|].
      destruct (str_eqb pattern_type (lit "headers")); [discriminate|].
      reflexivity.
    + destruct H as [H|[H _]]; [discriminate|]. exfalso. apply H.
      reflexivity.
  - intros re_compile self style pattern_type pattern compiled t c C E T.
    unfold Patterns.add_custom_pattern. rewrite E.
    unfold CustomPatterns.tables_of in *.
    destruct (str_eqb pattern_type (lit "in_text")) eqn:T1;
      [|destruct (str_eqb pattern_type (lit "bibliography")) eqn:T2;
        [|destruct (str_eqb pattern_type (lit "headers")) eqn:T3;
          [|discriminate]]];
      injection T as <- <-.
    + destruct (CustomFacts.add_pair_ok style pattern compiled
                  (Patterns.in_text_patterns self)
                  (Patterns.compiled_in_text self))
        as [t' [c' [Ea [At [Ac Cs]]]]].
      { intros s. apply (C s). }
      rewrite Ea. do 3 eexists. split; [reflexivity|]. simpl.
      split; [reflexivity|]. split; [exact At|]. split; [exact Ac|].
      intros s. simpl. destruct (C s) as [C1 [C2 C3]].
      repeat split; try assumption; apply Cs.
    + destruct (CustomFacts.add_pair_ok style pattern compiled
                  (Patterns.bibliography_patterns self)
                  (Patterns.compiled_bibliography self))
        as [t' [c' [Ea [At [Ac Cs]]]]].
      { intros s. apply (C s). }
      rewrite Ea. do 3 eexists. split; [reflexivity|]. simpl.
      split; [reflexivity|]. split; [exact At|].
      split; [exact Ac|].
      intros s. simpl. destruct (C s) as [C1 [C2 C3]].
      repeat split; try assumption; apply Cs.
    + destruct (CustomFacts.add_pair_ok style pattern compiled
                  (Patterns.bibliography_headers self)
                  (Patterns.compiled_headers self))
        as [t' [c' [Ea [At [Ac Cs]]]]].
      { intros s. apply (C s). }
      rewrite Ea. do 3 eexists. split; [reflexivity|]. simpl.
      split; [reflexivity|]. split; [exact At|].
      split; [exact Ac|].
      intros s. simpl. destruct (C s) as [C1 [C2 C3]].
      repeat split; try assumption; apply Cs.
  - reflexivity.
  - intros [it fc] cfg H. unfold Detector._load_custom_patterns.
    cbn [Detector.t_in_text Detector.t_full_citation].
    pose proof (CustomFacts.merge_section_not_object
                  (lit "in_text_patterns") it H) as E1.
    pose proof (CustomFacts.merge_section_not_object
                  (lit "full_citation_patterns") fc H) as E2.
    destruct (Detector.merge_section (lit "in_text_patterns") cfg it)
      as [it' r1].
    destruct (Detector.merge_section (lit "full_citation_patterns") cfg fc)
      as [fc' r2].
    simpl in E1, E2. subst. now destruct r1.
  - intros [it fc] [cfg|] style v;
      cbn [Detector.t_in_text Detector.t_full_citation
           Detector._load_custom_patterns fst];
      [|split; intros G; exists v; (split; [exact G|now left])].
    split; intros G.
    + destruct (CustomFacts.merge_section_extends
                  (lit "in_text_patterns") cfg it style G) as [v' [G' X]].
      destruct (Detector.merge_section (lit "in_text_patterns") cfg it)
        as [it' r1].
      destruct (Detector.merge_section (lit "full_citation_patterns") cfg fc)
        as [fc' r2].
      exists v'. split; [|exact X]. now destruct r1.
    + destruct (CustomFacts.merge_section_extends
                  (lit "full_citation_patterns") cfg fc style G)
        as [v' [G' X]].
      destruct (Detector.merge_section (lit "in_text_patterns") cfg it)
        as [it' r1].
      destruct (Detector.merge_section (lit "full_citation_patterns") cfg fc)
        as [fc' r2].
      destruct r1; simpl.
      * exists v. split; [exact G|now left].
      * exists v'. split; [exact G'|exact X].
Qed.

Lemma C4_custom_patterns_witness :
  Patterns.add_custom_pattern CustomPatterns.toy_compile
    CustomPatterns.empty_state (lit "APA") (lit "in_text") (lit "(")
  = (CustomPatterns.empty_state, Patterns.Returned false)
  /\ (exists self' t' c',
        Patterns.add_custom_pattern CustomPatterns.toy_compile
          CustomPatterns.empty_state (lit "APA") (lit "in_text") (lit "x")
        = (self', Patterns.Returned true)
        /\ CustomPatterns.tables_of (lit "in_text") self' = Some (t', c')
        /\ CustomPatterns.appended (lit "APA") (lit "x") [] t'
        /\ CustomPatterns.appended (lit "APA") Eps [] c'
        /\ CustomPatterns.consistent self')
  /\ fst (Detector._load_custom_patterns CustomPatterns.small_tables
            (Some (Detector.JNum 5)))
     = CustomPatterns.small_tables.
Proof.
  destruct C4_custom_patterns as [A [B [_ [L _]]]].
  split; [apply A; left; reflexivity|].
  split.
  - apply (B CustomPatterns.toy_compile CustomPatterns.empty_state
             (lit "APA") (lit "in_text") (lit "x") Eps [] []).
    + intros s. repeat split.
    + reflexivity.
    + reflexivity.
  - apply L. intros items H. discriminate H.
Defined.

(** ** The style guess of [extractor.py] *)

Module GuessFacts.
Import Extractor.

Lemma fold_left_ext_in (A B : Type) (f g : A -> B -> A) (l : list B) a :
  (forall a x, In x l -> f a x = g a x) ->
  fold_left f l a = fold_left g l a.
Proof.
  revert a. induction l as [|x l IH]; intros a H; simpl; [reflexivity|].
  rewrite H by now left. apply IH. intros a' y Hy. apply H. now right.
Qed.

Lemma fold_left_id (A B : Type) (f : A -> B -> A) (l : list B) a :
  (forall a x, In x l -> f a x = a) -> fold_left f l a = a.
Proof.
  revert a. induction l as [|x l IH]; intros a H; simpl; [reflexivity|].
  rewrite H by now left. apply IH. intros a' y Hy. apply H. now right.
Qed.

Lemma in_all (A : Type) (d : odict (list A)) kv x :
  In kv d -> In x (snd kv) -> In x (flat_map (fun kv => snd kv) d).
Proof. intros H1 H2. apply in_flat_map. now exists kv. Qed.

Lemma score_headers_none text counts :
  existsb (fun h => found IGNORECASE_MULTILINE (header_re h) text)
    all_headers = false ->
  score_headers text counts = counts.
Proof.
  intros H. unfold score_headers. apply fold_left_id.
  intros a kv Hkv. apply fold_left_id. intros c h Hh.
  destruct (found IGNORECASE_MULTILINE (header_re h) text) eqn:F;
    [|reflexivity].
  exfalso. assert (X : existsb
              (fun h => found IGNORECASE_MULTILINE (header_re h) text)
              all_headers = true); [|congruence].
  apply existsb_exists. exists h. split; [|exact F].
  unfold all_headers. eapply in_all; eassumption.
Qed.

Lemma score_in_text_none text counts :
  forallb (fun p => Nat.eqb (findall_count no_flags p text) 0)
    (flat_map (fun kv => snd kv) in_text_patterns) = true ->
  score_in_text text counts
  = fold_left
      (fun c kv => fold_left (fun c' _ => dd_add (fst kv) 0 c') (snd kv) c)
      in_text_patterns counts.
Proof.
  intros H. unfold score_in_text. apply fold_left_ext_in.
  intros a kv Hkv. apply fold_left_ext_in. intros c p Hp.
  rewrite forallb_forall in H.
  assert (Hin : In p (flat_map (fun kv => snd kv) in_text_patterns))
    by (eapply in_all; eassumption).
  apply H in Hin. apply Nat.eqb_eq in Hin. now rewrite Hin.
Qed.

Lemma detect_default text :
  existsb (fun h => found IGNORECASE_MULTILINE (header_re h) text)
    all_headers = false ->
  forallb (fun p => Nat.eqb (findall_count no_flags p text) 0)
    (flat_map (fun kv => snd kv) in_text_patterns) = true ->
  _detect_citation_style text = APA.
Proof.
  intros H1 H2. unfold _detect_citation_style, style_scores.
  rewrite score_headers_none by exact H1.
  rewrite score_in_text_none by exact H2.
  vm_compute. reflexivity.
Qed.
End GuessFacts.

(** ** The pasted header patterns *)

Module PastedFacts.
Import Extractor.

(** Whatever the header, the pattern pasted around it sets [(?i)] after
    [^] and is refused. *)
Lemma line_pattern_refused words :
  compile_pasted (header_line_src words) (header_line_re words) = None.
Proof. reflexivity. Qed.

Lemma first_header_raises text h hs : first_header text (h :: hs) = None.
Proof. cbn [first_header]. rewrite line_pattern_refused. reflexivity. Qed.

Lemma main_text_raises text : _extract_main_text text = None.
Proof.
  unfold _extract_main_text.
  change all_headers with (lit "Referencias" :: tl all_headers).
  rewrite first_header_raises. reflexivity.
Qed.

Lemma in_text_raises self text style :
  extract_in_text_citations self text style = None.
Proof.
  unfold extract_in_text_citations. rewrite main_text_raises.
  reflexivity.
Qed.

End PastedFacts.

(** C10: for every text in which no bibliography header and no in-text
    pattern of any style matches, [_detect_citation_style] returns 'APA',
    and [extract_all_citations] without a style (None or the empty
    string) goes on with the style 'APA', not with a sentinel.  The
    extraction that it then starts does not return: the first pattern
    that [_extract_main_text] pastes around a header, [(?i)^(?i)^...],
    is refused by [re.compile], and the call raises [re.error]. *)
Theorem C10_default_style_is_apa (text : pystr) :
  existsb
    (fun h =>
       Extractor.found IGNORECASE_MULTILINE (Extractor.header_re h) text)
    Extractor.all_headers = false ->
  forallb (fun p => Nat.eqb (findall_count no_flags p text) 0)
    (flat_map (fun kv => snd kv) Extractor.in_text_patterns) = true ->
  Extractor._detect_citation_style text = lit "APA"
  /\ forall self style,
       style = None \/ style = Some [] ->
       Extractor.resolved_style text style = lit "APA"
       /\ Extractor.extract_in_text_citations self text (lit "APA") = None
       /\ Extractor.extract_all_citations self text style = None.
Proof.
  intros H1 H2.
  pose proof (GuessFacts.detect_default text H1 H2) as D.
  split; [exact D|].
  intros self style S.
  assert (R : Extractor.resolved_style text style = lit "APA").
  { destruct S as [->| ->]; exact D. }
  split; [exact R|].
  split; [apply PastedFacts.in_text_raises|].
  unfold Extractor.extract_all_citations. rewrite R.
  rewrite PastedFacts.in_text_raises. reflexivity.
Qed.

Lemma C10_default_style_is_apa_witness :
  Extractor._detect_citation_style Extraction.no_citations = lit "APA"
  /\ forall self style,
       style = None \/ style = Some [] ->
       Extractor.resolved_style Extraction.no_citations style = lit "APA"
       /\ Extractor.extract_in_text_citations self Extraction.no_citations
            (lit "APA") = None
       /\ Extractor.extract_all_citations self Extraction.no_citations style
          = None.
Proof.
  apply (C10_default_style_is_apa Extraction.no_citations);
    vm_compute; reflexivity.
Defined.

(** ** Duplicates and order *)

Module DedupFacts.
Import Extraction.

Lemma existsb_str_eqb x l : existsb (str_eqb x) l = true <-> In x l.
Proof.
  rewrite existsb_exists. split.
  - intros [y [Hy E]]. apply str_eqb_eq in E. now subst.
  - intros H. exists x. split; [exact H|apply str_eqb_refl].
Qed.

Lemma not_existsb_str_eqb x l : existsb (str_eqb x) l = false <-> ~ In x l.
Proof.
  rewrite <- existsb_str_eqb. destruct (existsb (str_eqb x) l); split;
    intros H; congruence.
Qed.

Lemma filter_filter (A : Type) (p q : A -> bool) l :
  filter p (filter q l) = filter (fun x => q x && p x) l.
Proof.
  induction l as [|x l IH]; simpl; [reflexivity|].
  destruct (q x); simpl; [destruct (p x)|]; now rewrite IH.
Qed.

(** The closing loop of [extract_in_text_citations] against the
    specification of first-seen deduplication. *)
Lemma unique_from_first_seen l :
  forall seen,
    Extractor.unique_from seen l = filter (fresh seen) (first_seen l).
Proof.
  induction l as [|x l IH]; intros seen; simpl; [reflexivity|].
  rewrite filter_filter. unfold fresh at 1.
  destruct (existsb (str_eqb x) seen) eqn:E; simpl.
  - rewrite IH. apply filter_ext_in. intros y _.
    destruct (str_eqb y x) eqn:Eyx; [|reflexivity]. simpl.
    apply str_eqb_eq in Eyx. subst y. unfold fresh. now rewrite E.
  - f_equal. rewrite IH. apply filter_ext. intros y.
    unfold fresh. simpl. now destruct (str_eqb y x).
Qed.

Lemma first_seen_In l x : In x (first_seen l) <-> In x l.
Proof.
  induction l as [|y l IH]; simpl; [tauto|].
  rewrite filter_In, IH. split.
  - intros [->|[H _]]; [now left|now right].
  - intros [->|H]; [now left|].
    destruct (str_eqb x y) eqn:E.
    + apply str_eqb_eq in E. subst. now left.
    + right. split; [exact H|]. reflexivity.
Qed.

Lemma first_seen_NoDup l : NoDup (first_seen l).
Proof.
  induction l as [|x l IH]; simpl; constructor.
  - rewrite filter_In. intros [_ H]. now rewrite str_eqb_refl in H.
  - now apply NoDup_filter.
Qed.

Lemma unique_is_first_seen l :
  Extractor.unique_from [] l = first_seen l.
Proof.
  rewrite unique_from_first_seen. apply forallb_filter_id.
  apply forallb_forall. reflexivity.
Qed.

(** *** [list(set(xs))] *)

Lemma set_list_from_spec xs :
  forall seen,
    NoDup (Detector.set_list_from str_eqb seen xs)
    /\ forall x, In x (Detector.set_list_from str_eqb seen xs) ->
                 ~ In x seen.
Proof.
  induction xs as [|y xs IH]; intros seen; simpl.
  - split; [constructor|tauto].
  - destruct (existsb (str_eqb y) seen) eqn:E; [apply IH|].
    destruct (IH (y :: seen)) as [N D]. split.
    + constructor; [|exact N]. intros H. apply D in H. apply H. now left.
    + intros x [->|H]; [now apply not_existsb_str_eqb|].
      apply D in H. intros Hx. apply H. now right.
Qed.

Lemma set_list_NoDup xs : NoDup (Detector.set_list str_eqb xs).
Proof. apply set_list_from_spec. Qed.

(** *** The order of strings *)

Lemma str_ltb_irrefl a : str_ltb a a = false.
Proof.
  induction a as [|x a IH]; simpl; [reflexivity|].
  rewrite N.ltb_irrefl, N.eqb_refl. exact IH.
Qed.

Lemma str_ltb_total a : forall b,
  str_ltb a b = true \/ a = b \/ str_ltb b a = true.
Proof.
  induction a as [|x a IH]; intros [|y b]; simpl; auto.
  destruct (N.lt_trichotomy x y) as [L|[->|L]].
  - left. apply N.ltb_lt in L. now rewrite L.
  - rewrite N.ltb_irrefl, N.eqb_refl. simpl.
    destruct (IH b) as [H|[->|H]]; auto.
  - right. right. apply N.ltb_lt in L. now rewrite L.
Qed.

Lemma str_ltb_asym a : forall b,
  str_ltb a b = true -> str_ltb b a = false.
Proof.
  induction a as [|x a IH]; intros [|y b]; simpl; try discriminate;
    try reflexivity.
  intros H. apply orb_true_iff in H as [H|H].
  - apply N.ltb_lt in H.
    assert (N.ltb y x = false) as -> by (apply N.ltb_ge; lia).
    assert (N.eqb y x = false) as -> by (apply N.eqb_neq; lia).
    reflexivity.
  - apply andb_true_iff in H as [E H]. apply N.eqb_eq in E. subst y.
    rewrite N.ltb_irrefl, N.eqb_refl. simpl. now apply IH.
Qed.

Lemma insert_sorted_weak x l :
  weakly_ascending l = true ->
  weakly_ascending (Detector.insert_sorted x l) = true.
Proof.
  induction l as [|y l IH]; intros H; [reflexivity|].
  cbn [Detector.insert_sorted].
  destruct (str_leb x y) eqn:E.
  - cbn [weakly_ascending]. now rewrite E.
  - assert (Eyx : str_leb y x = true).
    { unfold str_leb in *. apply negb_false_iff in E.
      now rewrite (str_ltb_asym _ _ E). }
    destruct l as [|z l].
    + cbn. now rewrite Eyx.
    + cbn [weakly_ascending] in H. apply andb_true_iff in H as [Hyz H].
      specialize (IH H). cbn [Detector.insert_sorted] in *.
      destruct (str_leb x z).
      * cbn [weakly_ascending] in *. now rewrite Eyx, IH.
      * cbn [weakly_ascending] in *. now rewrite Hyz, IH.
Qed.

Lemma insert_sorted_In x l y :
  In y (Detector.insert_sorted x l) <-> y = x \/ In y l.
Proof.
  induction l as [|z l IH]; simpl; [intuition|].
  destruct (str_leb x z); simpl; [intuition|].
  rewrite IH. intuition.
Qed.

Lemma insert_sorted_NoDup x l :
  ~ In x l -> NoDup l -> NoDup (Detector.insert_sorted x l).
Proof.
  induction l as [|z l IH]; intros Hx N; simpl.
  - constructor; [tauto|constructor].
  - destruct (str_leb x z); [now constructor|].
    inversion N as [|? ? Hz N']; subst. constructor.
    + rewrite insert_sorted_In. intros [->|H]; [|contradiction].
      apply Hx. now left.
    + apply IH; [|exact N']. intros H. apply Hx. now right.
Qed.

Lemma sorted_In l y : In y (Detector.sorted l) <-> In y l.
Proof.
  induction l as [|x l IH]; simpl; [tauto|].
  rewrite insert_sorted_In, IH. intuition.
Qed.

Lemma sorted_NoDup l : NoDup l -> NoDup (Detector.sorted l).
Proof.
  induction 1 as [|x l Hx N IH]; simpl; [constructor|].
  apply insert_sorted_NoDup; [|exact IH]. now rewrite sorted_In.
Qed.

Lemma sorted_weak l : weakly_ascending (Detector.sorted l) = true.
Proof.
  induction l as [|x l IH]; [reflexivity|].
  simpl. now apply insert_sorted_weak.
Qed.

Lemma strict_of_weak l :
  NoDup l -> weakly_ascending l = true -> ascending l = true.
Proof.
  induction l as [|x [|y l] IH]; intros N W; try reflexivity.
  cbn [weakly_ascending ascending] in *.
  apply andb_true_iff in W as [Wxy W].
  inversion N as [|? ? Hx N']; subst.
  rewrite (IH N' W), andb_true_r.
  unfold str_leb in Wxy. apply negb_true_iff in Wxy.
  destruct (str_ltb_total x y) as [H|[->|H]]; [exact H| |congruence].
  exfalso. apply Hx. now left.
Qed.

(** [sorted(list(set(xs)))] has no duplicate and is strictly
    ascending. *)
Lemma sorted_set xs :
  let r := Detector.sorted (Detector.set_list str_eqb xs) in
  NoDup r /\ ascending r = true /\ forall x, In x r -> In x xs.
Proof.
  intros r. assert (N : NoDup r) by apply sorted_NoDup, set_list_NoDup.
  split; [exact N|]. split.
  - apply strict_of_weak; [exact N|apply sorted_weak].
  - intros x H. unfold r in H. apply (proj1 (sorted_In _ _)) in H.
    eapply KeyFacts.set_list_from_incl. exact H.
Qed.
End DedupFacts.

(** C5 (as stated, refuted): [extract_citations] of the detector lists
    two citations in alphabetical order, not in the order of their first
    occurrence among the collected matches. *)
Lemma C5_sorted_not_first_seen_counterexample :
  option_map Detector.en_texto
    (Detector.extract_citations Detector.builtin Extraction.zed_abe)
  = Some [lit "(Abe, 2019)"; lit "(Zed, 2020)"]
  /\ Extraction.first_seen
       (Detector.all_matches
          (Detector.get_list (lit "APA") Detector.builtin_in_text)
          Extraction.zed_abe)
     = [lit "(Zed, 2020)"; lit "(Abe, 2019)"].
Proof. split; vm_compute; reflexivity. Qed.

(** C5 (amended): the loop that closes [extract_in_text_citations] keeps,
    of any list of collected citations, one copy of each string, at the
    place of its first occurrence; the two lists returned by the
    detector's [extract_citations] have no duplicates either, but are
    sorted in ascending order.  (Nothing is said of
    [extract_bibliography_citations], which drops no duplicate.) *)
Theorem C5_deduplicated_lists :
  (forall citations,
     let unique_citations := Extractor.unique_from [] citations in
     NoDup unique_citations
     /\ unique_citations = Extraction.first_seen citations
     /\ forall x, In x unique_citations <-> In x citations)
  /\ (forall self text res,
        Detector.extract_citations self text = Some res ->
        NoDup (Detector.en_texto res)
        /\ Extraction.ascending (Detector.en_texto res) = true
        /\ NoDup (Detector.bibliograficas res)
        /\ Extraction.ascending (Detector.bibliograficas res) = true).
Proof.
  split.
  - intros citations unique_citations. unfold unique_citations.
    rewrite DedupFacts.unique_is_first_seen.
    split; [apply DedupFacts.first_seen_NoDup|].
    split; [reflexivity|]. intros x. apply DedupFacts.first_seen_In.
  - intros self text res H. unfold Detector.extract_citations in H.
    destruct (Detector.identify_primary_style self text) as [[s c]|];
      [|discriminate].
    cbn [Detector.bind fst] in H.
    destruct (str_eqb s Detector.NONE).
    + injection H as <-. simpl. repeat split; constructor.
    + injection H as <-. cbn [Detector.en_texto Detector.bibliograficas].
      repeat split; apply DedupFacts.sorted_set.
Qed.

Lemma C5_deduplicated_lists_witness :
  exists res,
    Detector.extract_citations Detector.builtin Extraction.zed_abe = Some res
    /\ NoDup (Detector.en_texto res)
    /\ Extraction.ascending (Detector.en_texto res) = true
    /\ NoDup (Detector.bibliograficas res)
    /\ Extraction.ascending (Detector.bibliograficas res) = true.
Proof.
  eexists. split; [vm_compute; reflexivity|].
  apply (proj2 C5_deduplicated_lists Detector.builtin Extraction.zed_abe).
  vm_compute. reflexivity.
Defined.

(** ** The validity filter of bibliography entries *)

Module FilterFacts.
Import Extractor Extraction MatcherFacts.

(** A successful search is a successful attempt somewhere in the
    text. *)
Lemma scan_found f r after :
  forall pos before ma m,
    scan f r pos before after ma = Some m ->
    exists b a ma',
      rev b ++ a = rev before ++ after
      /\ match_here f r b a ma' = Some (m_end m).
Proof.
  induction after as [|c tl IH]; intros pos before ma m H; simpl in H.
  - destruct (match_here f r before [] ma) as [st|] eqn:E; [|discriminate].
    injection H as <-. now exists before, [], ma.
  - destruct (match_here f r before (c :: tl) ma) as [st|] eqn:E.
    + injection H as <-. now exists before, (c :: tl), ma.
    + apply IH in H as [b [a [ma' [Eq M]]]]. exists b, a, ma'.
      split; [|exact M]. rewrite Eq. simpl. now rewrite <- app_assoc.
Qed.

Lemma search_found f r text m :
  re_search f r text = Some m ->
  exists b a ma', rev b ++ a = text /\ match_here f r b a ma' = Some (m_end m).
Proof. intros H. apply scan_found in H. exact H. Qed.







End FilterFacts.




(** * Further properties *)

(** ** Where a match lies in the text *)

Module TextFacts.
Import Notions MatcherFacts.

Section Invariant.
Variable f : flags.
Variable R : mstate -> mstate -> Prop.
Hypothesis R_refl : forall st, R st st.
Hypothesis R_trans : forall a b c, R a b -> R b c -> R a c.
Hypothesis R_advance :
  forall st c tl, rest st = c :: tl -> R st (advance st c tl).
Hypothesis R_caps :
  forall st st1 cs,
    R st st1 ->
    R st {| pre := pre st1; rest := rest st1; caps := cs |}.

Lemma star_loop_reaches body greedy k n :
  (forall st0 k0 res0,
     body st0 k0 = Some res0 ->
     exists st1, k0 st1 = Some res0 /\ R st0 st1) ->
  forall st res,
    star_loop body greedy k n st = Some res ->
    exists st1, k st1 = Some res /\ R st st1.
Proof.
  intros Hb. induction n as [|n IH]; intros st res H; cbn [star_loop] in H.
  - exists st; auto.
  - assert (Hagain : forall r0,
              body st
                (fun st1 =>
                   if Nat.ltb (length (rest st1)) (length (rest st))
                   then star_loop body greedy k n st1 else None)
              = Some r0 ->
              exists st1, k st1 = Some r0 /\ R st st1).
    { intros r0 H0. apply Hb in H0. destruct H0 as (st1 & H1 & HR).
      destruct (Nat.ltb (length (rest st1)) (length (rest st)));
        [|discriminate].
      apply IH in H1. destruct H1 as (st2 & H2 & HR2).
      exists st2; split; eauto. }
    destruct greedy; apply orelse_some in H; destruct H as [H|H]; eauto.
Qed.

Lemma rmatch_reaches r :
  forall st k res,
    rmatch f r st k = Some res ->
    exists st1, k st1 = Some res /\ R st st1.
Proof.
  induction r as [| p | | neg items | | | r1 IH1 r2 IH2 | r1 IH1 r2 IH2
                 | greedy r1 IH1 | id r1 IH1];
    intros st k res H; cbn [rmatch] in H.
  - exists st; auto.
  - destruct (rest st) as [|c tl] eqn:E; [discriminate|].
    destruct (lit_match f p c); [|discriminate].
    exists (advance st c tl); auto.
  - destruct (rest st) as [|c tl] eqn:E; [discriminate|].
    destruct (N.eqb c NL); [discriminate|].
    exists (advance st c tl); auto.
  - destruct (rest st) as [|c tl] eqn:E; [discriminate|].
    destruct (cls_match f neg items c); [|discriminate].
    exists (advance st c tl); auto.
  - destruct (at_bol f st); [|discriminate]. exists st; auto.
  - destruct (at_eol f st); [|discriminate]. exists st; auto.
  - apply IH1 in H. destruct H as (st1 & H1 & HR1).
    apply IH2 in H1. destruct H1 as (st2 & H2 & HR2).
    exists st2; split; eauto.
  - apply orelse_some in H. destruct H as [H|H]; eauto.
  - eapply star_loop_reaches; [|exact H].
    intros st0 k0 res0 H0. eapply IH1; eauto.
  - apply IH1 in H. destruct H as (st1 & H1 & HR1).
    eexists; split; [exact H1|]. apply R_caps; assumption.
Qed.
End Invariant.

Lemma moved_refl st : moved st st.
Proof. exists []. split; reflexivity. Qed.

Lemma moved_trans a b c : moved a b -> moved b c -> moved a c.
Proof.
  intros (w1 & R1 & P1) (w2 & R2 & P2). exists (w1 ++ w2). split.
  - rewrite R1, R2, app_assoc. reflexivity.
  - rewrite P2, P1, rev_app_distr, app_assoc. reflexivity.
Qed.

Lemma moved_advance st c tl : rest st = c :: tl -> moved st (advance st c tl).
Proof. intros E. exists [c]. split; [exact E|reflexivity]. Qed.

Lemma moved_caps st st1 cs :
  moved st st1 ->
  moved st {| pre := pre st1; rest := rest st1; caps := cs |}.
Proof. intros (w & R1 & P1). exists w. split; assumption. Qed.

Lemma rmatch_moved f r st k res :
  rmatch f r st k = Some res ->
  exists st1, k st1 = Some res /\ moved st st1.
Proof.
  apply rmatch_reaches.
  - exact moved_refl.
  - exact moved_trans.
  - exact moved_advance.
  - exact moved_caps.
Qed.

Lemma consumed_moved w st st1 : moved_over w st st1 -> consumed st st1 = w.
Proof.
  intros (R1 & _). unfold consumed. rewrite R1, length_app.
  replace (length w + length (rest st1) - length (rest st1))
    with (length w + 0) by lia.
  rewrite firstn_app_2, firstn_O, app_nil_r. reflexivity.
Qed.

Lemma match_here_moved f r before after ma st1 :
  match_here f r before after ma = Some st1 ->
  moved {| pre := before; rest := after; caps := [] |} st1.
Proof.
  unfold match_here. intros H. apply rmatch_moved in H.
  destruct H as (st' & H & M).
  destruct (ma && Nat.eqb (length (rest st')) (length after));
    [discriminate|].
  injection H as <-. exact M.
Qed.

(** A match found by the scan: the text is what lies before the match,
    the match and the rest; the cursor of the match stands behind
    it. *)
Lemma scan_parts f r after :
  forall pos before ma m,
    scan f r pos before after ma = Some m ->
    exists b,
      rev before ++ after = rev b ++ m_text m ++ rest (m_end m)
      /\ pre (m_end m) = rev (m_text m) ++ b.
Proof.
  induction after as [|c tl IH]; intros pos before ma m H;
    cbn [scan] in H.
  - destruct (match_here f r before [] ma) as [st1|] eqn:E;
      [|discriminate].
    injection H as <-. cbn [m_text m_end].
    apply match_here_moved in E. destruct E as (w & M).
    rewrite (consumed_moved M). destruct M as (R1 & P1).
    cbn [rest pre] in R1, P1. exists before. rewrite <- R1. auto.
  - destruct (match_here f r before (c :: tl) ma) as [st1|] eqn:E.
    + injection H as <-. cbn [m_text m_end].
      apply match_here_moved in E. destruct E as (w & M).
      rewrite (consumed_moved M). destruct M as (R1 & P1).
      cbn [rest pre] in R1, P1. exists before. rewrite <- R1. auto.
    + apply IH in H. destruct H as (b & H1 & H2). exists b.
      split; [|exact H2]. rewrite <- H1. cbn [rev].
      rewrite <- app_assoc. reflexivity.
Qed.

Lemma scan_all_occur f r fuel :
  forall pos before after ma text,
    rev before ++ after = text ->
    Forall (fun m => occurs_in (m_text m) text)
      (scan_all f fuel r pos before after ma).
Proof.
  induction fuel as [|fuel IH]; intros pos before after ma text E;
    cbn [scan_all]; [constructor|].
  destruct (scan f r pos before after ma) as [m|] eqn:S; [|constructor].
  apply scan_parts in S. destruct S as (b & H1 & H2).
  constructor.
  - exists (rev b), (rest (m_end m)). rewrite <- E. exact H1.
  - apply IH. rewrite H2, rev_app_distr, rev_involutive, <- app_assoc.
    rewrite <- E. symmetry. exact H1.
Qed.

Lemma finditer_occur f r text :
  Forall (fun m => occurs_in (m_text m) text) (re_finditer f r text).
Proof. apply scan_all_occur. reflexivity. Qed.

Lemma skipn_suffix n (text : pystr) : suffix_of (skipn n text) text.
Proof. exists (firstn n text). symmetry. apply firstn_skipn. Qed.

(** *** [split] and [join] *)

Lemma split_char_nonempty sep s : split_char sep s <> [].
Proof.
  destruct s as [|c s]; cbn [split_char]; [discriminate|].
  destruct (N.eqb c sep); [discriminate|].
  destruct (split_char sep s); discriminate.
Qed.

Lemma join_cons sep p ps :
  ps <> [] -> join sep (p :: ps) = p ++ sep ++ join sep ps.
Proof. destruct ps; [congruence|reflexivity]. Qed.

Lemma join_split sep s : join [sep] (split_char sep s) = s.
Proof.
  induction s as [|c s IH]; [reflexivity|]. cbn [split_char].
  destruct (N.eqb c sep) eqn:E.
  - apply N.eqb_eq in E. subst c.
    rewrite join_cons by apply split_char_nonempty.
    rewrite IH. reflexivity.
  - pose proof (split_char_nonempty sep s) as NE.
    destruct (split_char sep s) as [|p ps]; [congruence|].
    rewrite <- IH. destruct ps; reflexivity.
Qed.

Lemma join_skipn_suffix sep (parts : list pystr) :
  forall k, suffix_of (join sep (skipn k parts)) (join sep parts).
Proof.
  induction parts as [|p ps IH]; intros k.
  - rewrite skipn_nil. exists []. reflexivity.
  - destruct k as [|k]; [exists []; reflexivity|]. cbn [skipn].
    destruct (IH k) as (b & E). destruct ps as [|q ps'].
    + rewrite skipn_nil. exists p. cbn [join]. rewrite app_nil_r.
      reflexivity.
    + rewrite join_cons by discriminate. rewrite E.
      exists (p ++ sep ++ b). rewrite <- !app_assoc. reflexivity.
Qed.

Lemma lines_suffix k (text : pystr) :
  suffix_of (join [NL] (skipn k (split_char NL text))) text.
Proof.
  pose proof (join_skipn_suffix [NL] (split_char NL text) k) as H.
  rewrite join_split in H. exact H.
Qed.

End TextFacts.

(** ** The texts returned by the detector *)

Module SectionFacts.
Import Detector Notions TextFacts.

Lemma from_header_suffix text hs section :
  from_header text hs = Some section -> suffix_of section text.
Proof.
  induction hs as [|h hs IH]; cbn [from_header]; [discriminate|].
  destruct (re_search IGNORECASE (header_line_re h) text); [|exact IH].
  intros H. injection H as <-. apply skipn_suffix.
Qed.

Lemma from_last_reference_suffix ps hs text i section :
  from_last_reference ps hs (split_char NL text) i = Some section ->
  suffix_of section text.
Proof.
  induction i as [|i IH]; cbn [from_last_reference]; [discriminate|].
  destruct (existsb _ ps); [|exact IH].
  intros H. injection H as <-. apply lines_suffix.
Qed.

Lemma section_suffix self text style :
  suffix_of (_find_bibliography_section self text style) text.
Proof.
  unfold _find_bibliography_section.
  destruct (from_header text (get_list style headers)) as [s|] eqn:E.
  - eapply from_header_suffix; eassumption.
  - destruct (from_last_reference _ _ _ _) as [s|] eqn:E2.
    + eapply from_last_reference_suffix; eassumption.
    + exists text. symmetry. apply app_nil_r.
Qed.

Lemma all_matches_occur ps text c :
  In c (all_matches ps text) -> occurs_in c text.
Proof.
  unfold all_matches. intros H. apply in_flat_map in H.
  destruct H as (p & _ & H). apply in_map_iff in H.
  destruct H as (m & <- & H).
  pose proof (finditer_occur MULTILINE p text) as F.
  rewrite Forall_forall in F. apply F. exact H.
Qed.

End SectionFacts.

(** X1: every in-text citation that [extract_citations] of the detector
    returns is a contiguous part of the text it was given. *)
Theorem detector_in_text_citations_occur
  (self : Detector.catalog) (text : pystr) (res : Detector.citations)
  (c : pystr) :
  Detector.extract_citations self text = Some res ->
  In c (Detector.en_texto res) ->
  Notions.occurs_in c text.
Proof.
  unfold Detector.extract_citations. intros H Hc.
  destruct (Detector.identify_primary_style self text) as [r|];
    [|discriminate].
  cbn [Detector.bind] in H.
  destruct (str_eqb (fst r) Detector.NONE).
  - injection H as <-. destruct Hc.
  - injection H as <-. cbn [Detector.en_texto] in Hc.
    apply (proj1 (DedupFacts.sorted_In _ _)) in Hc.
    apply KeyFacts.set_list_from_incl in Hc.
    destruct (mem (fst r) (Detector.in_text_patterns self)); [|destruct Hc].
    eapply SectionFacts.all_matches_occur. exact Hc.
Qed.

Lemma detector_in_text_citations_occur_witness :
  Notions.occurs_in (lit "(Abe, 2019)") Extraction.zed_abe.
Proof.
  apply (@detector_in_text_citations_occur Detector.builtin
           Extraction.zed_abe
           {| Detector.en_texto := [lit "(Abe, 2019)"; lit "(Zed, 2020)"];
              Detector.bibliograficas := [] |}).
  - vm_compute. reflexivity.
  - left. reflexivity.
Defined.

(** X2: the bibliography section that the detector cuts out of a text,
    whatever the style and the pattern tables, is the text from some
    position to its end (the empty string when nothing is found). *)
Theorem bibliography_section_is_suffix
  (self : Detector.catalog) (text style : pystr) :
  Notions.suffix_of (Detector._find_bibliography_section self text style)
    text.
Proof. apply SectionFacts.section_suffix. Qed.

(** ** The extractor: what its lists hold *)

Module ExtractorFacts.
Import Extractor Notions TextFacts.

Lemma cls_digit c :
  cls_match no_flags false [CDigit] c = true -> is_digit c = true.
Proof.
  unfold cls_match, cls_mem. cbn [ic no_flags existsb citem_mem xorb].
  rewrite orb_false_r. auto.
Qed.

Lemma year_here b a ma st :
  match_here no_flags year4 b a ma = Some st ->
  exists y tl, a = y ++ tl /\ four_digits y.
Proof.
  unfold match_here, year4, rep4, seqs, dg.
  cbn [fold_right rmatch rest advance]. intros H.
  destruct a as [|d1 a]; [discriminate|].
  destruct (cls_match no_flags false [CDigit] d1) eqn:D1; [|discriminate].
  destruct a as [|d2 a]; [discriminate|].
  destruct (cls_match no_flags false [CDigit] d2) eqn:D2; [|discriminate].
  destruct a as [|d3 a]; [discriminate|].
  destruct (cls_match no_flags false [CDigit] d3) eqn:D3; [|discriminate].
  destruct a as [|d4 a]; [discriminate|].
  destruct (cls_match no_flags false [CDigit] d4) eqn:D4; [|discriminate].
  exists [d1; d2; d3; d4], a. split; [reflexivity|].
  split; [reflexivity|]. cbn [forallb].
  rewrite (cls_digit _ D1), (cls_digit _ D2), (cls_digit _ D3),
    (cls_digit _ D4). reflexivity.
Qed.

Lemma found_year c : found no_flags year4 c = true -> has_year c.
Proof.
  unfold found. destruct (re_search no_flags year4 c) as [m|] eqn:E;
    [|discriminate].
  intros _. apply FilterFacts.search_found in E.
  destruct E as (b & a & ma' & E1 & E2). apply year_here in E2.
  destruct E2 as (y & tl & -> & Y). exists (rev b), y, tl. auto.
Qed.

Lemma digit_here b a ma st :
  match_here no_flags (plus dg) b a ma = Some st ->
  exists d tl, a = d :: tl /\ is_digit d = true.
Proof.
  unfold match_here, plus, dg. cbn [rmatch rest]. intros H.
  destruct a as [|d tl]; [discriminate|].
  destruct (cls_match no_flags false [CDigit] d) eqn:D; [|discriminate].
  exists d, tl. split; [reflexivity|apply cls_digit, D].
Qed.

Lemma found_digit c : found no_flags (plus dg) c = true -> has_digit c.
Proof.
  unfold found. destruct (re_search no_flags (plus dg) c) as [m|] eqn:E;
    [|discriminate].
  intros _. apply FilterFacts.search_found in E.
  destruct E as (b & a & ma' & E1 & E2). apply digit_here in E2.
  destruct E2 as (d & tl & -> & D). exists (rev b), d, tl. auto.
Qed.

Lemma valid_in_text c style :
  _is_valid_citation c style in_text = true ->
  3 <= length c <= 100
  /\ (In style [APA; CHICAGO; CHICAGO_AUTHOR_DATE] ->
      found no_flags year4 c = true
      /\ (startswith (lit "(") c = true -> endswith (lit ")") c = true))
  /\ (In style [IEEE; VANCOUVER] -> found no_flags (plus dg) c = true)
  /\ (style = MLA ->
      has_char 40 c = true -> has_char 41 c = true ->
      found no_flags (plus dg) c = true).
Proof.
  unfold _is_valid_citation.
  destruct (Nat.ltb (length c) 3) eqn:L3; [discriminate|].
  rewrite str_eqb_refl. apply Nat.ltb_ge in L3.
  assert (P : forall y,
             (negb y
              || (startswith (lit "(") c && negb (endswith (lit ")") c)))
             = false ->
             y = true
             /\ (startswith (lit "(") c = true ->
                 endswith (lit ")") c = true)).
  { intros y H. apply orb_false_iff in H. destruct H as [H1 H2].
    apply negb_false_iff in H1. split; [exact H1|]. intros S.
    rewrite S in H2. cbn [andb] in H2. apply negb_false_iff in H2.
    exact H2. }
  destruct (str_eqb style APA) eqn:EA.
  - destruct (negb (found no_flags year4 c)
              || (startswith (lit "(") c && negb (endswith (lit ")") c)))
      eqn:B; [discriminate|].
    intros H. apply negb_true_iff, Nat.ltb_ge in H.
    apply str_eqb_eq in EA. subst style.
    split; [lia|]. split; [intros _; apply P, B|].
    split; [intros [H'|[H'|[]]]; discriminate H'|discriminate].
  - destruct (str_eqb style MLA) eqn:EM.
    + destruct (has_char 40 c && has_char 41 c
                && negb (found no_flags (plus dg) c)) eqn:B;
        [discriminate|].
      intros H. apply negb_true_iff, Nat.ltb_ge in H.
      apply str_eqb_eq in EM. subst style.
      split; [lia|].
      split; [intros [H'|[H'|[H'|[]]]]; discriminate H'|].
      split; [intros [H'|[H'|[]]]; discriminate H'|].
      intros _ O C. rewrite O, C in B. cbn [andb] in B.
      apply negb_false_iff in B. exact B.
    + destruct (str_eqb style CHICAGO_AUTHOR_DATE || str_eqb style CHICAGO)
        eqn:EC.
      * destruct (negb (found no_flags year4 c)
                  || (startswith (lit "(") c
                      && negb (endswith (lit ")") c)))
          eqn:B; [discriminate|].
        intros H. apply negb_true_iff, Nat.ltb_ge in H.
        split; [lia|]. split; [intros _; apply P, B|].
        apply orb_true_iff in EC.
        split.
        -- intros [<-|[<-|[]]]; destruct EC as [EC|EC];
             discriminate EC.
        -- intros ->. discriminate EM.
      * apply orb_false_iff in EC. destruct EC as [E1 E2].
        assert (NY : In style [APA; CHICAGO; CHICAGO_AUTHOR_DATE] -> False).
        { intros [<-|[<-|[<-|[]]]]; rewrite str_eqb_refl in *;
            discriminate. }
        assert (NM : style <> MLA).
        { intros ->. rewrite str_eqb_refl in EM. discriminate. }
        destruct (str_eqb style IEEE || str_eqb style VANCOUVER) eqn:EI.
        -- destruct (found no_flags (plus dg) c) eqn:B;
             [|discriminate].
           cbn [negb]. intros H. apply negb_true_iff, Nat.ltb_ge in H.
           split; [lia|]. split; [intros S; destruct (NY S)|].
           split; [reflexivity|]. intros S. destruct (NM S).
        -- intros H. apply negb_true_iff, Nat.ltb_ge in H.
           split; [lia|]. split; [intros S; destruct (NY S)|].
           split.
           ++ apply orb_false_iff in EI. destruct EI as [I1 I2].
              intros [<-|[<-|[]]]; rewrite str_eqb_refl in *;
                discriminate.
           ++ intros S. destruct (NM S).
Qed.

(** *** [strip] *)

Lemma lstrip_idem s : lstrip (lstrip s) = lstrip s.
Proof.
  destruct (MatchFacts.lstrip_head s) as [E|(c & t & E & S)];
    rewrite E; [reflexivity|].
  cbn [lstrip]. rewrite S. reflexivity.
Qed.

Lemma strip_idem s : strip (strip s) = strip s.
Proof.
  unfold strip at 1. rewrite MatchFacts.lstrip_strip.
  unfold strip, rstrip. rewrite rev_involutive, lstrip_idem.
  reflexivity.
Qed.

Lemma trimmed_strip s :
  Detector.nonempty (strip s) = true -> trimmed (strip s).
Proof.
  intros H. split; [|apply strip_idem].
  intros E. rewrite E in H. discriminate.
Qed.

(** A style that the header table does not list is none of the styles
    that [_split_bibliography_entries] tests for. *)
Lemma other_style style :
  mem style bibliography_headers = false ->
  Detector.get_list style bibliography_headers = []
  /\ str_eqb style APA = false /\ str_eqb style MLA = false
  /\ str_eqb style CHICAGO = false /\ str_eqb style HARVARD = false
  /\ str_eqb style IEEE = false /\ str_eqb style VANCOUVER = false
  /\ str_eqb style CSE = false.
Proof.
  unfold Detector.get_list, mem, bibliography_headers. cbn [get].
  destruct (str_eqb style APA); [discriminate|].
  destruct (str_eqb style MLA); [discriminate|].
  destruct (str_eqb style CHICAGO); [discriminate|].
  destruct (str_eqb style HARVARD); [discriminate|].
  destruct (str_eqb style IEEE); [discriminate|].
  destruct (str_eqb style VANCOUVER); [discriminate|].
  destruct (str_eqb style CSE); [discriminate|].
  intros _. repeat split.
Qed.

Lemma split_other_style bib_section style :
  mem style bibliography_headers = false ->
  _split_bibliography_entries bib_section style
  = Some (filter (fun e => Detector.nonempty e)
            (map strip (re_split no_flags blank_line_re bib_section))).
Proof.
  intros M. destruct (other_style style M)
    as (E & E1 & E2 & E3 & E4 & E5 & E6 & E7).
  unfold _split_bibliography_entries.
  rewrite E, E1, E2, E3, E4, E5, E6, E7. reflexivity.
Qed.

Lemma generic_entries_trimmed bib_section :
  Forall trimmed
    (filter (fun e => Detector.nonempty e)
       (map strip (re_split no_flags blank_line_re bib_section))).
Proof.
  apply Forall_forall. intros e H. apply filter_In in H.
  destruct H as [H N]. apply in_map_iff in H. destruct H as (x & <- & _).
  apply trimmed_strip, N.
Qed.

Lemma map_strip_trimmed l : Forall trimmed l -> map strip l = l.
Proof.
  induction 1 as [|x l [_ E] _ IH]; [reflexivity|].
  cbn [map]. rewrite E, IH. reflexivity.
Qed.

(** *** The keys of the score table *)

Lemma keys_set (V : Type) k (v : V) d x :
  In x (keys (set k v d)) -> x = k \/ In x (keys d).
Proof.
  induction d as [|[k' v'] d IH]; cbn [set keys map fst].
  - intros [<-|[]]. left. reflexivity.
  - destruct (str_eqb k k'); cbn [map fst].
    + intros H. right. exact H.
    + intros [<-|H]; [right; left; reflexivity|].
      destruct (IH H) as [E|E]; [left|right; right]; exact E.
Qed.

Lemma keys_remove (V : Type) k (d : odict V) x :
  wf d = true ->
  In x (keys (remove k d)) -> In x (keys d) /\ x <> k.
Proof.
  induction d as [|[k' v'] d IH]; [intros _ []|].
  unfold wf. cbn [keys map fst distinct]. intros W.
  apply andb_true_iff in W. destruct W as [W1 W2].
  apply negb_true_iff, DedupFacts.not_existsb_str_eqb in W1.
  cbn [remove]. destruct (str_eqb k k') eqn:E.
  - apply str_eqb_eq in E. subst k'. intros H. split; [right; exact H|].
    intros ->. exact (W1 H).
  - cbn [keys map fst]. intros [<-|H].
    + split; [left; reflexivity|]. intros ->.
      rewrite str_eqb_refl in E. discriminate.
    + destruct (IH W2 H). split; [right|]; assumption.
Qed.

Lemma wf_remove (V : Type) k (d : odict V) :
  wf d = true -> wf (remove k d) = true.
Proof.
  induction d as [|[k' v'] d IH]; [reflexivity|].
  unfold wf in *. cbn [remove keys map fst distinct]. intros W.
  apply andb_true_iff in W. destruct W as [W1 W2].
  destruct (str_eqb k k') eqn:E; [exact W2|].
  cbn [keys map fst distinct]. apply andb_true_iff.
  split; [|exact (IH W2)].
  apply negb_true_iff, DedupFacts.not_existsb_str_eqb.
  apply negb_true_iff, DedupFacts.not_existsb_str_eqb in W1.
  intros H. apply W1.
  destruct (@keys_remove V k d k' W2 H). assumption.
Qed.

Lemma wf_dd_add k n d : wf d = true -> wf (dd_add k n d) = true.
Proof. apply wf_set. Qed.

Lemma keys_dd_add k n d x :
  In x (keys (dd_add k n d)) -> x = k \/ In x (keys d).
Proof. apply keys_set. Qed.

Section Scores.
Variable A : Type.
Variable step : pystr -> odict nat -> A -> odict nat.
Hypothesis step_wf : forall k c a, wf c = true -> wf (step k c a) = true.
Hypothesis step_keys :
  forall k c a x, In x (keys (step k c a)) -> x = k \/ In x (keys c).

Lemma inner_fold k (l : list A) :
  forall c,
    wf c = true ->
    wf (fold_left (step k) l c) = true
    /\ forall x, In x (keys (fold_left (step k) l c)) ->
                 x = k \/ In x (keys c).
Proof.
  induction l as [|a l IH]; intros c W; cbn [fold_left]; [auto|].
  destruct (IH (step k c a) (step_wf k c a W)) as [W' K]. split; [exact W'|].
  intros x H. destruct (K x H) as [->|H']; [auto|].
  apply step_keys in H'. exact H'.
Qed.

Lemma outer_fold (items : odict (list A)) :
  forall counts,
    wf counts = true ->
    let r :=
      fold_left
        (fun counts kv => fold_left (step (fst kv)) (snd kv) counts)
        items counts in
    wf r = true
    /\ forall x, In x (keys r) -> In x (keys items) \/ In x (keys counts).
Proof.
  induction items as [|[k l] items IH]; intros counts W;
    cbn [fold_left fst snd]; [auto|].
  destruct (@inner_fold k l counts W) as [W1 K1].
  destruct (IH _ W1) as [W2 K2]. split; [exact W2|].
  intros x H. destruct (K2 x H) as [H'|H'].
  - left. right. exact H'.
  - destruct (K1 x H') as [->|H'']; [left; left; reflexivity|auto].
Qed.
End Scores.

Lemma header_styles :
  keys bibliography_headers
  = [APA; MLA; CHICAGO; HARVARD; IEEE; VANCOUVER; CSE].
Proof. reflexivity. Qed.

Lemma in_text_styles :
  keys in_text_patterns
  = [APA; MLA; CHICAGO_AUTHOR_DATE; CHICAGO_NOTES; HARVARD; IEEE;
     VANCOUVER; CSE].
Proof. reflexivity. Qed.

Lemma score_headers_keys text :
  wf (score_headers text []) = true
  /\ forall x, In x (keys (score_headers text [])) ->
               In x (keys bibliography_headers).
Proof.
  pose proof
    (@outer_fold pystr
       (fun k c header =>
          if found IGNORECASE_MULTILINE (header_re header) text
          then dd_add k 5 c else c)) as F.
  destruct (F (fun k c a W =>
                 match found IGNORECASE_MULTILINE (header_re a) text
                       as b
                       return wf (if b then dd_add k 5 c else c) = true
                 with
                 | true => wf_dd_add k 5 c W
                 | false => W
                 end)
              (fun k c a x =>
                 match found IGNORECASE_MULTILINE (header_re a) text
                       as b
                       return In x (keys (if b then dd_add k 5 c else c)) ->
                              x = k \/ In x (keys c)
                 with
                 | true => @keys_dd_add k 5 c x
                 | false => fun H => or_intror H
                 end)
              bibliography_headers [] eq_refl) as [W K].
  split; [exact W|]. intros x H. destruct (K x H) as [H'|[]]. exact H'.
Qed.

Lemma score_in_text_keys text counts :
  wf counts = true ->
  wf (score_in_text text counts) = true
  /\ forall x, In x (keys (score_in_text text counts)) ->
               In x (keys in_text_patterns) \/ In x (keys counts).
Proof.
  intros W.
  exact (@outer_fold regex
           (fun k c pattern =>
              dd_add k (findall_count no_flags pattern text) c)
           (fun k c a => @wf_dd_add k _ c)
           (fun k c a x => @keys_dd_add k _ c x)
           in_text_patterns counts W).
Qed.

Lemma merge_chicago_keys d x :
  wf d = true ->
  In x (keys (merge_chicago d)) ->
  (x = CHICAGO \/ In x (keys d))
  /\ x <> CHICAGO_AUTHOR_DATE /\ x <> CHICAGO_NOTES.
Proof.
  intros W. unfold merge_chicago.
  destruct (mem CHICAGO_AUTHOR_DATE d || mem CHICAGO_NOTES d) eqn:E.
  - unfold dd_pop. intros H. apply keys_set in H. destruct H as [->|H].
    + split; [auto|]. split; discriminate.
    + apply keys_remove in H; [|apply wf_remove, W].
      destruct H as [H N1]. apply keys_remove in H; [|exact W].
      destruct H as [H N2]. auto.
  - apply orb_false_iff in E. destruct E as [E1 E2]. intros H.
    split; [auto|]. split; intros ->.
    + apply mem_In in H. congruence.
    + apply mem_In in H. congruence.
Qed.

Lemma max_item_from_In d :
  forall best, In (max_item_from best d) (best :: d).
Proof.
  induction d as [|kv d IH]; intros best; cbn [max_item_from];
    [left; reflexivity|].
  destruct (Nat.ltb (snd best) (snd kv)).
  - right. apply IH.
  - destruct (IH best) as [H|H]; [left; exact H|right; right; exact H].
Qed.

Lemma merged_keys d x :
  wf d = true ->
  (forall y, In y (keys d) ->
     In y [APA; MLA; CHICAGO_AUTHOR_DATE; CHICAGO_NOTES; HARVARD; IEEE;
           VANCOUVER; CSE]
     \/ In y [APA; MLA; CHICAGO; HARVARD; IEEE; VANCOUVER; CSE]) ->
  In x (keys (merge_chicago d)) -> In x reported_styles.
Proof.
  intros W K H. apply merge_chicago_keys in H; [|exact W].
  destruct H as (H & N1 & N2). unfold reported_styles.
  destruct H as [->|H]; [right; right; left; reflexivity|].
  apply K in H. destruct H as [H|H]; [|exact H].
  cbn [In] in H.
  repeat (destruct H as [<-|H];
          [first [ exfalso; apply N1; reflexivity
                 | exfalso; apply N2; reflexivity
                 | repeat (first [left; reflexivity|right]) ]|]).
  destruct H.
Qed.

Lemma style_scores_keys text :
  Forall (fun x => In x reported_styles) (keys (style_scores text)).
Proof.
  apply Forall_forall. intros x. unfold style_scores.
  destruct (score_headers_keys text) as [W1 K1].
  destruct (@score_in_text_keys text _ W1) as [W2 K2].
  apply merged_keys; [exact W2|].
  intros y Hy. apply K2 in Hy. destruct Hy as [Hy|Hy].
  - left. rewrite <- in_text_styles. exact Hy.
  - right. rewrite <- header_styles. apply K1. exact Hy.
Qed.

Lemma detect_reported text :
  In (_detect_citation_style text) reported_styles.
Proof.
  unfold _detect_citation_style.
  pose proof (style_scores_keys text) as K.
  destruct (style_scores text) as [|kv d]; [left; reflexivity|].
  destruct (Nat.ltb 0 (snd (max_item_from kv d))); [|left; reflexivity].
  rewrite Forall_forall in K. apply K. unfold keys.
  apply in_map. apply max_item_from_In.
Qed.

End ExtractorFacts.

(** X3: every in-text citation that [_is_valid_citation] accepts has
    between 3 and 100 characters; for the styles APA, CHICAGO and
    CHICAGO_AUTHOR_DATE it holds four digits in a row and, when it opens
    with a parenthesis, ends with one; for IEEE and VANCOUVER it holds a
    digit; for MLA it holds a digit when it holds both parentheses. *)
Theorem accepted_in_text_citations_are_shaped (citation style : pystr) :
  Extractor._is_valid_citation citation style (lit "in_text") = true ->
  3 <= length citation <= 100
  /\ (In style [lit "APA"; lit "CHICAGO"; lit "CHICAGO_AUTHOR_DATE"] ->
      Notions.has_year citation
      /\ (startswith (lit "(") citation = true ->
          endswith (lit ")") citation = true))
  /\ (In style [lit "IEEE"; lit "VANCOUVER"] -> Notions.has_digit citation)
  /\ (style = lit "MLA" ->
      has_char 40 citation = true -> has_char 41 citation = true ->
      Notions.has_digit citation).
Proof.
  intros V. destruct (ExtractorFacts.valid_in_text _ _ V) as (L & Y & D & M).
  split; [exact L|]. split; [|split].
  - intros S. destruct (Y S) as [F P]. split; [|exact P].
    apply ExtractorFacts.found_year, F.
  - intros S. apply ExtractorFacts.found_digit, D, S.
  - intros S O C. apply ExtractorFacts.found_digit, M; assumption.
Qed.

Lemma accepted_in_text_citations_are_shaped_witness :
  3 <= length (lit "(Abe, 2019)") <= 100
  /\ (In (lit "APA") [lit "APA"; lit "CHICAGO"; lit "CHICAGO_AUTHOR_DATE"] ->
      Notions.has_year (lit "(Abe, 2019)")
      /\ (startswith (lit "(") (lit "(Abe, 2019)") = true ->
          endswith (lit ")") (lit "(Abe, 2019)") = true))
  /\ (In (lit "APA") [lit "IEEE"; lit "VANCOUVER"] ->
      Notions.has_digit (lit "(Abe, 2019)"))
  /\ (lit "APA" = lit "MLA" ->
      has_char 40 (lit "(Abe, 2019)") = true ->
      has_char 41 (lit "(Abe, 2019)") = true ->
      Notions.has_digit (lit "(Abe, 2019)")).
Proof.
  apply (@accepted_in_text_citations_are_shaped (lit "(Abe, 2019)")
           (lit "APA")).
  vm_compute. reflexivity.
Defined.

(** X4: for a style that the header table does not list,
    [_split_bibliography_entries] returns the pieces of the section
    between blank lines, stripped, without the empty ones; every entry
    is non-empty and has no white space at either end, so the [strip]
    that [extract_bibliography_citations] applies to it changes
    nothing. *)
Theorem split_entries_are_trimmed (bib_section style : pystr) :
  mem style Extractor.bibliography_headers = false ->
  exists entries,
    Extractor._split_bibliography_entries bib_section style = Some entries
    /\ entries
       = filter (fun e => Detector.nonempty e)
           (map strip
              (Extractor.re_split no_flags Extractor.blank_line_re
                 bib_section))
    /\ Forall Notions.trimmed entries
    /\ map strip entries = entries.
Proof.
  intros M. eexists.
  split; [apply ExtractorFacts.split_other_style, M|].
  split; [reflexivity|]. split.
  - apply ExtractorFacts.generic_entries_trimmed.
  - apply ExtractorFacts.map_strip_trimmed,
      ExtractorFacts.generic_entries_trimmed.
Qed.

Lemma split_entries_are_trimmed_witness :
  exists entries,
    Extractor._split_bibliography_entries
      (lit " First entry. " ++ [NL; NL; NL] ++ lit "Second entry.")
      (lit "OTHER")
    = Some entries
    /\ entries
       = filter (fun e => Detector.nonempty e)
           (map strip
              (Extractor.re_split no_flags Extractor.blank_line_re
                 (lit " First entry. " ++ [NL; NL; NL]
                  ++ lit "Second entry.")))
    /\ Forall Notions.trimmed entries
    /\ map strip entries = entries.
Proof.
  apply (@split_entries_are_trimmed
           (lit " First entry. " ++ [NL; NL; NL] ++ lit "Second entry.")
           (lit "OTHER")).
  reflexivity.
Defined.

(** X5: the style guessed by [_detect_citation_style] is always one of
    APA, MLA, CHICAGO, HARVARD, IEEE, VANCOUVER and CSE; the tags
    CHICAGO_AUTHOR_DATE and CHICAGO_NOTES of the pattern table are never
    returned. *)
Theorem detected_style_is_reported (text : pystr) :
  In (Extractor._detect_citation_style text) Notions.reported_styles
  /\ Extractor._detect_citation_style text <> lit "CHICAGO_AUTHOR_DATE"
  /\ Extractor._detect_citation_style text <> lit "CHICAGO_NOTES".
Proof.
  pose proof (ExtractorFacts.detect_reported text) as H.
  split; [exact H|].
  unfold Notions.reported_styles in H. cbn [In] in H.
  split; intros E; rewrite E in H;
    repeat (destruct H as [H|H]; [discriminate H|]); exact H.
Qed.

(** ** The detector: counts and scores *)

Module CountFacts.
Import Detector Notions DetectorFacts.

Lemma count_of_zeros l k : count_of k (map (fun k => (k, 0)) l) = 0.
Proof.
  unfold count_of. induction l as [|a l IH]; cbn [map get];
    [reflexivity|].
  destruct (str_eqb k a); [reflexivity|exact IH].
Qed.

Lemma zero_counts_zero (d : odict (list regex)) k :
  wf d = true -> count_of k (zero_counts d) = 0.
Proof.
  intros W. unfold zero_counts. rewrite fold_set_fresh.
  - apply count_of_zeros.
  - exact W.
  - reflexivity.
Qed.

Lemma mem_same_keys (A B : Type) (d : odict A) (d' : odict B) k :
  keys d = keys d' -> mem k d = mem k d'.
Proof. intros E. rewrite !mem_keys, E. reflexivity. Qed.

Lemma count_patterns_sum text style ps :
  forall counts,
    mem style counts = true ->
    exists c,
      count_patterns text style ps counts = Some c
      /\ keys c = keys counts
      /\ get style c
         = Some (count_of style counts + matches_of MULTILINE ps text)
      /\ forall k, str_eqb style k = false -> get k c = get k counts.
Proof.
  induction ps as [|p ps IH]; intros counts M; cbn [count_patterns].
  - exists counts. split; [reflexivity|]. split; [reflexivity|].
    split; [|reflexivity]. unfold count_of, mem in *.
    destruct (get style counts); [|discriminate].
    change (matches_of MULTILINE [] text) with 0. f_equal. lia.
  - unfold incr, bind. unfold mem in M.
    destruct (get style counts) as [v|] eqn:G; [|discriminate].
    set (n := findall_count MULTILINE p text).
    destruct (IH (set style (v + n) counts)) as (c & E & K & G1 & O).
    { rewrite mem_set, str_eqb_refl. reflexivity. }
    exists c. split; [exact E|]. split.
    + rewrite K. apply set_present. unfold mem. rewrite G. reflexivity.
    + split.
      * rewrite G1. unfold count_of. rewrite get_set_same, G.
        change (matches_of MULTILINE (p :: ps) text)
          with (n + matches_of MULTILINE ps text).
        f_equal. lia.
      * intros k N. rewrite (O k N). apply get_set_other. exact N.
Qed.

Lemma count_styles_sum text (items : odict (list regex)) :
  forall counts,
    distinct (keys items) = true ->
    (forall k, In k (keys items) -> mem k counts = true) ->
    exists c,
      count_styles text items counts = Some c
      /\ keys c = keys counts
      /\ (forall style ps,
            In (style, ps) items ->
            get style c
            = Some (count_of style counts
                    + matches_of MULTILINE ps text))
      /\ (forall k, ~ In k (keys items) -> get k c = get k counts).
Proof.
  induction items as [|[s ps] items IH]; intros counts D M;
    cbn [count_styles].
  - exists counts. split; [reflexivity|]. split; [reflexivity|].
    split; [intros ? ? []|reflexivity].
  - cbn [keys map fst distinct] in D. apply andb_true_iff in D.
    destruct D as [D1 D2].
    apply negb_true_iff, DedupFacts.not_existsb_str_eqb in D1.
    destruct (@count_patterns_sum text s ps counts) as (c1 & E1 & K1 & G1 & O1).
    { apply M. left. reflexivity. }
    destruct (IH c1 D2) as (c & E & K & G & O).
    { intros k H. rewrite (@mem_same_keys _ _ c1 counts k K1). apply M. right. exact H. }
    unfold bind. rewrite E1. exists c. split; [exact E|].
    split; [rewrite K; exact K1|]. split.
    + intros style ps0 [H|H].
      * injection H as <- <-. rewrite (O s D1). exact G1.
      * rewrite (G style ps0 H). unfold count_of.
        rewrite (O1 style); [reflexivity|].
        apply str_eqb_neq. intros <-. apply D1.
        apply (in_map fst) in H. exact H.
    + intros k N. cbn [keys map fst] in N.
      rewrite (O k); [|intros H; apply N; right; exact H].
      apply O1. apply str_eqb_neq. intros <-. apply N. left. reflexivity.
Qed.

Lemma count_table_sum text (d : odict (list regex)) :
  wf d = true ->
  exists c,
    count_styles text d (zero_counts d) = Some c
    /\ keys c = keys d
    /\ forall style ps,
         In (style, ps) d ->
         get style c = Some (matches_of MULTILINE ps text).
Proof.
  intros W.
  destruct (@count_styles_sum text d (zero_counts d) W)
    as (c & E & K & G & _).
  { intros k H. apply mem_In. rewrite zero_counts_keys by exact W.
    exact H. }
  exists c. split; [exact E|]. split.
  - rewrite K. apply zero_counts_keys. exact W.
  - intros style ps H. rewrite (G style ps H).
    rewrite zero_counts_zero by exact W. reflexivity.
Qed.

End CountFacts.

Module ScoreFacts.
Import Detector Notions DetectorFacts.

(** The key chosen by [max]: nothing before it reaches its value and
    nothing after it exceeds it. *)
Lemma max_key_from_first (d : odict nat) :
  forall best bv,
    (max_key_from best bv d = best
     /\ forall k v, In (k, v) d -> v <= bv)
    \/ (exists l1 v l2,
          d = l1 ++ (max_key_from best bv d, v) :: l2
          /\ bv < v
          /\ (forall k' v', In (k', v') l1 -> v' < v)
          /\ (forall k' v', In (k', v') l2 -> v' <= v)).
Proof.
  induction d as [|[k v] d IH]; intros best bv; cbn [max_key_from].
  - left. split; [reflexivity|]. intros k v [].
  - destruct (Nat.ltb bv v) eqn:L.
    + apply Nat.ltb_lt in L. right.
      destruct (IH k v) as [[E H]|(l1 & v1 & l2 & E & Hlt & H1 & H2)].
      * exists [], v, d. rewrite E. split; [reflexivity|].
        split; [exact L|]. split; [intros ? ? []|exact H].
      * exists ((k, v) :: l1), v1, l2. split.
        { cbn [app]. f_equal. exact E. }
        split; [lia|]. split; [|exact H2].
        intros k' v' [Hk|Hk]; [injection Hk as <- <-; exact Hlt|].
        eapply H1; eassumption.
    + apply Nat.ltb_ge in L.
      destruct (IH best bv) as [[E H]|(l1 & v1 & l2 & E & Hlt & H1 & H2)].
      * left. split; [exact E|].
        intros k' v' [Hk|Hk]; [injection Hk as <- <-; exact L|].
        eapply H; eassumption.
      * right. exists ((k, v) :: l1), v1, l2. split.
        { cbn [app]. f_equal. exact E. }
        split; [exact Hlt|]. split; [|exact H2].
        intros k' v' [Hk|Hk]; [injection Hk as <- <-; lia|].
        eapply H1; eassumption.
Qed.

Lemma max_key_first (d : odict nat) :
  d <> [] ->
  exists l1 s v l2,
    max_key d = Some s
    /\ d = l1 ++ (s, v) :: l2
    /\ (forall k' v', In (k', v') l1 -> v' < v)
    /\ (forall k' v', In (k', v') l2 -> v' <= v).
Proof.
  destruct d as [|[k v] d]; [congruence|]. intros _. cbn [max_key].
  destruct (max_key_from_first d k v)
    as [[E H]|(l1 & v1 & l2 & E & Hlt & H1 & H2)].
  - exists [], k, v, d. rewrite E. split; [reflexivity|].
    split; [reflexivity|]. split; [intros ? ? []|exact H].
  - exists ((k, v) :: l1), (max_key_from k v d), v1, l2.
    split; [reflexivity|]. split.
    { cbn [app]. f_equal. exact E. }
    split; [|exact H2].
    intros k' v' [Hk|Hk]; [injection Hk as <- <-; exact Hlt|].
    eapply H1; eassumption.
Qed.

(** The scores of a well-formed table sum to the value of one key
    exactly when every other key scores nothing. *)
Lemma sum_is_value (d : odict nat) s v :
  wf d = true ->
  get s d = Some v ->
  (list_sum (values d) = v <-> forall k, k <> s -> count_of k d = 0).
Proof.
  induction d as [|[k0 v0] d IH]; [discriminate|].
  unfold wf. cbn [keys map fst distinct]. intros W.
  apply andb_true_iff in W. destruct W as [W1 W2].
  apply negb_true_iff, DedupFacts.not_existsb_str_eqb in W1.
  change (list_sum (values ((k0, v0) :: d)))
    with (v0 + list_sum (values d)).
  cbn [get].
  assert (C : forall k, count_of k ((k0, v0) :: d)
                        = if str_eqb k k0 then v0 else count_of k d).
  { intros k. unfold count_of. cbn [get].
    destruct (str_eqb k k0); reflexivity. }
  assert (Z : forall k, ~ In k (keys d) -> count_of k d = 0).
  { intros k N. unfold count_of. destruct (get k d) as [x|] eqn:G;
      [|reflexivity].
    exfalso. apply N. apply get_In in G. apply (in_map fst) in G.
    exact G. }
  destruct (str_eqb s k0) eqn:E.
  - apply str_eqb_eq in E. subst k0. intros G. injection G as ->.
    split.
    + intros S k N. rewrite C.
      destruct (str_eqb k s) eqn:E; [apply str_eqb_eq in E; congruence|].
      unfold count_of. destruct (get k d) as [x|] eqn:G; [|reflexivity].
      apply get_In in G. apply value_le_sum in G.
      lia.
    + intros H.
      rewrite (@sum_zero_if_bounded d); [lia|].
      intros k x Hin.
      assert (N : k <> s).
      { intros ->. apply W1. apply (in_map fst) in Hin. exact Hin. }
      specialize (H k N). rewrite C in H.
      destruct (str_eqb k s) eqn:E; [apply str_eqb_eq in E; congruence|].
      unfold count_of in H. rewrite (@In_get _ k x d W2 Hin) in H. lia.
  - intros G. specialize (IH W2 G).
    assert (Hs : s <> k0).
    { intros ->. rewrite str_eqb_refl in E. discriminate. }
    pose proof (@value_le_sum d s v (@get_In _ s v d G)) as Hle.
    split.
    + intros S k N. rewrite C.
      destruct (str_eqb k k0) eqn:E0; [lia|].
      apply (proj1 IH); [lia|exact N].
    + intros H.
      assert (V0 : v0 = 0).
      { specialize (H k0 (fun e => Hs (eq_sym e))). rewrite C in H.
        rewrite str_eqb_refl in H. exact H. }
      rewrite V0. cbn [Nat.add]. apply (proj2 IH).
      intros k N. destruct (str_eqb k k0) eqn:E0.
      * apply str_eqb_eq in E0. subst k. apply Z. exact W1.
      * specialize (H k N). rewrite C, E0 in H. exact H.
Qed.

Lemma ratio_one (v total : nat) :
  0 < total ->
  ((Qmake (Z.of_nat v) (Pos.of_nat total) == 1)%Q <-> v = total).
Proof.
  intros H. unfold Qeq. cbn [Qnum Qden].
  rewrite DetectorClaims.pos_of_nat_Z by exact H. lia.
Qed.

(** [identify_primary_style] on a well-formed catalog, with the place
    of the chosen style in the combined scores. *)
Lemma identify_first (self : catalog) text :
  wf (in_text_patterns self) = true ->
  wf (full_citation_patterns self) = true ->
  exists res comb,
    detect_citation_styles self text = Some res
    /\ combined_results self res = Some comb
    /\ wf comb = true
    /\ let total :=
         list_sum (values (in_text res))
         + list_sum (values (full_citation res)) in
       list_sum (values comb) = total
       /\ ((total = 0
            /\ identify_primary_style self text = Some (NONE, 0%Q))
           \/ (0 < total
               /\ exists l1 s v l2,
                    comb = l1 ++ (s, v) :: l2
                    /\ (forall k' v', In (k', v') l1 -> v' < v)
                    /\ (forall k' v', In (k', v') l2 -> v' <= v)
                    /\ identify_primary_style self text
                       = Some (s, Qmake (Z.of_nat v) (Pos.of_nat total)))).
Proof.
  intros W1 W2. destruct (detect_ok self text W1 W2) as (res & E & K1 & K2).
  destruct (@combined_ok self res) as (comb & Ec & S & Wc & _);
    try assumption.
  { eapply keys_wf; eassumption. }
  { eapply keys_wf; eassumption. }
  exists res, comb. split; [exact E|]. split; [exact Ec|].
  split; [exact Wc|]. intros total. split; [exact S|].
  unfold identify_primary_style. rewrite E. cbn [bind]. fold total.
  destruct (Nat.eqb total 0) eqn:T.
  - left. apply Nat.eqb_eq in T. split; [exact T|reflexivity].
  - right. apply Nat.eqb_neq in T. split; [lia|].
    rewrite Ec. cbn [bind].
    assert (Hne : comb <> []).
    { intros ->. cbn in S. unfold total in T. lia. }
    destruct (max_key_first Hne) as (l1 & s & v & l2 & Em & Ed & H1 & H2).
    exists l1, s, v, l2. split; [exact Ed|]. split; [exact H1|].
    split; [exact H2|].
    assert (G : get s comb = Some v).
    { apply In_get; [exact Wc|]. rewrite Ed. apply in_or_app.
      right. left. reflexivity. }
    destruct comb as [|kv comb']; [congruence|].
    rewrite Em. cbn [bind]. rewrite G. cbn [bind]. unfold div_int.
    destruct (Nat.eqb total 0) eqn:T'; [apply Nat.eqb_eq in T'; lia|].
    reflexivity.
Qed.

End ScoreFacts.

(** X7: on a detector whose two pattern tables have pairwise distinct
    styles, [detect_citation_styles] returns, for each table, the styles
    of the table in their order, and the count of a style is the sum over
    its patterns of the number of matches in the text. *)
Theorem detect_counts_are_match_sums
  (self : Detector.catalog) (text : pystr) :
  wf (Detector.in_text_patterns self) = true ->
  wf (Detector.full_citation_patterns self) = true ->
  exists res,
    Detector.detect_citation_styles self text = Some res
    /\ keys (Detector.in_text res) = keys (Detector.in_text_patterns self)
    /\ keys (Detector.full_citation res)
       = keys (Detector.full_citation_patterns self)
    /\ (forall style ps,
          In (style, ps) (Detector.in_text_patterns self) ->
          get style (Detector.in_text res)
          = Some (Notions.matches_of MULTILINE ps text))
    /\ (forall style ps,
          In (style, ps) (Detector.full_citation_patterns self) ->
          get style (Detector.full_citation res)
          = Some (Notions.matches_of MULTILINE ps text)).
Proof.
  intros W1 W2. unfold Detector.detect_citation_styles.
  destruct (@CountFacts.count_table_sum text _ W1) as (c1 & E1 & K1 & G1).
  destruct (@CountFacts.count_table_sum text _ W2) as (c2 & E2 & K2 & G2).
  rewrite E1, E2. cbn [Detector.bind]. eexists. split; [reflexivity|].
  cbn [Detector.in_text Detector.full_citation]. auto.
Qed.

Lemma detect_counts_are_match_sums_witness :
  exists res,
    Detector.detect_citation_styles Notions.two_styles (lit "abb") = Some res
    /\ keys (Detector.in_text res)
       = keys (Detector.in_text_patterns Notions.two_styles)
    /\ keys (Detector.full_citation res)
       = keys (Detector.full_citation_patterns Notions.two_styles)
    /\ (forall style ps,
          In (style, ps) (Detector.in_text_patterns Notions.two_styles) ->
          get style (Detector.in_text res)
          = Some (Notions.matches_of MULTILINE ps (lit "abb")))
    /\ (forall style ps,
          In (style, ps) (Detector.full_citation_patterns Notions.two_styles) ->
          get style (Detector.full_citation res)
          = Some (Notions.matches_of MULTILINE ps (lit "abb"))).
Proof.
  apply (@detect_counts_are_match_sums Notions.two_styles (lit "abb"));
    reflexivity.
Defined.

(** X8: on a detector with well-formed tables, when something matched,
    [identify_primary_style] returns the first style of the combined
    scores that holds the largest score: every style before it scores
    strictly less, no style after it scores more, and the confidence is
    that score divided by the total number of matches. *)
Theorem primary_style_is_first_maximum
  (self : Detector.catalog) (text : pystr) :
  wf (Detector.in_text_patterns self) = true ->
  wf (Detector.full_citation_patterns self) = true ->
  exists res comb s c,
    Detector.detect_citation_styles self text = Some res
    /\ Detector.combined_results self res = Some comb
    /\ Detector.identify_primary_style self text = Some (s, c)
    /\ let total :=
         list_sum (values (Detector.in_text res))
         + list_sum (values (Detector.full_citation res)) in
       (total = 0 -> s = Detector.NONE /\ c = 0%Q)
       /\ (0 < total ->
           exists l1 v l2,
             comb = l1 ++ (s, v) :: l2
             /\ (forall k' v', In (k', v') l1 -> v' < v)
             /\ (forall k' v', In (k', v') l2 -> v' <= v)
             /\ c = Qmake (Z.of_nat v) (Pos.of_nat total)).
Proof.
  intros W1 W2.
  destruct (ScoreFacts.identify_first self text W1 W2)
    as (res & comb & E & Ec & Wc & S & H).
  destruct H as [[T I]|(T & l1 & s & v & l2 & Ed & H1 & H2 & I)].
  - exists res, comb, Detector.NONE, 0%Q.
    split; [exact E|]. split; [exact Ec|]. split; [exact I|].
    cbv zeta. split; [auto|]. intros P. exfalso. lia.
  - eexists res, comb, s, _.
    split; [exact E|]. split; [exact Ec|]. split; [exact I|].
    cbv zeta. split; [intros Z; exfalso; lia|].
    intros _. exists l1, v, l2. auto.
Qed.

Lemma primary_style_is_first_maximum_witness :
  exists res comb s c,
    Detector.detect_citation_styles Detector.builtin Scenarios.smith_25
    = Some res
    /\ Detector.combined_results Detector.builtin res = Some comb
    /\ Detector.identify_primary_style Detector.builtin Scenarios.smith_25
       = Some (s, c)
    /\ let total :=
         list_sum (values (Detector.in_text res))
         + list_sum (values (Detector.full_citation res)) in
       (total = 0 -> s = Detector.NONE /\ c = 0%Q)
       /\ (0 < total ->
           exists l1 v l2,
             comb = l1 ++ (s, v) :: l2
             /\ (forall k' v', In (k', v') l1 -> v' < v)
             /\ (forall k' v', In (k', v') l2 -> v' <= v)
             /\ c = Qmake (Z.of_nat v) (Pos.of_nat total)).
Proof.
  apply (@primary_style_is_first_maximum Detector.builtin Scenarios.smith_25);
    reflexivity.
Defined.

(** X9: on a detector with well-formed tables, the confidence returned
    by [identify_primary_style] equals 1 exactly when something matched
    and every style other than the returned one has a combined score of
    zero. *)
Theorem confidence_is_one_iff_single_style
  (self : Detector.catalog) (text : pystr) :
  wf (Detector.in_text_patterns self) = true ->
  wf (Detector.full_citation_patterns self) = true ->
  exists res comb s c,
    Detector.detect_citation_styles self text = Some res
    /\ Detector.combined_results self res = Some comb
    /\ Detector.identify_primary_style self text = Some (s, c)
    /\ ((c == 1)%Q <->
        0 < list_sum (values (Detector.in_text res))
            + list_sum (values (Detector.full_citation res))
        /\ forall k, k <> s -> count_of k comb = 0).
Proof.
  intros W1 W2.
  destruct (ScoreFacts.identify_first self text W1 W2)
    as (res & comb & E & Ec & Wc & S & H).
  destruct H as [[T I]|(T & l1 & s & v & l2 & Ed & H1 & H2 & I)].
  - exists res, comb, Detector.NONE, 0%Q.
    split; [exact E|]. split; [exact Ec|]. split; [exact I|].
    split; [intros Q; discriminate Q|]. intros [P _]. exfalso. lia.
  - eexists res, comb, s, _.
    split; [exact E|]. split; [exact Ec|]. split; [exact I|].
    assert (G : get s comb = Some v).
    { apply In_get; [exact Wc|]. rewrite Ed. apply in_or_app.
      right. left. reflexivity. }
    rewrite (ScoreFacts.ratio_one v T).
    pose proof (@ScoreFacts.sum_is_value comb s v Wc G) as Q.
    rewrite S in Q. split.
    + intros V. split; [exact T|]. apply (proj1 Q). symmetry. exact V.
    + intros [_ Z]. symmetry. apply (proj2 Q). exact Z.
Qed.

Lemma confidence_is_one_iff_single_style_witness :
  exists res comb s c,
    Detector.detect_citation_styles Detector.builtin Scenarios.smith_25
    = Some res
    /\ Detector.combined_results Detector.builtin res = Some comb
    /\ Detector.identify_primary_style Detector.builtin Scenarios.smith_25
       = Some (s, c)
    /\ ((c == 1)%Q <->
        0 < list_sum (values (Detector.in_text res))
            + list_sum (values (Detector.full_citation res))
        /\ forall k, k <> s -> count_of k comb = 0).
Proof.
  apply (@confidence_is_one_iff_single_style Detector.builtin
           Scenarios.smith_25);
    reflexivity.
Defined.

(** ** Citation keys: years and duplicates *)

Module YearFacts.
Import Notions Analysis MatcherFacts TextFacts.

Lemma key_eqb_eq (a b : Detector.key) :
  Detector.key_eqb a b = true <-> a = b.
Proof.
  destruct a as [a1 a2], b as [b1 b2]. unfold Detector.key_eqb.
  cbn [fst snd]. rewrite andb_true_iff, !str_eqb_eq. split.
  - intros [-> ->]. reflexivity.
  - intros H. injection H as -> ->. split; reflexivity.
Qed.

Section SetList.
Variable A : Type.
Variable eqb : A -> A -> bool.
Hypothesis eqb_eq : forall a b, eqb a b = true <-> a = b.

Lemma existsb_eqb x l : existsb (eqb x) l = true <-> In x l.
Proof.
  rewrite existsb_exists. split.
  - intros (y & H & E). apply eqb_eq in E. subst y. exact H.
  - intros H. exists x. split; [exact H|]. apply eqb_eq. reflexivity.
Qed.

Lemma set_list_from_fresh xs :
  forall seen,
    NoDup (Detector.set_list_from eqb seen xs)
    /\ forall x, In x (Detector.set_list_from eqb seen xs) ->
                 ~ In x seen.
Proof.
  induction xs as [|y xs IH]; intros seen;
    cbn [Detector.set_list_from].
  - split; [constructor|intros x []].
  - destruct (existsb (eqb y) seen) eqn:E; [apply IH|].
    destruct (IH (y :: seen)) as [N F]. split.
    + constructor; [|exact N]. intros H. apply (F y H). left.
      reflexivity.
    + intros x [<-|H].
      * intros H. apply existsb_eqb in H. congruence.
      * intros H'. apply (F x H). right. exact H'.
Qed.

Lemma set_list_no_dup xs : NoDup (Detector.set_list eqb xs).
Proof. apply set_list_from_fresh. Qed.
End SetList.

(** *** The year group of a key pattern *)

(** No white-space character is a decimal digit. *)
Lemma digit_not_space c : is_digit c = true -> is_space c = false.
Proof.
  intros H. destruct (is_space c) eqn:S; [|reflexivity].
  exfalso. unfold is_space in S. apply existsb_exists in S.
  destruct S as (w & Hin & E). apply N.eqb_eq in E. subst w.
  assert (F : forallb (fun w => negb (is_digit w)) ws_chars = true)
    by (vm_compute; reflexivity).
  rewrite forallb_forall in F. apply F in Hin. rewrite H in Hin.
  discriminate Hin.
Qed.

Lemma strip_year y : four_digits y -> strip y = y.
Proof.
  intros [L D].
  destruct y as [|d1 [|d2 [|d3 [|d4 [|d5 y]]]]]; try discriminate L.
  cbn [forallb] in D. repeat rewrite andb_true_iff in D.
  destruct D as (D1 & D2 & D3 & D4 & _).
  unfold strip, rstrip. cbn [lstrip].
  rewrite (digit_not_space _ D1). cbn [rev app lstrip].
  rewrite (digit_not_space _ D4). reflexivity.
Qed.

Lemma last_year_group id rs :
  forall st k res,
    rmatch no_flags (seqs (rs ++ [Grp id year4])) st k = Some res ->
    exists st2 y cs,
      k st2 = Some res /\ caps st2 = (id, y) :: cs /\ four_digits y.
Proof.
  induction rs as [|r rs IH]; intros st k res H.
  - change (seqs ([] ++ [Grp id year4])) with (Seq (Grp id year4) Eps)
      in H.
    unfold year4, rep4, seqs, dg in H.
    cbn [fold_right rmatch rest advance] in H.
    destruct (rest st) as [|d1 a] eqn:R; [discriminate|].
    destruct (cls_match no_flags false [CDigit] d1) eqn:D1;
      [|discriminate].
    destruct a as [|d2 a]; [discriminate|].
    destruct (cls_match no_flags false [CDigit] d2) eqn:D2;
      [|discriminate].
    destruct a as [|d3 a]; [discriminate|].
    destruct (cls_match no_flags false [CDigit] d3) eqn:D3;
      [|discriminate].
    destruct a as [|d4 a]; [discriminate|].
    destruct (cls_match no_flags false [CDigit] d4) eqn:D4;
      [|discriminate].
    eexists _, _, _. split; [exact H|]. cbn [caps].
    split; [reflexivity|].
    rewrite (@consumed_moved [d1; d2; d3; d4]).
    + split; [reflexivity|]. cbn [forallb].
      rewrite (ExtractorFacts.cls_digit _ D1),
        (ExtractorFacts.cls_digit _ D2),
        (ExtractorFacts.cls_digit _ D3),
        (ExtractorFacts.cls_digit _ D4).
      reflexivity.
    + split; [exact R|reflexivity].
  - change (seqs ((r :: rs) ++ [Grp id year4]))
      with (Seq r (seqs (rs ++ [Grp id year4]))) in H.
    cbn [rmatch] in H. apply rmatch_moved in H.
    destruct H as (st1 & H & _). apply IH in H. exact H.
Qed.

Lemma match_here_year id rs b a ma st :
  match_here no_flags (seqs (rs ++ [Grp id year4])) b a ma = Some st ->
  exists y, group_of id (caps st) = Some y /\ four_digits y.
Proof.
  unfold match_here. intros H. apply last_year_group in H.
  destruct H as (st2 & y & cs & H & C & Y).
  destruct (ma && Nat.eqb (length (rest st2)) (length a));
    [discriminate|].
  injection H as <-. exists y. split; [|exact Y].
  rewrite C. cbn [group_of]. rewrite String.eqb_refl. reflexivity.
Qed.

(** *** What holds at the end of every match *)

Section Ends.
Variable f : flags.
Variable r : regex.
Variable P : mstate -> Prop.
Hypothesis here :
  forall b a ma st, match_here f r b a ma = Some st -> P st.

Lemma scan_ends pos before after ma m :
  scan f r pos before after ma = Some m -> P (m_end m).
Proof.
  intros H. apply FilterFacts.scan_found in H.
  destruct H as (b & a & ma' & _ & H). eapply here. exact H.
Qed.

Lemma scan_all_ends fuel :
  forall pos before after ma,
    Forall (fun m => P (m_end m))
      (scan_all f fuel r pos before after ma).
Proof.
  induction fuel as [|fuel IH]; intros pos before after ma;
    cbn [scan_all]; [constructor|].
  destruct (scan f r pos before after ma) as [m|] eqn:S;
    [|constructor].
  constructor; [eapply scan_ends; exact S|apply IH].
Qed.

Lemma finditer_ends text :
  Forall (fun m => P (m_end m)) (re_finditer f r text).
Proof. apply scan_all_ends. Qed.

End Ends.

Lemma finditer_year id rs text :
  Forall (fun m => exists y, m_group m id = Some y /\ four_digits y)
    (re_finditer no_flags (seqs (rs ++ [Grp id year4])) text).
Proof.
  apply (@finditer_ends no_flags (seqs (rs ++ [Grp id year4]))
           (fun st => exists y,
                group_of id (caps st) = Some y /\ four_digits y)).
  intros b a ma st. apply match_here_year.
Qed.


(** *** The keys of the detector *)

Lemma author_year_keys_ok ms :
  Forall (fun m => exists s, m_group m "author" = Some s) ms ->
  Forall (fun m => exists y, m_group m "year" = Some y /\ four_digits y)
    ms ->
  exists ks, Detector.author_year_keys ms = Some ks /\ Forall year_ok ks.
Proof.
  induction ms as [|m ms IH]; intros A Y; cbn [Detector.author_year_keys].
  - exists []. split; [reflexivity|constructor].
  - inversion A as [|? ? (a & Ha) A']. inversion Y as [|? ? (y & Hy & D) Y'].
    subst. destruct (IH A' Y') as (ks & E & F).
    rewrite Ha, Hy, E. cbn [Detector.bind]. eexists.
    split; [reflexivity|]. constructor; [|exact F].
    unfold year_ok. cbn [snd]. rewrite (strip_year D). exact D.
Qed.

Lemma detector_dated_keys text (rs : list regex) :
  binds "author" (seqs (rs ++ [Grp "year" year4])) = true ->
  exists ks,
    Detector.author_year_keys
      (re_finditer no_flags (seqs (rs ++ [Grp "year" year4])) text)
    = Some ks
    /\ Forall year_ok ks.
Proof.
  intros B. apply author_year_keys_ok.
  - apply finditer_binds. exact B.
  - apply finditer_year.
Qed.

Lemma apa_paren_keys text :
  exists ks,
    Detector.author_year_keys
      (re_finditer no_flags Detector.key_apa_paren text) = Some ks
    /\ Forall year_ok ks.
Proof.
  exact (@detector_dated_keys text
           [chr "("; Grp "author" Frag.author_et_al; chr ","; sp]
           eq_refl).
Qed.

Lemma apa_narrative_keys text :
  exists ks,
    Detector.author_year_keys
      (re_finditer no_flags Detector.key_apa_narrative text) = Some ks
    /\ Forall year_ok ks.
Proof.
  exact (@detector_dated_keys text
           [Grp "author" Frag.author_et_al; sp; chr "("] eq_refl).
Qed.

Lemma chicago_keys text :
  exists ks,
    Detector.author_year_keys
      (re_finditer no_flags Detector.key_chicago text) = Some ks
    /\ Forall year_ok ks.
Proof.
  exact (@detector_dated_keys text
           [chr "("; Grp "author" Frag.author_et_al; sp] eq_refl).
Qed.

(** The list of keys before duplicates are dropped. *)
Lemma detector_keys text style :
  exists ks,
    Detector._extract_citation_keys text style
    = Some (Detector.set_list Detector.key_eqb ks)
    /\ (dated style = true -> Forall year_ok ks)
    /\ (dated style = false -> style <> Detector.MLA -> ks = []).
Proof.
  unfold Detector._extract_citation_keys, dated.
  destruct (str_eqb style Detector.APA || str_eqb style Detector.HARVARD)
    eqn:E1.
  - destruct (apa_paren_keys text) as (k1 & H1 & F1).
    destruct (apa_narrative_keys text) as (k2 & H2 & F2).
    rewrite H1, H2. cbn [Detector.bind]. eexists.
    split; [reflexivity|]. split.
    + intros _. apply Forall_app. split; assumption.
    + cbn [orb]. discriminate.
  - destruct (str_eqb style Detector.MLA) eqn:E2.
    + destruct (KeyFacts.author_only_keys_ok
                  (finditer_binds no_flags "author"
                     Detector.key_mla_paren text eq_refl))
        as (k1 & H1 & _).
      destruct (KeyFacts.author_only_keys_ok
                  (finditer_binds no_flags "author"
                     Detector.key_mla_narrative text eq_refl))
        as (k2 & H2 & _).
      rewrite H1, H2. cbn [Detector.bind]. eexists.
      split; [reflexivity|].
      apply str_eqb_eq in E2. subst style. split.
      * cbn [orb]. intros D. discriminate D.
      * intros _ N. congruence.
    + destruct (str_eqb style Detector.CHICAGO) eqn:E3.
      * destruct (chicago_keys text) as (k1 & H1 & F1).
        rewrite H1. cbn [Detector.bind]. eexists.
        split; [reflexivity|]. split; [intros _; exact F1|].
        cbn [orb]. discriminate.
      * cbn [Detector.bind]. exists []. split; [reflexivity|].
        split; [cbn [orb]; discriminate|reflexivity].
Qed.

(** *** The keys of the validator *)



End YearFacts.

(** X10: for every text and every style, [_extract_citation_keys] of the
    detector returns a list (it never raises), the list has no
    duplicates, and it is empty for every style other than APA, HARVARD,
    CHICAGO and MLA. *)
Theorem detector_keys_are_distinct (text style : pystr) :
  exists ks,
    Detector._extract_citation_keys text style = Some ks
    /\ NoDup ks
    /\ (Notions.dated style = false -> style <> lit "MLA" -> ks = []).
Proof.
  destruct (YearFacts.detector_keys text style) as (ks & E & _ & N).
  eexists. split; [exact E|]. split.
  - apply YearFacts.set_list_no_dup. exact YearFacts.key_eqb_eq.
  - intros D M. rewrite (N D M). reflexivity.
Qed.

(** X11: for the styles APA, HARVARD and CHICAGO, the year of every key
    that [_extract_citation_keys] of the detector returns is a string of
    exactly four decimal digits. *)
Theorem detector_key_years_have_four_digits (text style : pystr) :
  Notions.dated style = true ->
  exists ks,
    Detector._extract_citation_keys text style = Some ks
    /\ Forall (fun k => Notions.four_digits (snd k)) ks.
Proof.
  intros D.
  destruct (YearFacts.detector_keys text style) as (ks & E & Y & _).
  eexists. split; [exact E|].
  apply KeyFacts.set_list_Forall. exact (Y D).
Qed.

Lemma detector_key_years_have_four_digits_witness :
  exists ks,
    Detector._extract_citation_keys Extraction.zed_abe (lit "APA") = Some ks
    /\ Forall (fun k => Notions.four_digits (snd k)) ks.
Proof.
  apply (@detector_key_years_have_four_digits Extraction.zed_abe (lit "APA")).
  reflexivity.
Defined.


(** ** Citations against references *)

Module CrossFacts.
Import Detector CrossCheck.

Lemma existsb_never (A : Type) (p : A -> bool) l :
  (forall x, p x = false) -> existsb p l = false.
Proof.
  intros H. induction l as [|x l IH]; [reflexivity|].
  cbn [existsb]. rewrite H, IH. reflexivity.
Qed.

Lemma not_compared style author year ref_author ref_year :
  compared style = false ->
  pair_matches style author year ref_author ref_year = false.
Proof.
  unfold compared, pair_matches. cbn [existsb]. intros H.
  apply orb_false_iff in H. destruct H as [H1 H].
  apply orb_false_iff in H. destruct H as [H2 H].
  apply orb_false_iff in H. destruct H as [H3 H].
  apply orb_false_iff in H. destruct H as [H4 _].
  rewrite H1, H2, H3, H4. reflexivity.
Qed.

Lemma nothing_found citations references style :
  compared style = false \/ references = [] ->
  _find_citations_without_references citations references style
  = map (fun c => citation_text (fst c) (snd c))
      (filter reportable citations).
Proof.
  intros H.
  induction citations as [|[author year] citations IH];
    [reflexivity|].
  cbn [_find_citations_without_references filter]. rewrite IH.
  assert (E : existsb
                (fun ref =>
                   pair_matches style author year (ref_surname ref)
                     (field "year" ref))
                references = false).
  { destruct H as [H| ->]; [|reflexivity].
    apply existsb_never. intros ref. apply not_compared. exact H. }
  rewrite E. cbn [negb andb].
  change (reportable (author, year)) with (nonempty (strip author)).
  destruct (nonempty (strip author)); reflexivity.
Qed.

Lemma nothing_cited citations references style :
  compared style = false \/ citations = [] ->
  _find_references_without_citations citations references style
  = filter listed references.
Proof.
  intros H.
  induction references as [|ref references IH]; [reflexivity|].
  cbn [_find_references_without_citations filter]. rewrite IH.
  assert (E : existsb
                (fun c =>
                   pair_matches style (fst c) (snd c) (ref_surname ref)
                     (field "year" ref))
                citations = false).
  { destruct H as [H| ->]; [|reflexivity].
    apply existsb_never. intros c. apply not_compared. exact H. }
  rewrite E. cbn [negb andb].
  change (listed ref) with (nonempty (strip (ref_surname ref))).
  destruct (nonempty (strip (ref_surname ref))); reflexivity.
Qed.

Lemma missing_are_reportable citations references style t :
  In t (_find_citations_without_references citations references style) ->
  exists c,
    In c citations /\ reportable c = true
    /\ t = citation_text (fst c) (snd c).
Proof.
  induction citations as [|[author year] citations IH];
    cbn [_find_citations_without_references]; [intros []|].
  destruct (negb _ && nonempty (strip author)) eqn:E.
  - intros [<-|H].
    + exists (author, year). split; [left; reflexivity|].
      apply andb_true_iff in E. destruct E as [_ E].
      split; [exact E|reflexivity].
    + destruct (IH H) as (c & Hc & R & T). exists c.
      split; [right; exact Hc|]. split; assumption.
  - intros H. destruct (IH H) as (c & Hc & R & T). exists c.
    split; [right; exact Hc|]. split; assumption.
Qed.

Lemma unused_are_listed citations references style ref :
  In ref (_find_references_without_citations citations references style) ->
  In ref references /\ listed ref = true.
Proof.
  induction references as [|r references IH];
    cbn [_find_references_without_citations]; [intros []|].
  destruct (negb _ && nonempty (strip (ref_surname r))) eqn:E.
  - intros [<-|H].
    + split; [left; reflexivity|].
      apply andb_true_iff in E. destruct E as [_ E]. exact E.
    + destruct (IH H). split; [right|]; assumption.
  - intros H. destruct (IH H). split; [right|]; assumption.
Qed.

End CrossFacts.

(** X13: when the style is none of APA, HARVARD, CHICAGO and MLA, or when
    there are no references, [_find_citations_without_references]
    reports every citation whose author is not blank, in the order of the
    citations, as [author (year)] (as [author] when the year is
    empty). *)
Theorem every_citation_is_missing
  (citations : list Detector.key)
  (references : list CrossCheck.reference) (style : pystr) :
  CrossCheck.compared style = false \/ references = [] ->
  CrossCheck._find_citations_without_references citations references style
  = map (fun c => CrossCheck.citation_text (fst c) (snd c))
      (filter CrossCheck.reportable citations).
Proof. apply CrossFacts.nothing_found. Qed.

Lemma every_citation_is_missing_witness :
  CrossCheck._find_citations_without_references
    [CrossCheck.smith_2020; (lit " ", lit "1999")] [] (lit "APA")
  = map (fun c => CrossCheck.citation_text (fst c) (snd c))
      (filter CrossCheck.reportable
         [CrossCheck.smith_2020; (lit " ", lit "1999")]).
Proof.
  apply (@every_citation_is_missing
           [CrossCheck.smith_2020; (lit " ", lit "1999")] [] (lit "APA")).
  right. reflexivity.
Defined.

(** X14: what the two cross checks of the detector report comes from
    their input and is never blank: every text returned by
    [_find_citations_without_references] is the text of a citation whose
    author is not blank, and every reference returned by
    [_find_references_without_citations] is one of the references and
    has a surname that is not blank; with a style that is none of APA,
    HARVARD, CHICAGO and MLA, or with no citations, every such reference
    is returned. *)
Theorem cross_check_reports_come_from_input
  (citations : list Detector.key)
  (references : list CrossCheck.reference) (style : pystr) :
  (forall t,
     In t (CrossCheck._find_citations_without_references citations
             references style) ->
     exists c,
       In c citations /\ CrossCheck.reportable c = true
       /\ t = CrossCheck.citation_text (fst c) (snd c))
  /\ (forall ref,
        In ref (CrossCheck._find_references_without_citations citations
                  references style) ->
        In ref references /\ CrossCheck.listed ref = true)
  /\ (CrossCheck.compared style = false \/ citations = [] ->
      CrossCheck._find_references_without_citations citations references
        style
      = filter CrossCheck.listed references).
Proof.
  split; [|split].
  - intros t. apply CrossFacts.missing_are_reportable.
  - intros ref. apply CrossFacts.unused_are_listed.
  - apply CrossFacts.nothing_cited.
Qed.

Lemma cross_check_reports_come_from_input_witness :
  CrossCheck._find_references_without_citations []
    [CrossCheck.smith_ref; []] (lit "APA")
  = filter CrossCheck.listed [CrossCheck.smith_ref; []].
Proof.
  apply (proj2 (proj2 (@cross_check_reports_come_from_input []
                         [CrossCheck.smith_ref; []] (lit "APA")))).
  right. reflexivity.
Defined.

(** ** The match of a citation and an entry in [extractor.py] *)

Module MatchingFacts.
Import Extractor Matching.

Lemma contains_nil s : contains [] s = true.
Proof. destruct s; reflexivity. Qed.

Lemma surname_total bib_author :
  exists s, bib_surname_of (strip (lower bib_author)) = Some s.
Proof.
  unfold bib_surname_of.
  destruct (has_char 44 (strip (lower bib_author))); [eexists; reflexivity|].
  destruct (strip (lower bib_author)) as [|c t] eqn:E;
    [exists []; reflexivity|].
  cbn [Detector.nonempty]. unfold first_token. rewrite <- E.
  rewrite MatchFacts.lstrip_strip, E. eexists. reflexivity.
Qed.

Lemma surname_blank : bib_surname_of [] = Some [].
Proof. reflexivity. Qed.

End MatchingFacts.

(** X15: [_is_matching_citation] always returns a boolean (its
    [split()[0]] cannot fail); it is [False] when the cited author and
    year are both empty; for every style but MLA a match implies equal
    years; and when the author of the entry is blank, every citation
    with an author or a year matches under MLA and, under the other
    styles, matches exactly when the years are equal. *)
Theorem is_matching_citation_cases
  (author year bib_author bib_year style : pystr) :
  exists r,
    Matching._is_matching_citation author year bib_author bib_year style
    = Some r
    /\ (author = [] -> year = [] -> r = false)
    /\ (style <> lit "MLA" -> r = true -> year = bib_year)
    /\ (strip (lower bib_author) = [] ->
        author <> [] \/ year <> [] ->
        r = (str_eqb style (lit "MLA") || str_eqb year bib_year)).
Proof.
  unfold Matching._is_matching_citation.
  destruct (MatchingFacts.surname_total bib_author) as (s & S).
  destruct (negb (Detector.nonempty author) && negb (Detector.nonempty year))
    eqn:E.
  - exists false. split; [reflexivity|]. split; [reflexivity|].
    split; [discriminate|].
    intros _ [H|H]; exfalso; apply H;
      apply andb_true_iff in E; destruct E as [E1 E2].
    + destruct author; [reflexivity|discriminate].
    + destruct year; [reflexivity|discriminate].
  - rewrite S. cbn [Detector.bind].
    change Extractor.MLA with (lit "MLA").
    destruct (str_eqb style (lit "MLA")) eqn:M.
    + eexists. split; [reflexivity|]. split.
      { intros -> ->. discriminate E. }
      split.
      { intros N. apply str_eqb_eq in M. congruence. }
      intros B _. rewrite B in S. rewrite MatchingFacts.surname_blank in S.
      injection S as <-. rewrite MatchingFacts.contains_nil.
      rewrite orb_true_r. reflexivity.
    + eexists. split; [reflexivity|]. split.
      { intros -> ->. discriminate E. }
      split.
      { intros _ H. apply andb_true_iff in H. destruct H as [_ H].
        apply str_eqb_eq. exact H. }
      intros B _. rewrite B in S. rewrite MatchingFacts.surname_blank in S.
      injection S as <-. rewrite MatchingFacts.contains_nil.
      rewrite orb_true_r. reflexivity.
Qed.

(** ** Citations against entries in [validator.py] *)

Module ConsistencyFacts.
Import Validator Consistency Analysis.






End ConsistencyFacts.


(** ** Reading the pattern tables of [patterns.py] *)

Module LookupFacts.
Import Patterns CustomPatterns Lookup.

Lemma nth_error_last (A : Type) (l : list A) x :
  nth_error (l ++ [x]) (length l) = Some x.
Proof.
  rewrite nth_error_app2 by lia. rewrite Nat.sub_diag. reflexivity.
Qed.

Lemma get_list_appended (A : Type) style (x : A) (d d' : odict (list A)) :
  appended style x d d' ->
  Detector.get_list style d' = Detector.get_list style d ++ [x]
  /\ forall other, other <> style ->
       Detector.get_list other d' = Detector.get_list other d.
Proof.
  intros [H1 H2]. split.
  - unfold Detector.get_list at 1. rewrite H1. reflexivity.
  - intros other N. unfold Detector.get_list. rewrite (H2 other N).
    reflexivity.
Qed.

Lemma last_index (l : list regex) x :
  (0 <=? Z.of_nat (length l))%Z
  && (Z.of_nat (length l) <? Z.of_nat (length (l ++ [x])))%Z = true.
Proof.
  rewrite length_app. cbn [length]. apply andb_true_iff. split.
  - apply Z.leb_le. lia.
  - apply Z.ltb_lt. lia.
Qed.

End LookupFacts.

(** X17: on a state whose compiled tables have the styles of the pattern
    tables, after [add_custom_pattern] accepted a pattern for a style and
    a known pattern type, [get_pattern] for that style and type returns
    the former list with the compiled pattern at its end, returns the
    compiled pattern itself for the index of the last place, and returns
    what it returned before for every other style. *)
Theorem added_pattern_is_returned
  (re_compile : pystr -> Patterns.compile_result) (self : Patterns.state)
  (style pattern_type pattern : pystr) (compiled : regex) :
  CustomPatterns.consistent self ->
  re_compile pattern = Patterns.Compiled compiled ->
  CustomPatterns.tables_of pattern_type self <> None ->
  exists old,
    Lookup.get_pattern self style pattern_type None = Lookup.Many old
    /\ let self' :=
         fst (Patterns.add_custom_pattern re_compile self style pattern_type
                pattern) in
       Lookup.get_pattern self' style pattern_type None
       = Lookup.Many (old ++ [compiled])
       /\ Lookup.get_pattern self' style pattern_type
            (Some (Z.of_nat (length old)))
          = Lookup.One compiled
       /\ forall other,
            other <> style ->
            Lookup.get_pattern self' other pattern_type None
            = Lookup.get_pattern self other pattern_type None.
Proof.
  intros C E T.
  unfold Patterns.add_custom_pattern, Lookup.get_pattern. rewrite E.
  unfold CustomPatterns.tables_of in T.
  destruct (str_eqb pattern_type (lit "in_text")) eqn:T1;
    [|destruct (str_eqb pattern_type (lit "bibliography")) eqn:T2;
      [|destruct (str_eqb pattern_type (lit "headers")) eqn:T3;
        [|congruence]]].
  - destruct (CustomFacts.add_pair_ok style pattern compiled
                (Patterns.in_text_patterns self)
                (Patterns.compiled_in_text self))
      as (t' & c' & Ea & _ & Ac & _).
    { intros s. apply (C s). }
    rewrite Ea. eexists. split; [reflexivity|].
    cbn [fst Patterns.compiled_in_text].
    destruct (LookupFacts.get_list_appended Ac) as [G1 G2].
    rewrite G1, LookupFacts.last_index, Nat2Z.id,
      LookupFacts.nth_error_last.
    split; [reflexivity|]. split; [reflexivity|].
    intros other N. rewrite (G2 other N). reflexivity.
  - destruct (CustomFacts.add_pair_ok style pattern compiled
                (Patterns.bibliography_patterns self)
                (Patterns.compiled_bibliography self))
      as (t' & c' & Ea & _ & Ac & _).
    { intros s. apply (C s). }
    rewrite Ea. eexists. split; [reflexivity|].
    cbn [fst Patterns.compiled_bibliography].
    destruct (LookupFacts.get_list_appended Ac) as [G1 G2].
    rewrite G1, LookupFacts.last_index, Nat2Z.id,
      LookupFacts.nth_error_last.
    split; [reflexivity|]. split; [reflexivity|].
    intros other N. rewrite (G2 other N). reflexivity.
  - destruct (CustomFacts.add_pair_ok style pattern compiled
                (Patterns.bibliography_headers self)
                (Patterns.compiled_headers self))
      as (t' & c' & Ea & _ & Ac & _).
    { intros s. apply (C s). }
    rewrite Ea. eexists. split; [reflexivity|].
    cbn [fst Patterns.compiled_headers].
    destruct (LookupFacts.get_list_appended Ac) as [G1 G2].
    rewrite G1, LookupFacts.last_index, Nat2Z.id,
      LookupFacts.nth_error_last.
    split; [reflexivity|]. split; [reflexivity|].
    intros other N. rewrite (G2 other N). reflexivity.
Qed.

Lemma added_pattern_is_returned_witness :
  exists old,
    Lookup.get_pattern CustomPatterns.empty_state (lit "APA") (lit "in_text")
      None = Lookup.Many old
    /\ let self' :=
         fst (Patterns.add_custom_pattern CustomPatterns.toy_compile
                CustomPatterns.empty_state (lit "APA") (lit "in_text")
                (lit "x")) in
       Lookup.get_pattern self' (lit "APA") (lit "in_text") None
       = Lookup.Many (old ++ [Eps])
       /\ Lookup.get_pattern self' (lit "APA") (lit "in_text")
            (Some (Z.of_nat (length old)))
          = Lookup.One Eps
       /\ forall other,
            other <> lit "APA" ->
            Lookup.get_pattern self' other (lit "in_text") None
            = Lookup.get_pattern CustomPatterns.empty_state other
                (lit "in_text") None.
Proof.
  apply (@added_pattern_is_returned CustomPatterns.toy_compile
           CustomPatterns.empty_state (lit "APA") (lit "in_text") (lit "x")
           Eps).
  - intros style. repeat split.
  - reflexivity.
  - discriminate.
Defined.

(** X18: [get_pattern] with an index that is negative or not below the
    number of patterns returns the whole list, as it does without an
    index; with a pattern type other than in_text, bibliography and
    headers it returns the empty list, whatever the style and the
    index. *)
Theorem get_pattern_out_of_range
  (self : Patterns.state) (style pattern_type : pystr) :
  (forall i ps,
     Lookup.get_pattern self style pattern_type None = Lookup.Many ps ->
     (i < 0)%Z \/ (Z.of_nat (length ps) <= i)%Z ->
     Lookup.get_pattern self style pattern_type (Some i) = Lookup.Many ps)
  /\ (CustomPatterns.tables_of pattern_type self = None ->
      forall index,
        Lookup.get_pattern self style pattern_type index = Lookup.Many []).
Proof.
  unfold Lookup.get_pattern, CustomPatterns.tables_of.
  assert (R : forall (l ps : list regex) i,
             Lookup.Many l = Lookup.Many ps ->
             (i < 0)%Z \/ (Z.of_nat (length ps) <= i)%Z ->
             (if (0 <=? i)%Z && (i <? Z.of_nat (length l))%Z
              then match nth_error l (Z.to_nat i) with
                   | Some p => Lookup.One p
                   | None => Lookup.Many l
                   end
              else Lookup.Many l) = Lookup.Many ps).
  { intros l ps i H O. injection H as <-.
    destruct ((0 <=? i)%Z && (i <? Z.of_nat (length l))%Z) eqn:B;
      [|reflexivity].
    apply andb_true_iff in B. destruct B as [B1 B2].
    apply Z.leb_le in B1. apply Z.ltb_lt in B2. lia. }
  destruct (str_eqb pattern_type (lit "in_text"));
    [split; [intros i ps; apply R|discriminate]|].
  destruct (str_eqb pattern_type (lit "bibliography"));
    [split; [intros i ps; apply R|discriminate]|].
  destruct (str_eqb pattern_type (lit "headers"));
    [split; [intros i ps; apply R|discriminate]|].
  split; [|reflexivity]. intros i ps H _. exact H.
Qed.

Lemma get_pattern_out_of_range_witness :
  Lookup.get_pattern CustomPatterns.empty_state (lit "APA") (lit "in_text")
    (Some 3%Z) = Lookup.Many []
  /\ Lookup.get_pattern CustomPatterns.empty_state (lit "APA") (lit "other")
       (Some 0%Z) = Lookup.Many [].
Proof.
  split.
  - apply (proj1 (@get_pattern_out_of_range CustomPatterns.empty_state
                    (lit "APA") (lit "in_text")) 3%Z []).
    + reflexivity.
    + right. cbn. lia.
  - apply (proj2 (@get_pattern_out_of_range CustomPatterns.empty_state
                    (lit "APA") (lit "other"))).
    reflexivity.
Defined.

(** ** The order of the styles after a load *)

Module OrderFacts.
Import Detector.

Lemma set_keys (V : Type) k (v : V) d :
  exists extra, keys (set k v d) = keys d ++ extra.
Proof.
  destruct (mem k d) eqn:M.
  - exists []. rewrite app_nil_r. apply set_present. exact M.
  - exists [k]. rewrite (@set_absent _ k v d M). unfold keys.
    rewrite map_app. reflexivity.
Qed.

Lemma merge_styles_keys items :
  forall table,
    exists extra,
      keys (fst (merge_styles items table)) = keys table ++ extra.
Proof.
  induction items as [|[style patterns] items IH]; intros table;
    cbn [merge_styles].
  - exists []. rewrite app_nil_r. reflexivity.
  - destruct (get style table) as [current|].
    + destruct (py_extend current patterns) as [extended|].
      * destruct (IH (set style extended table)) as (e1 & E1).
        destruct (set_keys style extended table) as (e2 & E2).
        exists (e2 ++ e1). rewrite E1, E2, app_assoc. reflexivity.
      * exists []. rewrite app_nil_r. reflexivity.
    + destruct (IH (set style patterns table)) as (e1 & E1).
      destruct (set_keys style patterns table) as (e2 & E2).
      exists (e2 ++ e1). rewrite E1, E2, app_assoc. reflexivity.
Qed.

Lemma merge_section_keys name cfg table :
  exists extra,
    keys (fst (merge_section name cfg table)) = keys table ++ extra.
Proof.
  unfold merge_section.
  destruct (py_in name cfg) as [[|]|];
    try (exists []; rewrite app_nil_r; reflexivity).
  destruct (py_getitem cfg name) as [section|];
    try (exists []; rewrite app_nil_r; reflexivity).
  destruct (py_items section) as [items|];
    try (exists []; rewrite app_nil_r; reflexivity).
  apply merge_styles_keys.
Qed.

End OrderFacts.

(** X19: [_load_custom_patterns] never removes or reorders the styles of
    the two tables: after any load, failed or not, each table lists its
    former styles first, in their former order, followed by the styles
    that the load created. *)
Theorem load_keeps_style_order
  (self : Detector.tables) (loaded : option Detector.json) :
  exists new_in_text new_full,
    keys (Detector.t_in_text
            (fst (Detector._load_custom_patterns self loaded)))
    = keys (Detector.t_in_text self) ++ new_in_text
    /\ keys (Detector.t_full_citation
               (fst (Detector._load_custom_patterns self loaded)))
       = keys (Detector.t_full_citation self) ++ new_full.
Proof.
  destruct self as [it fc]. destruct loaded as [cfg|];
    cbn [Detector._load_custom_patterns Detector.t_in_text
         Detector.t_full_citation fst];
    [|exists [], []; rewrite !app_nil_r; split; reflexivity].
  destruct (OrderFacts.merge_section_keys (lit "in_text_patterns") cfg it)
    as (e1 & E1).
  destruct (OrderFacts.merge_section_keys (lit "full_citation_patterns")
              cfg fc) as (e2 & E2).
  destruct (Detector.merge_section (lit "in_text_patterns") cfg it)
    as [it' r1].
  destruct (Detector.merge_section (lit "full_citation_patterns") cfg fc)
    as [fc' r2].
  cbn [fst] in E1, E2. destruct r1; cbn [fst Detector.t_in_text
                                          Detector.t_full_citation].
  - exists e1, []. rewrite app_nil_r. split; [exact E1|reflexivity].
  - exists e1, e2. split; assumption.
Qed.

(** ** The style markers of [extractor.py] *)

Module MarkerFacts.
Import Extractor Markers.

Lemma initial_shape :
  initial_markers = markers_of (fun _ => 0) (fun _ => 0).
Proof. reflexivity. Qed.

Lemma markers_keys h s : keys (markers_of h s) = styles.
Proof. reflexivity. Qed.

Lemma get_markers h s style :
  In style styles ->
  get style (markers_of h s) = Some (counters_of (h style) (s style)).
Proof.
  unfold styles. cbn [In]. intros H.
  repeat (destruct H as [<-|H]; [reflexivity|]). destruct H.
Qed.

Lemma bump_headers h s style n :
  In style styles ->
  bump style headers n (markers_of h s)
  = Some (markers_of (plus_at style n h) s).
Proof.
  unfold styles. cbn [In]. intros H.
  repeat (destruct H as [<-|H]; [reflexivity|]). destruct H.
Qed.

Lemma bump_specific h s style n :
  In style styles ->
  bump style specific n (markers_of h s)
  = Some (markers_of h (plus_at style n s)).
Proof.
  unfold styles. cbn [In]. intros H.
  repeat (destruct H as [<-|H]; [reflexivity|]). destruct H.
Qed.

Lemma count_headers_ok text style s hs :
  In style styles ->
  forall h,
    exists h',
      count_headers text style hs (markers_of h s)
      = Some (markers_of h' s)
      /\ forall x,
           h' x <= h x + (if str_eqb x style then length hs else 0).
Proof.
  intros S. induction hs as [|header hs IH]; intros h;
    cbn [count_headers].
  - exists h. split; [reflexivity|]. intros x.
    destruct (str_eqb x style); cbn [length]; lia.
  - destruct (found IGNORECASE_MULTILINE (header_re header) text).
    + rewrite (bump_headers h s 1 S). cbn [Detector.bind].
      destruct (IH (plus_at style 1 h)) as (h' & E & B).
      exists h'. split; [exact E|]. intros x. specialize (B x).
      unfold plus_at in B. cbn [length].
      destruct (str_eqb x style); lia.
    + cbn [Detector.bind]. destruct (IH h) as (h' & E & B).
      exists h'. split; [exact E|]. intros x. specialize (B x).
      cbn [length]. destruct (str_eqb x style); lia.
Qed.

(** The number of headers that the table lists under a style. *)
Lemma header_markers_ok text s (items : odict (list pystr)) :
  (forall style, In style (keys items) -> In style styles) ->
  forall h,
    exists h',
      header_markers text items (markers_of h s)
      = Some (markers_of h' s)
      /\ forall x,
           h' x
           <= h x
              + list_sum
                  (map (fun kv =>
                          if str_eqb x (fst kv) then length (snd kv)
                          else 0)
                     items).
Proof.
  induction items as [|[style hs] items IH]; intros K h;
    cbn [header_markers].
  - exists h. split; [reflexivity|]. intros x. cbn [map list_sum]. lia.
  - destruct (@count_headers_ok text style s hs) with (h := h)
      as (h1 & E1 & B1).
    { apply K. left. reflexivity. }
    rewrite E1. cbn [Detector.bind].
    destruct (IH (fun st H => K st (or_intror H)) h1) as (h' & E & B).
    exists h'. split; [exact E|]. intros x.
    specialize (B x). specialize (B1 x).
    change (list_sum
              (map (fun kv =>
                      if str_eqb x (fst kv) then length (snd kv) else 0)
                 ((style, hs) :: items)))
      with ((if str_eqb x style then length hs else 0)
            + list_sum
                (map (fun kv =>
                        if str_eqb x (fst kv) then length (snd kv)
                        else 0)
                   items)).
    lia.
Qed.

Lemma header_total style :
  In style styles ->
  list_sum
    (map (fun kv =>
            if str_eqb style (fst kv) then length (snd kv) else 0)
       bibliography_headers)
  = length (Detector.get_list style bibliography_headers).
Proof.
  unfold styles. cbn [In]. intros H.
  repeat (destruct H as [<-|H]; [reflexivity|]). destruct H.
Qed.

Lemma mark_ok cond style n h s :
  In style styles ->
  exists s',
    mark cond style n (markers_of h s) = Some (markers_of h s')
    /\ forall x, s' x <= s x + (if str_eqb x style then n else 0).
Proof.
  intros S. unfold mark. destruct cond.
  - rewrite (bump_specific h s n S). exists (plus_at style n s).
    split; [reflexivity|]. intros x. unfold plus_at.
    destruct (str_eqb x style); lia.
  - exists s. split; [reflexivity|]. intros x.
    destruct (str_eqb x style); lia.
Qed.

Lemma in_styles :
  In APA styles /\ In MLA styles /\ In CHICAGO styles
  /\ In HARVARD styles /\ In IEEE styles /\ In VANCOUVER styles
  /\ In CSE styles.
Proof. unfold styles. cbn [In]. repeat split; auto 10. Qed.

Lemma markers_shape text :
  exists h s,
    identify_style_markers text = Some (markers_of h s)
    /\ (forall x,
          In x styles ->
          h x <= length (Detector.get_list x bibliography_headers))
    /\ (forall x, In x styles -> s x <= specific_bound x).
Proof.
  destruct in_styles as (I1 & I2 & I3 & I4 & I5 & I6 & I7).
  unfold identify_style_markers. rewrite initial_shape.
  destruct (@header_markers_ok text (fun _ => 0) bibliography_headers)
    with (h := fun _ : pystr => 0) as (h & E0 & B0).
  { intros style H. exact H. }
  rewrite E0. cbn [Detector.bind]. cbv zeta.
  destruct (@mark_ok (found no_flags apa_ampersand text) APA 1 h
              (fun _ => 0) I1) as (s1 & E1 & B1).
  rewrite E1. cbn [Detector.bind].
  destruct (@mark_ok (found no_flags apa_page_mark text) APA 1 h s1 I1)
    as (s2 & E2 & B2).
  rewrite E2. cbn [Detector.bind].
  destruct (@mark_ok (found no_flags mla_and text) MLA 1 h s2 I2)
    as (s3 & E3 & B3).
  rewrite E3. cbn [Detector.bind].
  destruct (@mark_ok (found no_flags mla_page text) MLA 1 h s3 I2)
    as (s4 & E4 & B4).
  rewrite E4. cbn [Detector.bind].
  destruct (@mark_ok (Nat.ltb 0 (findall_count MULTILINE footnote text))
              CHICAGO
              (Nat.min (findall_count MULTILINE footnote text) 5)
              h s4 I3) as (s5 & E5 & B5).
  rewrite E5. cbn [Detector.bind].
  destruct (@mark_ok (Nat.ltb 0 (findall_count no_flags latin text))
              CHICAGO (Nat.min (findall_count no_flags latin text) 3)
              h s5 I3) as (s6 & E6 & B6).
  rewrite E6. cbn [Detector.bind].
  destruct (@mark_ok (found no_flags harvard_colon text) HARVARD 1 h s6
              I4) as (s7 & E7 & B7).
  rewrite E7. cbn [Detector.bind].
  destruct (@mark_ok (Nat.ltb 0 (findall_count no_flags bracket text))
              IEEE (Nat.min (findall_count no_flags bracket text) 5)
              h s7 I5) as (s8 & E8 & B8).
  rewrite E8. cbn [Detector.bind].
  destruct (@mark_ok (found no_flags paren_number text) VANCOUVER 1 h s8
              I6) as (s9 & E9 & B9).
  rewrite E9. cbn [Detector.bind].
  destruct (@mark_ok (found no_flags cse_name_year text) CSE 1 h s9 I7)
    as (s10 & E10 & B10).
  rewrite E10. cbn [Detector.bind].
  exists h, s10. split; [reflexivity|]. split.
  - intros x H. specialize (B0 x). rewrite (header_total H) in B0.
    exact B0.
  - intros x H.
    specialize (B1 x). specialize (B2 x). specialize (B3 x).
    specialize (B4 x). specialize (B5 x). specialize (B6 x).
    specialize (B7 x). specialize (B8 x). specialize (B9 x).
    specialize (B10 x).
    set (fc := findall_count MULTILINE footnote text) in *.
    set (lc := findall_count no_flags latin text) in *.
    set (bc := findall_count no_flags bracket text) in *.
    unfold styles in H. cbn [In] in H.
    repeat (destruct H as [<-|H];
            [repeat match goal with
                    | P : context [str_eqb ?a ?b] |- _ =>
                        let v := eval vm_compute in (str_eqb a b) in
                        change (str_eqb a b) with v in P
                    end;
             match goal with
             | |- _ <= specific_bound ?a =>
                 let v := eval vm_compute in (specific_bound a) in
                 change (specific_bound a) with v
             end;
             cbv iota in B1, B2, B3, B4, B5, B6, B7, B8, B9, B10;
             lia|]).
    destruct H.
Qed.

End MarkerFacts.

(** X20: [identify_style_markers] always returns its dict (no lookup
    fails), with the seven styles in their order.  For each style the
    counters in_text and bibliography are 0 whatever the text, the
    counter headers is at most the number of headers listed for the
    style, and the counter specific is at most 2 for APA and MLA, 8 for
    CHICAGO, 5 for IEEE and 1 for HARVARD, VANCOUVER and CSE. *)
Theorem style_markers_are_bounded (text : pystr) :
  exists markers,
    Markers.identify_style_markers text = Some markers
    /\ keys markers = Markers.styles
    /\ forall style,
         In style Markers.styles ->
         exists h s,
           get style markers
           = Some [(lit "in_text", 0); (lit "bibliography", 0);
                   (lit "headers", h); (lit "specific", s)]
           /\ h <= length
                     (Detector.get_list style Extractor.bibliography_headers)
           /\ s <= Markers.specific_bound style.
Proof.
  destruct (MarkerFacts.markers_shape text) as (h & s & E & Bh & Bs).
  exists (Markers.markers_of h s). split; [exact E|].
  split; [apply MarkerFacts.markers_keys|].
  intros style H. exists (h style), (s style).
  split; [apply (MarkerFacts.get_markers h s H)|].
  split; [apply Bh, H|apply Bs, H].
Qed.

(** ** Texts without any match *)

Module SentinelFacts.
Import Detector Notions DetectorFacts CountFacts.

Lemma sum_zero_iff (l : list nat) :
  list_sum l = 0 <-> forall n, In n l -> n = 0.
Proof.
  induction l as [|a l IH]; cbn [list_sum fold_right In].
  - split; [intros _ n []|reflexivity].
  - change (fold_right Nat.add 0 l) with (list_sum l). split.
    + intros H n [<-|Hn]; [lia|]. apply (proj1 IH); [lia|exact Hn].
    + intros H. rewrite (proj2 IH); [|intros n Hn; apply H; right; exact Hn].
      rewrite (H a); [reflexivity|left; reflexivity].
Qed.

Lemma matches_zero_iff f ps text :
  matches_of f ps text = 0
  <-> forall p, In p ps -> findall_count f p text = 0.
Proof.
  unfold matches_of. rewrite sum_zero_iff. split.
  - intros H p Hp. apply H. apply in_map_iff. exists p. auto.
  - intros H n Hn. apply in_map_iff in Hn. destruct Hn as (p & <- & Hp).
    apply H, Hp.
Qed.

(** The counts of a table sum to zero exactly when none of its
    patterns matches. *)
Lemma table_zero_iff text (d : odict (list regex)) (c : odict nat) :
  wf d = true ->
  keys c = keys d ->
  (forall style ps,
     In (style, ps) d -> get style c = Some (matches_of MULTILINE ps text)) ->
  (list_sum (values c) = 0
   <-> forall style ps p,
         In (style, ps) d -> In p ps ->
         findall_count MULTILINE p text = 0).
Proof.
  intros W K G. split.
  - intros S style ps p Hd Hp.
    apply (proj1 (matches_zero_iff MULTILINE ps text)); [|exact Hp].
    pose proof (G style ps Hd) as Gs. apply get_In in Gs.
    apply value_le_sum in Gs. lia.
  - intros H. apply sum_zero_if_bounded. intros k v Hc.
    assert (Wc : wf c = true) by (eapply keys_wf; eassumption).
    pose proof (@In_get _ k v c Wc Hc) as Gk.
    assert (Hk : In k (keys d)).
    { rewrite <- K. apply (in_map fst) in Hc. exact Hc. }
    unfold keys in Hk. apply in_map_iff in Hk.
    destruct Hk as ([k' ps] & Ek & Hd). cbn [fst] in Ek. subst k'.
    rewrite (G k ps Hd) in Gk. injection Gk as <-.
    rewrite (proj2 (matches_zero_iff MULTILINE ps text)); [lia|].
    intros p Hp. eapply H; eassumption.
Qed.

Lemma total_zero_iff (self : catalog) text :
  wf (in_text_patterns self) = true ->
  wf (full_citation_patterns self) = true ->
  exists res,
    detect_citation_styles self text = Some res
    /\ (list_sum (values (in_text res))
        + list_sum (values (full_citation res)) = 0
        <-> no_match self text).
Proof.
  intros W1 W2. unfold detect_citation_styles.
  destruct (@count_table_sum text _ W1) as (c1 & E1 & K1 & G1).
  destruct (@count_table_sum text _ W2) as (c2 & E2 & K2 & G2).
  rewrite E1, E2. cbn [bind]. eexists. split; [reflexivity|].
  cbn [in_text full_citation].
  pose proof (@table_zero_iff text _ c1 W1 K1 G1) as Z1.
  pose proof (@table_zero_iff text _ c2 W2 K2 G2) as Z2.
  unfold no_match. split.
  - intros S style ps p Hd Hp. apply in_app_or in Hd.
    destruct Hd as [Hd|Hd].
    + apply (proj1 Z1) with (style := style) (ps := ps);
        [lia|assumption|assumption].
    + apply (proj1 Z2) with (style := style) (ps := ps);
        [lia|assumption|assumption].
  - intros H.
    rewrite (proj2 Z1), (proj2 Z2); [reflexivity| |].
    + intros style ps p Hd Hp. apply (H style ps p); [|exact Hp].
      apply in_or_app. right. exact Hd.
    + intros style ps p Hd Hp. apply (H style ps p); [|exact Hp].
      apply in_or_app. left. exact Hd.
Qed.

End SentinelFacts.

(** X21: on a detector with well-formed tables,
    [identify_primary_style] returns the sentinel with the confidence 0
    exactly when no pattern of either table matches anywhere in the
    text; and then [extract_citations] returns two empty lists. *)
Theorem sentinel_iff_no_match (self : Detector.catalog) (text : pystr) :
  wf (Detector.in_text_patterns self) = true ->
  wf (Detector.full_citation_patterns self) = true ->
  (Detector.identify_primary_style self text = Some (Detector.NONE, 0%Q)
   <-> Notions.no_match self text)
  /\ (Notions.no_match self text ->
      Detector.extract_citations self text
      = Some {| Detector.en_texto := []; Detector.bibliograficas := [] |}).
Proof.
  intros W1 W2.
  destruct (SentinelFacts.total_zero_iff self text W1 W2) as (res & E & Z).
  assert (F : Notions.no_match self text ->
              Detector.identify_primary_style self text
              = Some (Detector.NONE, 0%Q)).
  { intros N. apply (proj2 Z) in N. unfold Detector.identify_primary_style.
    rewrite E. cbn [Detector.bind]. rewrite N. reflexivity. }
  split; [split; [|exact F]|].
  - intros I.
    destruct (ScoreFacts.identify_first self text W1 W2)
      as (res' & comb & E' & Ec & Wc & S & H).
    rewrite E in E'. injection E' as <-. cbv zeta in S, H.
    destruct H as [[T _]|(T & l1 & s & v & l2 & Ed & H1 & H2 & I')].
    + apply (proj1 Z). exact T.
    + exfalso. rewrite I in I'. injection I' as _ V _.
      assert (V0 : v = 0) by lia. subst v.
      assert (S0 : list_sum (values comb) = 0).
      { apply DetectorFacts.sum_zero_if_bounded. intros k x Hin.
        rewrite Ed in Hin. apply in_app_or in Hin.
        destruct Hin as [Hin|[Hin|Hin]].
        - specialize (H1 k x Hin). lia.
        - injection Hin as _ <-. lia.
        - apply (H2 k x Hin). }
      lia.
  - intros N. unfold Detector.extract_citations. rewrite (F N).
    cbn [Detector.bind fst]. rewrite str_eqb_refl. reflexivity.
Qed.

Lemma sentinel_iff_no_match_witness :
  (Detector.identify_primary_style Notions.two_styles (lit "xyz")
   = Some (Detector.NONE, 0%Q)
   <-> Notions.no_match Notions.two_styles (lit "xyz"))
  /\ (Notions.no_match Notions.two_styles (lit "xyz") ->
      Detector.extract_citations Notions.two_styles (lit "xyz")
      = Some {| Detector.en_texto := []; Detector.bibliograficas := [] |}).
Proof.
  apply (@sentinel_iff_no_match Notions.two_styles (lit "xyz"));
    reflexivity.
Defined.

(** ** Author matching as a relation *)

